(** * socialregistration/views.py: a shallow embedding of the views

    The views of [socialregistration/views.py] are embedded as functions in a
    state-and-exception monad over a [World]: the database tables the views
    query, the session dictionary of the request, [request.user] and the
    queue of the messages framework.  Python dictionaries are finite maps,
    Python exceptions are values of [Exn], and every view returns an
    [HttpResponse].

    Embedded from the source: [post_disconnect_redirect_url], [disconnect],
    [_get_next], [_authenticate_login_redirect], [setup], [facebook_login],
    [facebook_connect], [twitter], [get_object], [oauth_redirect] and
    [openid_callback].  Calls to the logger are left out, except that the
    calls of [_get_next] in their arguments are kept, since they change the
    session.  What the OAuth and OpenID clients of [socialregistration/utils.py]
    answer (the user info, the validity of the assertion, the identity, the
    redirect to the provider) is an argument of the view.  Django's object
    manager, [save], [login] and the content types are modelled on the
    tables of [Database]; the authentication backends and the forms, whose
    modules are not at hand, are modelled from the specification. *)

From stdpp Require Import base option list strings gmap fin_maps.
From Stdlib Require Import Lia.

Open Scope string_scope.

(** ** Models *)

(** The three profile classes of [socialregistration.models]. *)
Inductive Network := FacebookProfile | TwitterProfile | OpenIDProfile.

(** A model class, as a content type denotes it. *)
Inductive Model :=
| UserModel
| ProfileModel (n : Network)
| OtherModel (app_label model : string).

Global Instance Network_eq_dec : EqDecision Network.
Proof. solve_decision. Defined.
Global Instance Model_eq_dec : EqDecision Model.
Proof. solve_decision. Defined.

(** [ContentType.natural_key()]. *)
Definition natural_key (m : Model) : string * string :=
  match m with
  | UserModel => ("auth", "user")
  | ProfileModel FacebookProfile => ("socialregistration", "facebookprofile")
  | ProfileModel TwitterProfile => ("socialregistration", "twitterprofile")
  | ProfileModel OpenIDProfile => ("socialregistration", "openidprofile")
  | OtherModel a m => (a, m)
  end.

(** [django.contrib.auth.models.User], with the fields the views touch. *)
Record User := mkUser {
  u_pk : option nat;
  username : string;
  email : string;
  password : string;
  is_active : bool }.

(** [User()]. *)
Definition User_new : User := mkUser None "" "" "" true.

(** A profile instance.  The columns are the keyword arguments of the
    [create] calls of the views: the remote id ([uid], [twitter_id] or
    [identity], the field the class names in [remote_id_field]),
    [screenname], [consumer_key], [consumer_secret], the generic foreign key
    ([content_type], [object_id]) behind [content_object], and [site].
    [secret] is the instance attribute that [facebook_connect] assigns; it
    is no column, so [save] does not write it. *)
Record Profile := mkProfile {
  p_pk : option nat;
  p_class : Network;
  remote_id : string;
  screenname : string;
  consumer_key : option string;
  consumer_secret : string;
  content_type : option Model;
  object_id : option nat;
  site : nat;
  secret : option string }.

(** Any model instance seen through what the views use of it: its class,
    its primary key and [get_absolute_url] when the class defines it. *)
Record Instance := mkInstance {
  i_class : Model;
  i_pk : nat;
  get_absolute_url : option string }.

Global Instance User_eq_dec : EqDecision User.
Proof. solve_decision. Defined.
Global Instance Profile_eq_dec : EqDecision Profile.
Proof. solve_decision. Defined.
Global Instance Instance_eq_dec : EqDecision Instance.
Proof. solve_decision. Defined.

(** ** Python values, settings, requests and responses *)

(** The values the session and the template contexts hold. *)
Inductive Value :=
| VNone
| VBool (b : bool)
| VInt (n : nat)
| VStr (s : string)
| VDict (d : gmap string string)
| VUser (u : User)
| VProfile (p : Profile)
| VInstance (i : Instance)
| VForm (claim : bool) (bound : bool).

Global Instance Value_eq_dec : EqDecision Value.
Proof. solve_decision. Defined.

Inductive Exn :=
| KeyError (key : string)
| AttributeError (attr : string)
| TypeError
| ValueError
| FieldError
| DoesNotExist (m : string)
| MultipleObjectsReturned
| IntegrityError
| NotImplementedError
| ExistingUser.

(** [django.conf.settings] and the URL configuration: the settings the
    views read with [getattr] are optional. *)
Record Settings := mkSettings {
  SOCIALREGISTRATION_GENERATE_USERNAME : option bool;
  SOCIALREGISTRATION_DISCONNECT_URL : option string;
  LOGIN_REDIRECT_URL : option string;
  SITE_ID : nat;
  socialregistration_setup_url : string }.

Definition GENERATE_USERNAME (settings : Settings) : bool :=
  default false (SOCIALREGISTRATION_GENERATE_USERNAME settings).

Definition FB_ERROR : string := "We couldn't validate your Facebook credentials".

(** [request.facebook], set by the Facebook middleware. *)
Record Facebook := mkFacebook {
  fb_uid : option string;
  fb_user : option (gmap string string) }.

(** The part of the request a view only reads. *)
Record Request := mkRequest {
  method : string;
  GET : gmap string string;
  POST : gmap string string;
  META : gmap string string;
  facebook : Facebook }.

Inductive HttpResponse :=
| HttpResponseRedirect (url : Value)
| render_to_response (template : string) (context : gmap string Value).

Global Instance HttpResponse_eq_dec : EqDecision HttpResponse.
Proof. solve_decision. Defined.

(** ** The world a view runs in *)

Record Database := mkDatabase {
  content_types : list (nat * Model);
  users : list User;
  profiles : list Profile;
  instances : list Instance }.

Record World := mkWorld {
  db : Database;
  session : gmap string Value;
  user : option User;
  messages : list string }.

Definition set_db (d : Database) (w : World) : World :=
  mkWorld d (session w) (user w) (messages w).
Definition set_session (s : gmap string Value) (w : World) : World :=
  mkWorld (db w) s (user w) (messages w).
Definition set_user (u : option User) (w : World) : World :=
  mkWorld (db w) (session w) u (messages w).
Definition add_message (m : string) (w : World) : World :=
  mkWorld (db w) (session w) (user w) (messages w ++ [m]).

Definition set_users (l : list User) (d : Database) : Database :=
  mkDatabase (content_types d) l (profiles d) (instances d).
Definition set_profiles (l : list Profile) (d : Database) : Database :=
  mkDatabase (content_types d) (users d) l (instances d).

(** ** The monad of the views: state and exceptions *)

Inductive Outcome (A : Type) :=
| Ok (a : A) (w : World)
| Raise (e : Exn) (w : World).
Arguments Ok {A} a w.
Arguments Raise {A} e w.

Definition M (A : Type) : Type := World -> Outcome A.

Definition ret {A} (a : A) : M A := fun w => Ok a w.
Definition raise {A} (e : Exn) : M A := fun w => Raise e w.
Definition bind {A B} (m : M A) (k : A -> M B) : M B :=
  fun w => match m w with
           | Ok a w' => k a w'
           | Raise e w' => Raise e w'
           end.

Notation "x <- m ;; k" := (bind m (fun x => k))
  (at level 100, m at next level, right associativity).
Notation "m ;;; k" := (bind m (fun _ => k))
  (at level 100, right associativity).

(** [try: m except E: h], where [handles e] says which exceptions the
    clause catches. *)
Definition try_except {A} (m : M A) (handles : Exn -> bool) (h : M A) : M A :=
  fun w => match m w with
           | Ok a w' => Ok a w'
           | Raise e w' => if handles e then h w' else Raise e w'
           end.

Definition get_world : M World := fun w => Ok w w.
Definition modify (f : World -> World) : M unit := fun w => Ok tt (f w).
Definition lift_option {A} (e : Exn) (o : option A) : M A :=
  match o with Some a => ret a | None => raise e end.

Definition is_KeyError (e : Exn) : bool :=
  match e with KeyError _ => true | _ => false end.
Definition is_DoesNotExist (e : Exn) : bool :=
  match e with DoesNotExist _ => true | _ => false end.
Definition is_ExistingUser (e : Exn) : bool :=
  match e with ExistingUser => true | _ => false end.
Definition is_AttributeError (e : Exn) : bool :=
  match e with AttributeError _ => true | _ => false end.

(** [request.session[key]], [key in request.session],
    [request.session[key] = v] and [del request.session[key]]. *)
Definition session_get (key : string) : M Value :=
  fun w => match session w !! key with
           | Some v => Ok v w
           | None => Raise (KeyError key) w
           end.
Definition session_has (key : string) : M bool :=
  fun w => Ok (bool_decide (is_Some (session w !! key))) w.
Definition session_set (key : string) (v : Value) : M unit :=
  modify (fun w => set_session (<[key := v]> (session w)) w).
Definition session_del (key : string) : M unit :=
  fun w => match session w !! key with
           | Some _ => Ok tt (set_session (delete key (session w)) w)
           | None => Raise (KeyError key) w
           end.

(** ** [_get_next] *)

Definition _get_next (settings : Settings) (request : Request) : M Value :=
  in_session <- session_has "next" ;;
  if in_session then
    next <- session_get "next" ;;
    session_del "next" ;;;
    ret next
  else match GET request !! "next" with
  | Some v => ret (VStr v)
  | None =>
    match POST request !! "next" with
    | Some v => ret (VStr v)
    | None => ret (VStr (default "/" (LOGIN_REDIRECT_URL settings)))
    end
  end.

(** ** [post_disconnect_redirect_url]

    [request] is the optional second argument; a request object is always
    true, so [if request:] tests that the argument was given.  The session
    read is the one of that request. *)
Definition post_disconnect_redirect_url (settings : Settings)
    (instance : Instance) (request : option (gmap string Value)) : Value :=
  match get_absolute_url instance with
  | Some url => VStr url
  | None =>
    match request ≫= (fun s => s !! "SOCIALREGISTRATION_DISCONNECT_URL") with
    | Some v => v
    | None =>
      let url := default "" (SOCIALREGISTRATION_DISCONNECT_URL settings) in
      if bool_decide (url = "") then VStr "/" else VStr url
    end
  end.

(** ** The object-relational layer

    Django's managers and [save], reduced to the tables of [Database]. *)

(** [Model.objects.get]: exactly one row, or an exception. *)
Definition get_one {A} (name : string) (rows : list A) : M A :=
  match rows with
  | [] => raise (DoesNotExist name)
  | [x] => ret x
  | _ => raise MultipleObjectsReturned
  end.

(** The next value of an auto-increment primary key. *)
Definition fresh_pk (pks : list (option nat)) : nat :=
  S (max_list (omap id pks)).

(** [ContentType.objects.get(pk=...)], [get_by_natural_key] and the id of
    the content type of a model. *)
Definition ContentType_get (pk : nat) : M Model :=
  w <- get_world ;;
  lift_option (DoesNotExist "ContentType")
    (snd <$> head (filter (fun r => fst r = pk) (content_types (db w)))).
Definition ContentType_get_by_natural_key (app_label model : string) : M Model :=
  w <- get_world ;;
  lift_option (DoesNotExist "ContentType")
    (snd <$> head (filter (fun r => natural_key (snd r) = (app_label, model))
                          (content_types (db w)))).
Definition content_type_id (d : Database) (m : Model) : option nat :=
  fst <$> head (filter (fun r => snd r = m) (content_types d)).

(** [ProfileClass.objects]. *)
Definition objects (n : Network) (d : Database) : list Profile :=
  filter (fun p => p_class p = n) (profiles d).

(** The keyword arguments of a profile lookup.  A criterion that is [None]
    is not given; a given one is the value looked up, [None] for Python's
    [None], which only a null column equals. *)
Record Query := mkQuery {
  q_remote_id : option (option string);
  q_content_type : option (option Model);
  q_content_type_id : option (option nat);
  q_object_id : option (option nat);
  q_site : option (option nat) }.

Definition criterion {A} `{EqDecision A} (c : option (option A)) (a : option A) : bool :=
  match c with
  | None => true
  | Some x => bool_decide (a = x)
  end.

Definition matches (d : Database) (q : Query) (p : Profile) : bool :=
  criterion (q_remote_id q) (Some (remote_id p))
  && criterion (q_content_type q) (content_type p)
  && criterion (q_content_type_id q) (content_type p ≫= content_type_id d)
  && criterion (q_object_id q) (object_id p)
  && criterion (q_site q) (Some (site p)).

Definition objects_filter (n : Network) (q : Query) (d : Database) : list Profile :=
  filter (fun p => matches d q p) (objects n d).

Definition objects_get (n : Network) (q : Query) : M Profile :=
  w <- get_world ;;
  get_one "Profile" (objects_filter n q (db w)).

(** [user.save()]: an insert when the instance has no primary key, an
    update of its row otherwise; [username] is unique. *)
Definition username_taken (u : User) (d : Database) : bool :=
  bool_decide (Exists (fun r => username r = username u /\ u_pk r <> u_pk u) (users d)).

Definition User_save (u : User) : M User :=
  w <- get_world ;;
  let d := db w in
  if username_taken u d then raise IntegrityError else
  match u_pk u with
  | Some k =>
    if bool_decide (Exists (fun r => u_pk r = Some k) (users d)) then
      modify (set_db (set_users
        ((fun r => if bool_decide (u_pk r = Some k) then u else r) <$> users d) d)) ;;;
      ret u
    else
      modify (set_db (set_users (users d ++ [u]) d)) ;;; ret u
  | None =>
    let u' := mkUser (Some (fresh_pk (u_pk <$> users d)))
                     (username u) (email u) (password u) (is_active u) in
    modify (set_db (set_users (users d ++ [u']) d)) ;;; ret u'
  end.

(** [user.set_unusable_password()] and [user.has_usable_password()]. *)
Definition UNUSABLE_PASSWORD : string := "!".
Definition set_unusable_password (u : User) : User :=
  mkUser (u_pk u) (username u) (email u) UNUSABLE_PASSWORD (is_active u).
Definition has_usable_password (u : User) : bool :=
  negb (bool_decide (password u = UNUSABLE_PASSWORD)).
Definition set_username (name : string) (u : User) : User :=
  mkUser (u_pk u) name (email u) (password u) (is_active u).

(** The row [save] writes for a profile instance: its columns. *)
Definition row_of (pk : nat) (p : Profile) : Profile :=
  mkProfile (Some pk) (p_class p) (remote_id p) (screenname p) (consumer_key p)
            (consumer_secret p) (content_type p) (object_id p) (site p) None.

Definition same_row (n : Network) (k : nat) (r : Profile) : bool :=
  bool_decide (p_class r = n /\ p_pk r = Some k).

(** [profile.save()]; the instance comes back with its primary key set. *)
Definition Profile_save (p : Profile) : M Profile :=
  w <- get_world ;;
  let d := db w in
  match p_pk p with
  | Some k =>
    if bool_decide (Exists (fun r => same_row (p_class p) k r) (profiles d)) then
      modify (set_db (set_profiles
        ((fun r => if same_row (p_class p) k r then row_of k p else r) <$> profiles d) d)) ;;;
      ret p
    else
      modify (set_db (set_profiles (profiles d ++ [row_of k p]) d)) ;;; ret p
  | None =>
    let k := fresh_pk (p_pk <$> objects (p_class p) d) in
    modify (set_db (set_profiles (profiles d ++ [row_of k p]) d)) ;;;
    ret (mkProfile (Some k) (p_class p) (remote_id p) (screenname p) (consumer_key p)
                   (consumer_secret p) (content_type p) (object_id p) (site p) (secret p))
  end.

(** [profile.delete()]. *)
Definition Profile_delete (p : Profile) : M unit :=
  modify (fun w => set_db (set_profiles
    (filter (fun r => ~ (p_class r = p_class p /\ p_pk r = p_pk p)) (profiles (db w)))
    (db w)) w).

(** Model instances as [Instance]s. *)
Definition instance_of_user (u : User) : option Instance :=
  (fun k => mkInstance UserModel k (Some ("/users/" ++ username u ++ "/"))) <$> u_pk u.
Definition instance_of_profile (p : Profile) : option Instance :=
  (fun k => mkInstance (ProfileModel (p_class p)) k None) <$> p_pk p.

(** The rows of [model] with primary key [pk]. *)
Definition Model_rows (model : Model) (pk : nat) (d : Database) : list Instance :=
  match model with
  | UserModel =>
    omap instance_of_user (filter (fun u => u_pk u = Some pk) (users d))
  | ProfileModel n =>
    omap instance_of_profile (filter (fun p => p_pk p = Some pk) (objects n d))
  | OtherModel _ _ =>
    filter (fun i => i_class i = model /\ i_pk i = pk) (instances d)
  end.

(** [model.objects.get(pk=...)]. *)
Definition Model_objects_get (model : Model) (pk : nat) : M Instance :=
  w <- get_world ;;
  get_one "Model" (Model_rows model pk (db w)).

(** [profile.content_object]: the generic foreign key resolved, [None]
    when the row it names is gone; and the assignment to it. *)
Definition content_object (p : Profile) (d : Database) : option Instance :=
  m ← content_type p; k ← object_id p; head (Model_rows m k d).

Definition set_content_object (target : option (Model * option nat)) (p : Profile) : Profile :=
  mkProfile (p_pk p) (p_class p) (remote_id p) (screenname p) (consumer_key p)
            (consumer_secret p) (fst <$> target) (target ≫= snd) (site p) (secret p).

(** [ProfileClass.objects.create(content_object=..., ...)]; the remote id is
    a column that cannot be null. *)
Definition objects_create (n : Network) (target : Model * option nat)
    (rid : option string) (name : string) (key : option string) (sec : string)
    (site_id : nat) : M Profile :=
  match rid with
  | None => raise IntegrityError
  | Some r =>
    Profile_save (mkProfile None n r name key sec (Some (fst target)) (snd target)
                            site_id None)
  end.

(** ** Authentication *)

(** Modelled from the spec: [authenticate(uid=...)], [authenticate(twitter_id=...)]
    and [authenticate(identity=...)] run the authentication backends of
    [socialregistration/auth.py], which is not part of the sources at hand.
    The spec (4.1): "Looks up a ProviderProfile by (provider, remote_id).
    On hit, returns the bound target"; a target that is no user account of
    the database authenticates nobody. *)
Definition authenticate (n : Network) (rid : string) : M (option User) :=
  w <- get_world ;;
  ret (p ← head (objects_filter n (mkQuery (Some (Some rid)) None None None None) (db w));
       match content_type p, object_id p with
       | Some UserModel, Some k => head (filter (fun u => u_pk u = Some k) (users (db w)))
       | _, _ => None
       end).

(** Modelled from the spec: [profile.authenticate()] of
    [socialregistration/models.py], which is not part of the sources at
    hand: the lookup of 4.1 at the profile's own provider and remote id. *)
Definition Profile_authenticate (p : Profile) : M (option User) :=
  authenticate (p_class p) (remote_id p).

Definition SESSION_KEY : string := "_auth_user_id".

Definition user_id (u : User) : Value :=
  match u_pk u with Some k => VInt k | None => VNone end.

(** [django.contrib.auth.login]: a session that belongs to another user is
    flushed, then the user is recorded in the session and on the request.
    With no user it falls back on [request.user], which cannot be logged
    in.  The [last_login] stamp is not modelled. *)
Definition login (u : option User) : M unit :=
  w <- get_world ;;
  match u with
  | None =>
    match user w with
    | None => raise NotImplementedError
    | Some _ => raise (AttributeError "backend")
    end
  | Some u =>
    (match session w !! SESSION_KEY with
     | Some v => if bool_decide (v = user_id u) then ret tt
                 else modify (set_session ∅)
     | None => ret tt
     end) ;;;
    session_set SESSION_KEY (user_id u) ;;;
    modify (set_user (Some u))
  end.

Definition as_profile (v : Value) : M Profile :=
  match v with VProfile p => ret p | _ => raise (AttributeError "remote_id") end.
Definition as_user (v : Value) : M User :=
  match v with VUser u => ret u | _ => raise (AttributeError "username") end.

(** [__class__] and [pk] of a model instance held as a value. *)
Definition class_and_pk (v : Value) : M (Model * option nat) :=
  match v with
  | VInstance i => ret (i_class i, Some (i_pk i))
  | VUser u => ret (UserModel, u_pk u)
  | VProfile p => ret (ProfileModel (p_class p), p_pk p)
  | _ => raise (AttributeError "pk")
  end.

(** ** [_authenticate_login_redirect] *)

Definition _authenticate_login_redirect (settings : Settings) (request : Request)
    : M HttpResponse :=
  v <- session_get "socialregistration_profile" ;;
  p <- as_profile v ;;
  u <- Profile_authenticate p ;;
  login u ;;;
  has_user <- session_has "socialregistration_user" ;;
  (if has_user then session_del "socialregistration_user" else ret tt) ;;;
  has_profile <- session_has "socialregistration_profile" ;;
  (if has_profile then session_del "socialregistration_profile" else ret tt) ;;;
  next <- _get_next settings request ;;
  ret (HttpResponseRedirect next).

(** ** [disconnect]

    The call of [post_disconnect_redirect_url] in the log line has no
    effect; both calls pass the content object alone. *)
Definition disconnect (settings : Settings) (request : Request)
    (network object_type object_id : nat) : M HttpResponse :=
  profile_model <- ContentType_get network ;;
  profile <- match profile_model with
             | ProfileModel n =>
               objects_get n (mkQuery None None (Some (Some object_type))
                                      (Some (Some object_id)) None)
             | _ => raise FieldError
             end ;;
  model <- ContentType_get object_type ;;
  content_object <- Model_objects_get model object_id ;;
  if bool_decide (method request = "POST") then
    Profile_delete profile ;;;
    ret (HttpResponseRedirect (post_disconnect_redirect_url settings content_object None))
  else
    ret (render_to_response "socialregistration/confirm_disconnect.html"
           {[ "profile" := VProfile profile; "instance" := VInstance content_object ]}).

(** ** The forms of the setup view

    [setup] takes its two form classes as arguments; a form class is what
    the view calls on a form: [is_valid] and [save].  A form holds the very
    objects the session holds, so [save] hands them back as it left them. *)
Record Form := mkForm {
  form_user : Value;
  form_profile : Value;
  form_data : option (gmap string string) }.

Record FormClass := mkFormClass {
  is_claim : bool;
  is_valid : Form -> M bool;
  save : Form -> M Form }.

Definition form_value (c : FormClass) (f : Form) : Value :=
  VForm (is_claim c) (bool_decide (is_Some (form_data f))).

Definition user_target (u : User) : option (Model * option nat) :=
  Some (UserModel, u_pk u).

(** Modelled from the spec: [UserForm] of [socialregistration/forms.py],
    which is not part of the sources at hand.  The spec (4.3 a, b and 7): an
    available username is accepted and [save] creates the local account and
    the profile bound to it; a username held by an account with a usable
    password raises [ExistingUser], which opens the claim; a username held
    by an account without one is unavailable. *)
Definition UserForm_is_valid (f : Form) : M bool :=
  w <- get_world ;;
  match form_data f ≫= (fun d => d !! "username") with
  | None => ret false
  | Some name =>
    if bool_decide (name = "") then ret false else
    match filter (fun u => username u = name) (users (db w)) with
    | [] => ret true
    | u :: _ => if has_usable_password u then raise ExistingUser else ret false
    end
  end.

Definition UserForm_save (f : Form) : M Form :=
  u <- as_user (form_user f) ;;
  p <- as_profile (form_profile f) ;;
  let d := default ∅ (form_data f) in
  u <- User_save (mkUser (u_pk u) (default "" (d !! "username"))
                         (default "" (d !! "email")) (password u) (is_active u)) ;;
  p <- Profile_save (set_content_object (user_target u) p) ;;
  ret (mkForm (VUser u) (VProfile p) (form_data f)).

Definition UserForm : FormClass := mkFormClass false UserForm_is_valid UserForm_save.

(** Modelled from the spec: [ClaimForm] of [socialregistration/forms.py],
    which is not part of the sources at hand.  The spec (4.3 b): the claim is
    valid when the submitted password is the real password of the account
    of that name; [save] attaches the profile to the claimed account. *)
Definition claimed_account (f : Form) (d : Database) : option User :=
  data ← form_data f;
  name ← data !! "username";
  pass ← data !! "password";
  head (filter (fun u => username u = name /\ has_usable_password u
                         /\ password u = pass) (users d)).

Definition ClaimForm_is_valid (f : Form) : M bool :=
  w <- get_world ;;
  ret (bool_decide (is_Some (claimed_account f (db w)))).

Definition ClaimForm_save (f : Form) : M Form :=
  w <- get_world ;;
  u <- lift_option (AttributeError "cleaned_data") (claimed_account f (db w)) ;;
  p <- as_profile (form_profile f) ;;
  p <- Profile_save (set_content_object (user_target u) p) ;;
  ret (mkForm (form_user f) (VProfile p) (form_data f)).

Definition ClaimForm : FormClass := mkFormClass true ClaimForm_is_valid ClaimForm_save.

(** The session entries of the pending registration are the objects a form
    or the view has just mutated. *)
Definition store_pending (user profile : Value) : M unit :=
  session_set "socialregistration_user" user ;;;
  session_set "socialregistration_profile" profile.

(** ** [setup] *)

(** Lines 117 to 123: the profile is linked to the content object of the
    first existing profile with its remote id. *)
Definition setup_link_existing (settings : Settings) (request : Request)
    (social_profile existing_profile : Profile) : M HttpResponse :=
  w <- get_world ;;
  let target := (fun i => (i_class i, Some (i_pk i))) <$>
                content_object existing_profile (db w) in
  social_profile <- Profile_save (set_content_object target social_profile) ;;
  session_set "socialregistration_profile" (VProfile social_profile) ;;;
  _authenticate_login_redirect settings request.

(** Lines 133 to 139, the body of the [try]: [Some] is a response returned
    from inside it, [None] falls through to the render. *)
Definition setup_try_form (settings : Settings) (request : Request)
    (form_class : FormClass) (form : Form) : M (option HttpResponse) :=
  valid <- is_valid form_class form ;;
  if valid then
    form <- save form_class form ;;
    store_pending (form_user form) (form_profile form) ;;;
    p <- as_profile (form_profile form) ;;
    u <- Profile_authenticate p ;;
    u <- lift_option (AttributeError "set_unusable_password") u ;;
    User_save (set_unusable_password u) ;;;
    r <- _authenticate_login_redirect settings request ;;
    ret (Some r)
  else ret None.

(** Lines 141 to 163, the [except ExistingUser] clause: the response it
    returns, or the claim form and the extra context it falls through with. *)
Definition setup_claim (settings : Settings) (request : Request)
    (claim_form_class : FormClass) (extra_context : gmap string Value)
    : M (HttpResponse + Value * gmap string Value) :=
  u <- session_get "socialregistration_user" ;;
  p <- session_get "socialregistration_profile" ;;
  let form := mkForm u p (if bool_decide (is_Some (POST request !! "submitted"))
                          then Some (POST request) else None) in
  valid <- is_valid claim_form_class form ;;
  if valid then
    form' <- save claim_form_class form ;;
    store_pending (form_user form') (form_profile form') ;;;
    r <- _authenticate_login_redirect settings request ;;
    ret (inl r)
  else
    ret (inr (form_value claim_form_class form,
              <["claim_account" := VBool true]> extra_context)).

(** Lines 171 to 182: the account is generated.  [uuid4] is the string of
    the random UUID the view draws. *)
Definition setup_generate (settings : Settings) (request : Request)
    (uuid4 : string) (social_user social_profile : Value) : M HttpResponse :=
  u <- as_user social_user ;;
  u <- User_save (set_username (String.substring 0 30 uuid4) u) ;;
  session_set "socialregistration_user" (VUser u) ;;;
  u <- User_save (set_unusable_password u) ;;
  session_set "socialregistration_user" (VUser u) ;;;
  p <- as_profile social_profile ;;
  p <- Profile_save (set_content_object (user_target u) p) ;;
  session_set "socialregistration_profile" (VProfile p) ;;;
  _authenticate_login_redirect settings request.

Definition setup (settings : Settings) (request : Request) (uuid4 : string)
    (template : string) (form_class : FormClass)
    (extra_context : gmap string Value) (claim_form_class : FormClass)
    : M HttpResponse :=
  pending <- try_except
    (social_user <- session_get "socialregistration_user" ;;
     social_profile <- session_get "socialregistration_profile" ;;
     ret (Some (social_user, social_profile)))
    is_KeyError (ret None) ;;
  match pending with
  | None => ret (render_to_response template {[ "error" := VBool true ]})
  | Some (social_user, social_profile) =>
    sp <- as_profile social_profile ;;
    w <- get_world ;;
    match objects_filter (p_class sp)
            (mkQuery (Some (Some (remote_id sp))) None None None None) (db w) with
    | existing_profile :: _ =>
      setup_link_existing settings request sp existing_profile
    | [] =>
      if negb (GENERATE_USERNAME settings) then
        fallthrough <-
          (if negb (bool_decide (method request = "POST")) then
             ret (inr (form_value form_class (mkForm social_user social_profile None),
                       extra_context))
           else
             let form := mkForm social_user social_profile (Some (POST request)) in
             try_except
               (r <- setup_try_form settings request form_class form ;;
                ret (match r with
                     | Some r => inl r
                     | None => inr (form_value form_class form, extra_context)
                     end))
               is_ExistingUser
               (setup_claim settings request claim_form_class extra_context)) ;;
        match fallthrough with
        | inl r => ret r
        | inr (form, extra_context) =>
          ret (render_to_response template (<["form" := form]> extra_context))
        end
      else
        setup_generate settings request uuid4 social_user social_profile
    end
  end.

(** ** [facebook_login] *)

(** [FacebookProfile(uid=...)], [TwitterProfile(...)] and
    [OpenIDProfile(identity=...)]: unsaved instances. *)
Definition Profile_new (settings : Settings) (n : Network) (rid name : string)
    (key : option string) (sec : string) : Profile :=
  mkProfile None n rid name key sec None None (SITE_ID settings) None.

Definition facebook_login (settings : Settings) (request : Request)
    (template : string) (extra_context : gmap string Value)
    (account_inactive_template : string) : M HttpResponse :=
  match fb_uid (facebook request) with
  | None =>
    ret (render_to_response template (<["error" := VStr FB_ERROR]> extra_context))
  | Some uid =>
    u <- authenticate FacebookProfile uid ;;
    match u with
    | None =>
      session_set "socialregistration_user" (VUser User_new) ;;;
      session_set "socialregistration_profile"
        (VProfile (Profile_new settings FacebookProfile uid "" None "")) ;;;
      next <- _get_next settings request ;;
      session_set "next" next ;;;
      ret (HttpResponseRedirect (VStr (socialregistration_setup_url settings)))
    | Some u =>
      if negb (is_active u) then
        ret (render_to_response account_inactive_template extra_context)
      else
        login (Some u) ;;;
        next <- _get_next settings request ;;
        ret (HttpResponseRedirect next)
    end
  end.

(** ** [get_object] *)

Definition digit (a : Ascii.ascii) : option nat :=
  let n := Ascii.nat_of_ascii a in
  if ((48 <=? n)%nat && (n <=? 57)%nat)%bool then Some (n - 48)%nat else None.

Fixpoint digits (s : string) (acc : nat) : option nat :=
  match s with
  | EmptyString => Some acc
  | String a s' => d ← digit a; digits s' (10 * acc + d)%nat
  end.

(** The primary key a query-string value denotes. *)
Definition int (s : string) : M nat :=
  if bool_decide (s = "") then raise ValueError
  else lift_option ValueError (digits s 0).

(** ['a' and 'm' in info] is ['m' in info]. *)
Definition get_object (info : gmap string string) : M (option Instance) :=
  if bool_decide (is_Some (info !! "m")) then
    a <- lift_option (KeyError "a") (info !! "a") ;;
    m <- lift_option (KeyError "m") (info !! "m") ;;
    model <- ContentType_get_by_natural_key a m ;;
    i <- lift_option (KeyError "i") (info !! "i") ;;
    pk <- int i ;;
    o <- Model_objects_get model pk ;;
    ret (Some o)
  else ret None.

Definition value_of_object (o : option Instance) : Value :=
  match o with Some i => VInstance i | None => VNone end.

(** ** [facebook_connect] *)

(** Lines 233 to 235 and 252 to 254: the found profile takes the new access
    token and is saved. *)
Definition facebook_update (fb : gmap string string) (profile : Profile) : M Profile :=
  Profile_save
    (mkProfile (p_pk profile) (p_class profile) (remote_id profile)
               (screenname profile) (fb !! "access_token") (consumer_secret profile)
               (content_type profile) (object_id profile) (site profile)
               (Some (default "" (fb !! "secret")))).

(** [getattr(request.facebook, 'user', False)] when it is true: the user
    dictionary, if there is one and it is not empty. *)
Definition authorized (f : Facebook) : option (gmap string string) :=
  match fb_user f with
  | Some fb => if bool_decide (fb = ∅) then None else Some fb
  | None => None
  end.

(** Lines 250 to 258 of [facebook_connect]: the profile of the logged-in
    user is fetched and refreshed, or created when there is none. *)
Definition facebook_link_user (settings : Settings) (fb : gmap string string)
    (uid : string) (u : User) : M (option HttpResponse) :=
  try_except
    (profile <- objects_get FacebookProfile
       (mkQuery (Some (Some uid)) (Some (Some UserModel)) None None None) ;;
     facebook_update fb profile ;;; ret None)
    is_DoesNotExist
    (objects_create FacebookProfile (UserModel, u_pk u) (Some uid) ""
       (fb !! "access_token") (default "" (fb !! "secret"))
       (SITE_ID settings) ;;; ret None).

(** Line 269 logs [_get_next(request)] and line 270 calls it again. *)
Definition facebook_connect (settings : Settings) (request : Request)
    (template : string) (extra_context : gmap string Value) : M HttpResponse :=
  connect_object <- get_object (GET request) ;;
  match authorized (facebook request) with
  | Some fb =>
    linked <-
      match connect_object with
      | Some obj =>
        try_except
          (profile <- objects_get FacebookProfile
             (mkQuery (Some (fb_uid (facebook request))) (Some (Some (i_class obj))) None
                      (Some (Some (i_pk obj))) None) ;;
           facebook_update fb profile ;;; ret None)
          is_DoesNotExist
          (objects_create FacebookProfile (i_class obj, Some (i_pk obj))
             (fb_uid (facebook request)) "" (fb !! "access_token")
             (default "" (fb !! "secret")) (SITE_ID settings) ;;; ret None)
      | None =>
        w <- get_world ;;
        match fb_uid (facebook request), user w with
        | Some uid, Some u =>
          facebook_link_user settings fb uid u
        | _, _ =>
          ret (Some (render_to_response template
                       (<["error" := VStr FB_ERROR]> extra_context)))
        end
      end ;;
    match linked with
    | Some response => ret response
    | None =>
      _get_next settings request ;;;
      next <- _get_next settings request ;;
      ret (HttpResponseRedirect next)
    end
  | None =>
    modify (add_message
      "You must authorize the Facebook application in order to link your account.") ;;;
    redirect <- match META request !! "HTTP_REFERER" with
                | Some r => ret (VStr r)
                | None => _get_next settings request
                end ;;
    ret (HttpResponseRedirect redirect)
  end.

(** ** [twitter] *)

(** [value[field]] on a session value. *)
Definition subscript (v : Value) (field : string) : M string :=
  match v with
  | VDict d => lift_option (KeyError field) (d !! field)
  | _ => raise TypeError
  end.

(** Lines 303 to 316: a field of the access token, from either session key,
    and the empty string when neither has it. *)
Definition access_token_field (field : string) : M string :=
  try_except
    (v <- session_get "oauth_api.twitter.com_access_token" ;; subscript v field)
    is_KeyError
    (try_except
       (v <- session_get "oauth_twitter.com_access_token" ;; subscript v field)
       (fun _ => true)
       (ret "")).

(** [key in request.session and request.session[key] != None]. *)
Definition connect_object_in_session : M (option Value) :=
  w <- get_world ;;
  ret (match session w !! "socialregistration_connect_object" with
       | Some VNone => None
       | o => o
       end).

(** Lines 325 to 331 of [twitter]: the profile of the connect object is
    fetched, or created when there is none. *)
Definition twitter_link_object (settings : Settings) (user_info : gmap string string)
    (obj : Value) (oauth_token oauth_token_secret : string) : M unit :=
  try_except
    (id <- lift_option (KeyError "id") (user_info !! "id") ;;
     target <- class_and_pk obj ;;
     objects_get TwitterProfile
       (mkQuery (Some (Some id)) (Some (Some (fst target))) None
                (Some (snd target)) None) ;;;
     ret tt)
    is_DoesNotExist
    (target <- class_and_pk obj ;;
     id <- lift_option (KeyError "id") (user_info !! "id") ;;
     name <- lift_option (KeyError "screen_name") (user_info !! "screen_name") ;;
     objects_create TwitterProfile target (Some id) name (Some oauth_token)
       oauth_token_secret (SITE_ID settings) ;;;
     ret tt).

(** Lines 339 to 342 of [twitter]: the profile of the logged-in user is
    fetched, or created when there is none. *)
Definition twitter_get_or_create (settings : Settings) (user_info : gmap string string)
    (u : User) (oauth_token oauth_token_secret : string) : M Profile :=
  try_except
    (id <- lift_option (KeyError "id") (user_info !! "id") ;;
     objects_get TwitterProfile
       (mkQuery (Some (Some id)) (Some (Some UserModel)) None None None))
    is_DoesNotExist
    (id <- lift_option (KeyError "id") (user_info !! "id") ;;
     name <- lift_option (KeyError "screen_name") (user_info !! "screen_name") ;;
     objects_create TwitterProfile (UserModel, u_pk u) (Some id) name
       (Some oauth_token) oauth_token_secret (SITE_ID settings)).

(** [user_info] is the answer of [client.get_user_info()]. *)
Definition twitter (settings : Settings) (request : Request)
    (user_info : gmap string string)
    (account_inactive_template : string) (extra_context : gmap string Value)
    : M HttpResponse :=
  oauth_token <- access_token_field "oauth_token" ;;
  oauth_token_secret <- access_token_field "oauth_token_secret" ;;
  connect_object <- connect_object_in_session ;;
  returned <-
    match connect_object with
    | Some obj =>
      twitter_link_object settings user_info obj oauth_token oauth_token_secret ;;;
      session_del "socialregistration_connect_object" ;;;
      ret None
    | None =>
      w <- get_world ;;
      match user w with
      | Some u =>
        twitter_get_or_create settings user_info u oauth_token oauth_token_secret ;;;
        _get_next settings request ;;;
        next <- _get_next settings request ;;
        ret (Some (HttpResponseRedirect next))
      | None =>
        id <- lift_option (KeyError "id") (user_info !! "id") ;;
        u <- authenticate TwitterProfile id ;;
        match u with
        | None =>
          name <- lift_option (KeyError "screen_name") (user_info !! "screen_name") ;;
          session_set "socialregistration_profile"
            (VProfile (Profile_new settings TwitterProfile id name (Some oauth_token)
                                   oauth_token_secret)) ;;;
          session_set "socialregistration_user" (VUser User_new) ;;;
          next <- _get_next settings request ;;
          session_set "next" next ;;;
          ret (Some (HttpResponseRedirect (VStr (socialregistration_setup_url settings))))
        | Some u =>
          if negb (is_active u) then
            ret (Some (render_to_response account_inactive_template extra_context))
          else login (Some u) ;;; ret None
        end
      end
    end ;;
  match returned with
  | Some response => ret response
  | None =>
    next_url <- _get_next settings request ;;
    ret (HttpResponseRedirect next_url)
  end.

(** ** [oauth_redirect]

    [client_redirect] is the answer of [client.get_redirect()]. *)
Definition oauth_redirect (settings : Settings) (request : Request)
    (client_redirect : HttpResponse) : M HttpResponse :=
  o <- get_object (GET request) ;;
  session_set "socialregistration_connect_object" (value_of_object o) ;;;
  next <- _get_next settings request ;;
  session_set "next" next ;;;
  ret client_redirect.

(** ** [openid_callback] *)

(** Lines 473 to 477 of [openid_callback]: the profile of the connect
    object is fetched, or created when there is none. *)
Definition openid_link_object (settings : Settings) (identity : string) (obj : Value)
    : M unit :=
  try_except
    (target <- class_and_pk obj ;;
     objects_get OpenIDProfile
       (mkQuery (Some (Some identity)) (Some (Some (fst target))) None
                (Some (snd target)) None) ;;;
     ret tt)
    is_DoesNotExist
    (target <- class_and_pk obj ;;
     objects_create OpenIDProfile target (Some identity) "" None ""
       (SITE_ID settings) ;;;
     ret tt).

(** [client_is_valid] and [identity] are [client.is_valid()] and
    [client.result.identity_url]. *)
Definition openid_callback (settings : Settings) (request : Request)
    (client_is_valid : bool) (identity : string)
    (template : string) (extra_context : gmap string Value)
    (account_inactive_template : string) : M HttpResponse :=
  if client_is_valid then
    connect_object <- connect_object_in_session ;;
    returned <-
      match connect_object with
      | Some obj =>
        openid_link_object settings identity obj ;;;
        session_del "socialregistration_connect_object" ;;;
        ret None
      | None =>
        w <- get_world ;;
        match user w with
        | Some u =>
          try_except
            (objects_get OpenIDProfile
               (mkQuery (Some (Some identity)) (Some (Some UserModel)) None None
                        (Some (Some (SITE_ID settings)))))
            is_DoesNotExist
            (objects_create OpenIDProfile (UserModel, u_pk u) (Some identity) "" None ""
               (SITE_ID settings)) ;;;
          _get_next settings request ;;;
          next <- _get_next settings request ;;
          ret (Some (HttpResponseRedirect next))
        | None =>
          u <- authenticate OpenIDProfile identity ;;
          match u with
          | None =>
            session_set "socialregistration_user" (VUser User_new) ;;;
            session_set "socialregistration_profile"
              (VProfile (Profile_new settings OpenIDProfile identity "" None "")) ;;;
            ret (Some (HttpResponseRedirect
                         (VStr (socialregistration_setup_url settings))))
          | Some u =>
            if negb (is_active u) then
              ret (Some (render_to_response account_inactive_template extra_context))
            else
              login (Some u) ;;;
              _get_next settings request ;;;
              ret None
          end
        end
      end ;;
    match returned with
    | Some response => ret response
    | None =>
      next <- _get_next settings request ;;
      ret (HttpResponseRedirect next)
    end
  else ret (render_to_response template ∅).

(** ** Running a view *)

Definition world_of {A} (o : Outcome A) : World :=
  match o with Ok _ w => w | Raise _ w => w end.
Definition response_of {A} (o : Outcome A) : option A :=
  match o with Ok a _ => Some a | Raise _ _ => None end.

(** ** Sample worlds

    A small installation on which the views are run: a blog whose articles
    can carry social profiles, two accounts, and a profile of each
    network. *)

Definition Article : Model := OtherModel "blog" "article".

Definition sample_settings : Settings :=
  mkSettings None None None 1 "/social/setup/".

Definition alice : User := mkUser (Some 1) "alice" "alice@example.com" "sha1$x$1" true.
Definition bob : User := mkUser (Some 2) "bob" "bob@example.com" "sha1$y$2" true.

Definition article_42 : Instance := mkInstance Article 42 None.

Definition alice_facebook : Profile :=
  mkProfile (Some 1) FacebookProfile "fb-1001" "" (Some "token-old") "secret-old"
            (Some UserModel) (Some 1) 1 None.
Definition alice_twitter : Profile :=
  mkProfile (Some 1) TwitterProfile "1001" "alice_tw" (Some "token-old") "secret-old"
            (Some UserModel) (Some 1) 1 None.
Definition article_twitter : Profile :=
  mkProfile (Some 2) TwitterProfile "2002" "blog_tw" (Some "token-art") "secret-art"
            (Some Article) (Some 42) 1 None.

Definition sample_db : Database :=
  mkDatabase [(1, UserModel); (2, ProfileModel FacebookProfile);
              (3, ProfileModel TwitterProfile); (4, ProfileModel OpenIDProfile);
              (5, Article)]
             [alice; bob]
             [alice_facebook; alice_twitter; article_twitter]
             [article_42].

Definition no_facebook : Facebook := mkFacebook None None.

Definition get_request : Request := mkRequest "GET" ∅ ∅ ∅ no_facebook.
Definition post_request : Request := mkRequest "POST" ∅ ∅ ∅ no_facebook.

Definition anonymous_world : World := mkWorld sample_db ∅ None [].

(** Alice is logged in and the session holds where to go next. *)
Definition alice_session : gmap string Value :=
  {[ SESSION_KEY := VInt 1; "next" := VStr "/dashboard/" ]}.
Definition alice_world : World := mkWorld sample_db alice_session (Some alice) [].

Definition alice_user_info : gmap string string :=
  {[ "id" := "1001"; "screen_name" := "alice_tw" ]}.

(** The session holds a disconnect URL of its own. *)
Definition override_world : World :=
  mkWorld sample_db
          {[ SESSION_KEY := VInt 1;
             "SOCIALREGISTRATION_DISCONNECT_URL" := VStr "/profile/links/" ]}
          (Some alice) [].

(** A Facebook cookie whose uid is the empty string. *)
Definition empty_uid_request : Request :=
  mkRequest "GET" ∅ ∅ ∅ (mkFacebook (Some "") None).

(** An assertion that offers no subject identifier, as the specification
    words it: the remote id is absent or empty. *)
Definition no_subject_identifier (uid : option string) : Prop :=
  uid = None \/ uid = Some "".

(** An abandoned registration is still in the session when a Facebook
    identity that is already linked logs in. *)
Definition stale_pending_session : gmap string Value :=
  {[ "socialregistration_user" := VUser User_new;
     "socialregistration_profile" :=
       VProfile (Profile_new sample_settings TwitterProfile "9999" "ghost" None "") ]}.
Definition stale_world : World := mkWorld sample_db stale_pending_session None [].

Definition alice_facebook_request : Request :=
  mkRequest "GET" ∅ ∅ ∅
            (mkFacebook (Some "fb-1001") (Some {[ "access_token" := "token-new" ]})).

(** The session keys of the pending registration are gone. *)
Definition pending_registration_cleared (w : World) : Prop :=
  session w !! "socialregistration_user" = None
  /\ session w !! "socialregistration_profile" = None.

(** A visitor whose Facebook identity was set up on a sibling site comes to
    the setup view of this one. *)
Definition sibling_pending_session : gmap string Value :=
  {[ "socialregistration_user" := VUser User_new;
     "socialregistration_profile" :=
       VProfile (Profile_new sample_settings FacebookProfile "fb-1001" "" None "");
     "next" := VStr "/dashboard/" ]}.
Definition sibling_world : World := mkWorld sample_db sibling_pending_session None [].

(** A visitor whose OpenID identity is the remote id of a Twitter profile. *)
Definition other_provider_session : gmap string Value :=
  {[ "socialregistration_user" := VUser User_new;
     "socialregistration_profile" :=
       VProfile (Profile_new sample_settings OpenIDProfile "1001" "" None "") ]}.
Definition other_provider_world : World :=
  mkWorld sample_db other_provider_session None [].

Definition sample_uuid4 : string := "6fa459ea-ee8a-3ca4-894e-db77e160355e".

(** The lookup of the setup view: the profiles of a class with a remote id. *)
Definition with_remote_id (rid : string) : Query :=
  mkQuery (Some (Some rid)) None None None None.

(** The article was named as the connect object before the redirect to
    Twitter; meanwhile Bob has logged in. *)
Definition connect_session : gmap string Value :=
  {[ SESSION_KEY := VInt 2;
     "socialregistration_connect_object" := VInstance article_42;
     "next" := VStr "/blog/42/" ]}.
Definition connect_world : World := mkWorld sample_db connect_session (Some bob) [].

Definition new_user_info : gmap string string :=
  {[ "id" := "3003"; "screen_name" := "press_tw" ]}.

(** A profile of class [n] with remote id [rid] that is bound to the model
    instance [obj]. *)
Definition bound_to (n : Network) (rid : string) (obj : Instance) (p : Profile) : Prop :=
  p_class p = n /\ remote_id p = rid
  /\ content_type p = Some (i_class obj) /\ object_id p = Some (i_pk obj).

(** An outcome with [request.user] replaced, and the computations whose
    outcome does not depend on [request.user]. *)
Definition with_user {A} (u : option User) (o : Outcome A) : Outcome A :=
  match o with
  | Ok a w => Ok a (set_user u w)
  | Raise e w => Raise e (set_user u w)
  end.

Definition ignores_user {A} (m : M A) : Prop :=
  forall w u, m (set_user u w) = with_user u (m w).

(** Alice, logged in, comes back from Twitter with a new access token. *)
Definition reconnect_session : gmap string Value :=
  {[ SESSION_KEY := VInt 1;
     "oauth_api.twitter.com_access_token" :=
       VDict {[ "oauth_token" := "token-new"; "oauth_token_secret" := "secret-new" ]} ]}.
Definition reconnect_world : World := mkWorld sample_db reconnect_session (Some alice) [].

(** The primary key of the profile tables: every row has one, and no two
    rows of a class share it. *)
Definition primary_keys (d : Database) : Prop :=
  (forall p, p ∈ profiles d -> is_Some (p_pk p))
  /\ NoDup ((fun p => (p_class p, p_pk p)) <$> profiles d).

(** A profile of class [n] with remote id [rid] that is linked to the user
    account [u]. *)
Definition linked_to_user (n : Network) (rid : string) (u : User) (p : Profile) : Prop :=
  p_class p = n /\ remote_id p = rid
  /\ content_type p = Some UserModel /\ object_id p = u_pk u.

(** The lookup of the connect views: the profiles of a remote id on the
    user content type. *)
Definition of_user_model (rid : string) : Query :=
  mkQuery (Some (Some rid)) (Some (Some UserModel)) None None None.

(** The profile [facebook_connect] saves: the found one with the new access
    token. *)
Definition with_access_token (fb : gmap string string) (p : Profile) : Profile :=
  mkProfile (p_pk p) (p_class p) (remote_id p) (screenname p) (fb !! "access_token")
            (consumer_secret p) (content_type p) (object_id p) (site p) None.

(** A visitor with a new OpenID identity is at the setup view. *)
Definition openid_pending_session : gmap string Value :=
  {[ "socialregistration_user" := VUser User_new;
     "socialregistration_profile" :=
       VProfile (Profile_new sample_settings OpenIDProfile "https://example.com/carol"
                             "" None "");
     "next" := VStr "/welcome/" ]}.
Definition openid_pending_world : World :=
  mkWorld sample_db openid_pending_session None [].

Definition carol_request : Request :=
  mkRequest "POST" ∅ {[ "username" := "carol"; "email" := "carol@example.com" ]} ∅
            no_facebook.

Definition generate_settings : Settings :=
  mkSettings (Some true) None None 1 "/social/setup/".

(** The account [setup] creates for the pending user: the next primary
    key, the chosen name and the unusable password. *)
Definition new_account (d : Database) (name mail : string) (su : User) : User :=
  mkUser (Some (fresh_pk (u_pk <$> users d))) name mail UNUSABLE_PASSWORD (is_active su).

(** The row [setup] saves for the pending profile bound to an account. *)
Definition new_profile_row (d : Database) (account : User) (sp : Profile) : Profile :=
  row_of (fresh_pk (p_pk <$> objects (p_class sp) d))
         (set_content_object (user_target account) sp).

(** ** Notions used by the properties *)

(** A computation that leaves the world as it found it, whatever its
    outcome. *)
Definition read_only {A} (m : M A) : Prop := forall w, world_of (m w) = w.

(** A computation that touches the database alone. *)
Definition db_only {A} (m : M A) : Prop :=
  forall w, exists d, world_of (m w) = set_db d w.

(** The session value under the first token key, if any, is a dictionary:
    then reading a token field raises nothing (the second key is read under
    a bare [except]). *)
Definition token_keys_are_dicts (w : World) : Prop :=
  forall v, session w !! "oauth_api.twitter.com_access_token" = Some v ->
            exists d, v = VDict d.

(** The session names no connect object: the key is absent or holds
    [None]. *)
Definition no_connect_object (w : World) : Prop :=
  session w !! "socialregistration_connect_object" = None
  \/ session w !! "socialregistration_connect_object" = Some VNone.

(** A response of the setup view that was produced by
    [_authenticate_login_redirect]. *)
Definition from_login_redirect (settings : Settings) (request : Request)
    (response : HttpResponse) (w' : World) : Prop :=
  exists w0, _authenticate_login_redirect settings request w0 = Ok response w'.

(** Lines 320 to 334 and 366 to 368 of [twitter]. *)
Definition twitter_connect_object_branch (settings : Settings) (request : Request)
    (user_info : gmap string string) (obj : Value) : M HttpResponse :=
  oauth_token <- access_token_field "oauth_token" ;;
  oauth_token_secret <- access_token_field "oauth_token_secret" ;;
  twitter_link_object settings user_info obj oauth_token oauth_token_secret ;;;
  session_del "socialregistration_connect_object" ;;;
  next_url <- _get_next settings request ;;
  ret (HttpResponseRedirect next_url).

(** Lines 468 to 481 and 514 of [openid_callback]. *)
Definition openid_connect_object_branch (settings : Settings) (request : Request)
    (identity : string) (obj : Value) : M HttpResponse :=
  openid_link_object settings identity obj ;;;
  session_del "socialregistration_connect_object" ;;;
  next <- _get_next settings request ;;
  ret (HttpResponseRedirect next).

(** What the link step does to the world, and what it leaves behind when
    it returns. *)
Definition links_object (n : Network) (rid : option string) (obj : Instance)
    (w : World) (o : Outcome unit) : Prop :=
  session (world_of o) = session w
  /\ (forall p, p ∈ profiles (db (world_of o)) ->
        p ∈ profiles (db w) \/ exists r, rid = Some r /\ bound_to n r obj p)
  /\ (forall w', o = Ok tt w' ->
        exists r p, rid = Some r /\ p ∈ profiles (db w') /\ bound_to n r obj p).

(** Computations that leave the database as it is, whatever their
    outcome. *)
Definition keeps_db {A} (m : M A) : Prop := forall w, db (world_of (m w)) = db w.

(** [save] on a row that is in the table rewrites the row in place. *)
Definition rewrite_row (p : Profile) (k : nat) (r : Profile) : Profile :=
  if same_row (p_class p) k r then row_of k p else r.

(** The in-place update of [facebook_connect] on the profile it finds. *)
Definition refresh_token (fb : gmap string string) (found r : Profile) : Profile :=
  if decide (r = found) then with_access_token fb found else r.

(** The lookup of [openid_callback] for a logged-in user: the profiles of an
    identity on the user content type and on the current site. *)
Definition of_user_model_on_site (rid : string) (site_id : nat) : Query :=
  mkQuery (Some (Some rid)) (Some (Some UserModel)) None None (Some (Some site_id)).

(** Alice has linked her Facebook identity and nothing else. *)
Definition facebook_only_db : Database :=
  mkDatabase (content_types sample_db) (users sample_db) [alice_facebook]
             (instances sample_db).
Definition facebook_only_world : World :=
  mkWorld facebook_only_db reconnect_session (Some alice) [].

(** Alice has linked an OpenID identity on this site as well. *)
Definition alice_openid : Profile :=
  mkProfile (Some 1) OpenIDProfile "https://example.com/alice" "" None ""
            (Some UserModel) (Some 1) 1 None.
Definition linked_db : Database :=
  mkDatabase (content_types sample_db) (users sample_db)
             [alice_facebook; alice_twitter; article_twitter; alice_openid]
             (instances sample_db).
Definition linked_world : World := mkWorld linked_db reconnect_session (Some alice) [].

(** The same identity, linked on another site of the same database. *)
Definition alice_openid_elsewhere : Profile :=
  mkProfile (Some 1) OpenIDProfile "https://example.com/alice" "" None ""
            (Some UserModel) (Some 1) 2 None.
Definition elsewhere_db : Database :=
  mkDatabase (content_types sample_db) (users sample_db)
             [alice_facebook; alice_twitter; article_twitter; alice_openid_elsewhere]
             (instances sample_db).
Definition elsewhere_world : World :=
  mkWorld elsewhere_db reconnect_session (Some alice) [].

(** The abandoned registration sits in a session that belongs to Bob. *)
Definition stale_bob_world : World :=
  mkWorld sample_db (<[SESSION_KEY := VInt 2]> stale_pending_session) (Some bob) [].


(** ** The remaining views *)

(** [logout]: [auth_logout] flushes the session and leaves the request
    anonymous.  [redirect_url] is the optional argument of the view and
    [logout_redirect_url] the optional setting [LOGOUT_REDIRECT_URL]; an
    empty [redirect_url] is false, so the setting is used. *)
Definition auth_logout : M unit :=
  modify (fun w => set_user None (set_session ∅ w)).

Definition logout (logout_redirect_url redirect_url : option string) : M HttpResponse :=
  auth_logout ;;;
  let url := match redirect_url with
             | Some u => if bool_decide (u = "") then default "/" logout_redirect_url
                         else u
             | None => default "/" logout_redirect_url
             end in
  ret (HttpResponseRedirect (VStr url)).

(** [request.GET.get(key)]. *)
Definition GET_get (request : Request) (key : string) : Value :=
  match GET request !! key with
  | Some v => VStr v
  | None => VNone
  end.

(** [openid_redirect].  [client_redirect] is the answer of
    [client.get_redirect()], [None] when it raises [DiscoveryFailure];
    [login_url] is [settings.LOGIN_URL]. *)
Definition openid_redirect (settings : Settings) (request : Request)
    (login_url : string) (client_redirect : option HttpResponse) : M HttpResponse :=
  next <- _get_next settings request ;;
  session_set "next" next ;;;
  session_set "openid_provider" (GET_get request "openid_provider") ;;;
  o <- get_object (GET request) ;;
  session_set "socialregistration_connect_object" (value_of_object o) ;;;
  match client_redirect with
  | Some response => ret response
  | None =>
    session_set "openid_error" (VBool true) ;;;
    ret (HttpResponseRedirect (VStr login_url))
  end.

(** ** Notions used by the properties of the views *)

(** The next URL the request itself names, or the configured default: what
    [_get_next] answers when the session holds none. *)
Definition explicit_next (settings : Settings) (request : Request) : Value :=
  match GET request !! "next" with
  | Some v => VStr v
  | None =>
    match POST request !! "next" with
    | Some v => VStr v
    | None => VStr (default "/" (LOGIN_REDIRECT_URL settings))
    end
  end.

(** What [_get_next] answers: the session value, if any, first. *)
Definition resolved_next (settings : Settings) (request : Request) (w : World) : Value :=
  default (explicit_next settings request) (session w !! "next").

(** The world with the [next] key taken out of the session. *)
Definition without_next (w : World) : World :=
  set_session (delete "next" (session w)) w.

(** The lookup of [disconnect]: the profiles on a content type id and an
    object id. *)
Definition of_target (object_type object_id : nat) : Query :=
  mkQuery None None (Some (Some object_type)) (Some (Some object_id)) None.

(** The rows [profile.delete()] leaves. *)
Definition other_rows (profile : Profile) (rows : list Profile) : list Profile :=
  filter (fun r => ~ (p_class r = p_class profile /\ p_pk r = p_pk profile)) rows.

(** What the second token key gives for a field: its value when the key
    holds a dictionary with the field, the empty string otherwise. *)
Definition token_fallback (field : string) (w : World) : string :=
  match session w !! "oauth_twitter.com_access_token" with
  | Some (VDict d) => default "" (d !! field)
  | _ => ""
  end.

(** The session after the redirect-out has stored the connect object and
    the next URL. *)
Definition redirect_out_session (settings : Settings) (request : Request)
    (o : option Instance) (w : World) : gmap string Value :=
  <["next" := resolved_next settings request w]>
    (<["socialregistration_connect_object" := value_of_object o]> (session w)).

(** An outcome carried over to another world: the answer or the exception
    with the world replaced. *)
Definition in_world {A} (w : World) (o : Outcome A) : Outcome A :=
  match o with
  | Ok a _ => Ok a w
  | Raise e _ => Raise e w
  end.

(** A computation that reads the database and nothing else, and changes
    nothing. *)
Definition reads_db_only {A} (m : M A) : Prop :=
  forall w1 w2, db w1 = db w2 -> m w1 = in_world w1 (m w2).

(** The session [openid_redirect] has built before it looks for the connect
    object. *)
Definition openid_out_session (settings : Settings) (request : Request) (w : World)
    : gmap string Value :=
  <["openid_provider" := GET_get request "openid_provider"]>
    (<["next" := resolved_next settings request w]> (session w)).

Definition not_authorized_message : string :=
  "You must authorize the Facebook application in order to link your account.".

(** ** More sample requests *)

(** The link to the Twitter redirect on the page of the article. *)
Definition connect_request : Request :=
  mkRequest "GET" {[ "a" := "blog"; "m" := "article"; "i" := "42";
                     "next" := "/blog/42/" ]} ∅ ∅ no_facebook.

Definition twitter_authorize : HttpResponse :=
  HttpResponseRedirect (VStr "https://api.twitter.com/oauth/authorize").

(** The answer to a visitor who did not authorize the application: a
    message is queued and the visitor is sent back to the referring page,
    with the session as it was, or, when the request names no referrer, to
    the next URL, which is then taken out of the session. *)
Definition sent_back (settings : Settings) (request : Request) (message : string)
    (w : World) (response : HttpResponse) (w' : World) : Prop :=
  db w' = db w /\ user w' = user w /\ messages w' = (messages w ++ [message])%list
  /\ match META request !! "HTTP_REFERER" with
     | Some r => response = HttpResponseRedirect (VStr r) /\ session w' = session w
     | None => response = HttpResponseRedirect (resolved_next settings request w)
               /\ session w' = delete "next" (session w)
     end.

(** The OpenID form was submitted from the login page. *)
Definition openid_request : Request :=
  mkRequest "GET" {[ "openid_provider" := "https://example.com/carol";
                     "next" := "/welcome/" ]} ∅ ∅ no_facebook.

(** The session [login] leaves: a session that belongs to another account
    is flushed, then the account is recorded. *)
Definition session_after_login (u : User) (w : World) : gmap string Value :=
  <[SESSION_KEY := user_id u]>
    (match session w !! SESSION_KEY with
     | Some v => if bool_decide (v = user_id u) then session w else ∅
     | None => session w
     end).

(** The world after [login] and the [_get_next] that follows it. *)
Definition logged_in (u : User) (w : World) : World :=
  set_user (Some u) (set_session (delete "next" (session_after_login u w)) w).

(** Where a view that logs [u] in and then asks [_get_next] redirects to. *)
Definition next_after_login (settings : Settings) (request : Request) (u : User)
    (w : World) : Value :=
  default (explicit_next settings request) (session_after_login u w !! "next").

(** The session with a pending registration and the next URL stored. *)
Definition pending_session (settings : Settings) (request : Request)
    (profile : Profile) (w : World) : gmap string Value :=
  <["next" := resolved_next settings request w]>
    (<["socialregistration_profile" := VProfile profile]>
       (<["socialregistration_user" := VUser User_new]> (session w))).

(** An installation with a deactivated account that has a profile of each
    network; the visitor's session holds a next URL. *)
Definition dave : User := mkUser (Some 3) "dave" "dave@example.com" "sha1$z$3" false.
Definition dave_facebook : Profile :=
  mkProfile (Some 2) FacebookProfile "fb-4004" "" None ""
            (Some UserModel) (Some 3) 1 None.
Definition dave_twitter : Profile :=
  mkProfile (Some 3) TwitterProfile "4004" "dave_tw" (Some "token-dave") "secret-dave"
            (Some UserModel) (Some 3) 1 None.
Definition dave_openid : Profile :=
  mkProfile (Some 1) OpenIDProfile "https://example.com/dave" "" None ""
            (Some UserModel) (Some 3) 1 None.
Definition dormant_db : Database :=
  mkDatabase (content_types sample_db) [alice; bob; dave]
             [alice_facebook; alice_twitter; article_twitter;
              dave_facebook; dave_twitter; dave_openid]
             [article_42].
Definition dormant_world : World :=
  mkWorld dormant_db {[ "next" := VStr "/inbox/" ]} None [].

Definition dave_facebook_request : Request :=
  mkRequest "GET" ∅ ∅ ∅ (mkFacebook (Some "fb-4004") None).
Definition dave_user_info : gmap string string :=
  {[ "id" := "4004"; "screen_name" := "dave_tw" ]}.

(** A visitor nobody knows yet, with a next URL in the query string. *)
Definition erin_facebook_request : Request :=
  mkRequest "GET" {[ "next" := "/welcome/" ]} ∅ ∅ (mkFacebook (Some "fb-5005") None).
Definition erin_user_info : gmap string string :=
  {[ "id" := "5005"; "screen_name" := "erin_tw" ]}.
Definition next_request : Request :=
  mkRequest "GET" {[ "next" := "/welcome/" ]} ∅ ∅ no_facebook.

(** The keys of the session other than the two of the pending
    registration. *)
Definition same_but_pending (s1 s2 : gmap string Value) : Prop :=
  forall key, key <> "socialregistration_user" -> key <> "socialregistration_profile" ->
              s1 !! key = s2 !! key.

(** Lines 230 to 239 of [facebook_connect]: the get, update or create of
    the profile of the connect object. *)
Definition facebook_link_object (settings : Settings) (request : Request)
    (fb : gmap string string) (obj : Instance) : M (option HttpResponse) :=
  try_except
    (profile <- objects_get FacebookProfile
       (mkQuery (Some (fb_uid (facebook request))) (Some (Some (i_class obj))) None
                (Some (Some (i_pk obj))) None) ;;
     facebook_update fb profile ;;; ret None)
    is_DoesNotExist
    (objects_create FacebookProfile (i_class obj, Some (i_pk obj))
       (fb_uid (facebook request)) "" (fb !! "access_token")
       (default "" (fb !! "secret")) (SITE_ID settings) ;;; ret None).

(** Lines 225 to 239 and 269 to 270 of [facebook_connect]. *)
Definition facebook_connect_object_branch (settings : Settings) (request : Request)
    (fb : gmap string string) (obj : Instance) : M HttpResponse :=
  linked <- facebook_link_object settings request fb obj ;;
  match linked with
  | Some response => ret response
  | None =>
    _get_next settings request ;;;
    next <- _get_next settings request ;;
    ret (HttpResponseRedirect next)
  end.

(** The article is named as the connect object of a Facebook connect. *)
Definition facebook_article_request : Request :=
  mkRequest "GET" {[ "a" := "blog"; "m" := "article"; "i" := "42" ]} ∅ ∅
            (mkFacebook (Some "fb-7007") (Some {[ "access_token" := "token-art" ]})).

(** A new visitor asks for a username that is taken. *)
Definition taken_request : Request :=
  mkRequest "POST" ∅ {[ "username" := "bob"; "email" := "erin@example.com" ]} ∅
            no_facebook.
Definition erin_pending_session : gmap string Value :=
  {[ "socialregistration_user" := VUser User_new;
     "socialregistration_profile" :=
       VProfile (Profile_new sample_settings FacebookProfile "fb-5005" "" None "");
     "next" := VStr "/welcome/" ]}.
Definition erin_pending_world : World := mkWorld sample_db erin_pending_session None [].

(** * Properties *)

(** ** Reasoning about the monad *)

Lemma bind_Ok {A B} (m : M A) (k : A -> M B) w b w' :
  bind m k w = Ok b w' -> exists a w1, m w = Ok a w1 /\ k a w1 = Ok b w'.
Proof.
  unfold bind. destruct (m w) as [a w1|e w1]; [eauto | discriminate].
Qed.

Lemma bind_step {A B} (m : M A) (k : A -> M B) w a w1 :
  m w = Ok a w1 -> bind m k w = k a w1.
Proof. unfold bind. intros ->. reflexivity. Qed.

Lemma read_only_ret {A} (a : A) : read_only (ret a).
Proof. intros w. reflexivity. Qed.

Lemma read_only_raise {A} e : read_only (@raise A e).
Proof. intros w. reflexivity. Qed.

Lemma read_only_bind {A B} (m : M A) (k : A -> M B) :
  read_only m -> (forall a, read_only (k a)) -> read_only (bind m k).
Proof.
  intros Hm Hk w. unfold bind. specialize (Hm w).
  destruct (m w) as [a w1|e w1]; simpl in Hm; subst w1; [apply Hk | reflexivity].
Qed.

Lemma read_only_try_except {A} (m h : M A) handles :
  read_only m -> read_only h -> read_only (try_except m handles h).
Proof.
  intros Hm Hh w. unfold try_except. specialize (Hm w).
  destruct (m w) as [a w1|e w1]; simpl in Hm; subst w1; [reflexivity |].
  destruct (handles e); [apply Hh | reflexivity].
Qed.

Lemma read_only_get_world : read_only get_world.
Proof. intros w. reflexivity. Qed.

Lemma read_only_lift_option {A} e (o : option A) : read_only (lift_option e o).
Proof. destruct o; intros w; reflexivity. Qed.

Lemma read_only_get_one {A} name (rows : list A) : read_only (get_one name rows).
Proof. destruct rows as [|x [|y rows]]; intros w; reflexivity. Qed.

Lemma read_only_session_get key : read_only (session_get key).
Proof. intros w. unfold session_get. destruct (session w !! key); reflexivity. Qed.

Lemma read_only_Ok {A} (m : M A) w a w' : read_only m -> m w = Ok a w' -> w' = w.
Proof. intros Hm E. specialize (Hm w). rewrite E in Hm. exact Hm. Qed.

Create HintDb read_only.
#[global] Hint Resolve read_only_ret read_only_raise read_only_get_world
  read_only_lift_option read_only_get_one read_only_session_get : read_only.

Ltac read_only :=
  repeat first
    [ apply read_only_bind; [| intros ?]
    | apply read_only_try_except
    | solve [auto with read_only] ].

Lemma read_only_ContentType_get pk : read_only (ContentType_get pk).
Proof. unfold ContentType_get. read_only. Qed.

Lemma read_only_objects_get n q : read_only (objects_get n q).
Proof. unfold objects_get. read_only. Qed.

Lemma read_only_Model_objects_get m pk : read_only (Model_objects_get m pk).
Proof. unfold Model_objects_get. read_only. Qed.

Lemma read_only_authenticate n rid : read_only (authenticate n rid).
Proof. unfold authenticate. read_only. Qed.

#[global] Hint Resolve read_only_ContentType_get read_only_objects_get
  read_only_Model_objects_get read_only_authenticate : read_only.

(** ** [get_one] and the lookups *)

Lemma get_one_Ok {A} name (rows : list A) w a w' :
  get_one name rows w = Ok a w' -> rows = [a] /\ w' = w.
Proof.
  destruct rows as [|x [|y rows]]; simpl; try discriminate.
  unfold ret. intros [= -> ->]. auto.
Qed.

Lemma objects_get_Ok n q w p w' :
  objects_get n q w = Ok p w' -> objects_filter n q (db w) = [p] /\ w' = w.
Proof.
  unfold objects_get. intros H. apply bind_Ok in H as (w0 & w1 & [= <- <-] & H).
  by apply get_one_Ok in H.
Qed.

Lemma objects_filter_elem n q d p :
  p ∈ objects_filter n q d -> p ∈ profiles d /\ p_class p = n /\ matches d q p = true.
Proof.
  unfold objects_filter, objects. rewrite !list_elem_of_filter.
  intros (Hm & Hc & Hp). split_and!; [done..|]. by apply Is_true_true.
Qed.

Lemma set_db_same w : set_db (db w) w = w.
Proof. by destruct w. Qed.

Lemma read_only_db_only {A} (m : M A) : read_only m -> db_only m.
Proof. intros H w. exists (db w). by rewrite H, set_db_same. Qed.

Lemma db_only_bind {A B} (m : M A) (k : A -> M B) :
  db_only m -> (forall a, db_only (k a)) -> db_only (bind m k).
Proof.
  intros Hm Hk w. unfold bind. destruct (Hm w) as [d Hd].
  destruct (m w) as [a w1|e w1]; simpl in Hd; subst w1.
  - destruct (Hk a (set_db d w)) as [d' Hd']. exists d'. by rewrite Hd'.
  - by exists d.
Qed.

Lemma db_only_try_except {A} (m h : M A) handles :
  db_only m -> db_only h -> db_only (try_except m handles h).
Proof.
  intros Hm Hh w. unfold try_except. destruct (Hm w) as [d Hd].
  destruct (m w) as [a w1|e w1]; simpl in Hd; subst w1; [by exists d |].
  destruct (handles e); [| by exists d].
  destruct (Hh (set_db d w)) as [d' Hd']. exists d'. by rewrite Hd'.
Qed.

Lemma db_only_modify_db (f : World -> Database) : db_only (modify (fun w => set_db (f w) w)).
Proof. intros w. by exists (f w). Qed.

Lemma db_only_Profile_save p : db_only (Profile_save p).
Proof.
  intros w. unfold Profile_save, bind, get_world, modify, ret.
  destruct (p_pk p); [case_bool_decide |]; simpl; eauto.
Qed.

Lemma db_only_objects_create n target rid name key sec site_id :
  db_only (objects_create n target rid name key sec site_id).
Proof.
  unfold objects_create. destruct rid; [apply db_only_Profile_save |].
  apply read_only_db_only, read_only_raise.
Qed.

Lemma db_only_Ok {A} (m : M A) w a w' :
  db_only m -> m w = Ok a w' -> session w' = session w /\ user w' = user w.
Proof. intros Hm E. destruct (Hm w) as [d Hd]. rewrite E in Hd. simpl in Hd. by subst w'. Qed.

(** ** [_get_next] *)

Lemma _get_next_session settings request w v :
  session w !! "next" = Some v ->
  _get_next settings request w = Ok v (set_session (delete "next" (session w)) w).
Proof.
  intros H. unfold _get_next, bind, session_has, session_get, session_del, ret.
  rewrite bool_decide_eq_true_2; [rewrite H; simpl; by rewrite H | rewrite H; eauto].
Qed.

Lemma _get_next_default settings request w :
  session w !! "next" = None ->
  GET request !! "next" = None ->
  POST request !! "next" = None ->
  _get_next settings request w
  = Ok (VStr (default "/" (LOGIN_REDIRECT_URL settings))) w.
Proof.
  intros H HG HP. unfold _get_next, bind, session_has, ret.
  rewrite bool_decide_eq_false_2; [by rewrite HG, HP |].
  rewrite H. by intros [? ?].
Qed.

(** ** [disconnect] *)

Lemma post_disconnect_redirect_url_priority settings instance request :
  post_disconnect_redirect_url settings instance request =
  match get_absolute_url instance,
        request ≫= (fun s => s !! "SOCIALREGISTRATION_DISCONNECT_URL"),
        SOCIALREGISTRATION_DISCONNECT_URL settings with
  | Some url, _, _ => VStr url
  | None, Some v, _ => v
  | None, None, Some url => if bool_decide (url = "") then VStr "/" else VStr url
  | None, None, None => VStr "/"
  end.
Proof.
  unfold post_disconnect_redirect_url.
  destruct (get_absolute_url instance); [done |].
  destruct (request ≫= _); [done |].
  by destruct (SOCIALREGISTRATION_DISCONNECT_URL settings).
Qed.

(** C5: a disconnect request that is not a POST deletes nothing: the world,
    and so the profile, is as it was, and when the view answers, it answers
    with the confirmation page of a profile that is still in the database. *)
Theorem disconnect_without_post_keeps_profile
    settings request network object_type object_id w :
  method request <> "POST" ->
  world_of (disconnect settings request network object_type object_id w) = w
  /\ forall response w',
       disconnect settings request network object_type object_id w = Ok response w' ->
       exists profile instance,
         response = render_to_response "socialregistration/confirm_disconnect.html"
                      {[ "profile" := VProfile profile; "instance" := VInstance instance ]}
         /\ profile ∈ profiles (db w').
Proof.
  intros Hm. unfold disconnect. split.
  - revert w. change (read_only
      (profile_model <- ContentType_get network ;;
       profile <- match profile_model with
                  | ProfileModel n =>
                    objects_get n (mkQuery None None (Some (Some object_type))
                                           (Some (Some object_id)) None)
                  | _ => raise FieldError
                  end ;;
       model <- ContentType_get object_type ;;
       content_object <- Model_objects_get model object_id ;;
       if bool_decide (method request = "POST") then
         Profile_delete profile ;;;
         ret (HttpResponseRedirect
                (post_disconnect_redirect_url settings content_object None))
       else
         ret (render_to_response "socialregistration/confirm_disconnect.html"
                {[ "profile" := VProfile profile;
                   "instance" := VInstance content_object ]}))).
    rewrite bool_decide_eq_false_2 by done.
    apply read_only_bind; [auto with read_only | intros [| n |]];
      (apply read_only_bind; [auto with read_only | intros ?]); read_only.
  - intros response w' H.
    apply bind_Ok in H as (model & w1 & H1 & H).
    apply read_only_Ok in H1 as ->; [| auto with read_only].
    apply bind_Ok in H as (profile & w1 & H1 & H).
    assert (objects_filter_of : exists n, objects_get n
              (mkQuery None None (Some (Some object_type)) (Some (Some object_id)) None) w
              = Ok profile w1).
    { destruct model; try discriminate. eauto. }
    destruct objects_filter_of as [n Hn]. clear H1.
    apply objects_get_Ok in Hn as [Hn ->].
    apply bind_Ok in H as (m & w1 & H1 & H).
    apply read_only_Ok in H1 as ->; [| auto with read_only].
    apply bind_Ok in H as (instance & w1 & H1 & H).
    apply read_only_Ok in H1 as ->; [| auto with read_only].
    rewrite bool_decide_eq_false_2 in H by done. injection H as <- <-.
    exists profile, instance. split; [done |].
    apply (objects_filter_elem n (mkQuery None None (Some (Some object_type))
                                          (Some (Some object_id)) None)).
    rewrite Hn. apply list_elem_of_here.
Qed.

Lemma disconnect_without_post_keeps_profile_witness :
  world_of (disconnect sample_settings get_request 3 5 42 anonymous_world)
  = anonymous_world
  /\ forall response w',
       disconnect sample_settings get_request 3 5 42 anonymous_world = Ok response w' ->
       exists profile instance,
         response = render_to_response "socialregistration/confirm_disconnect.html"
                      {[ "profile" := VProfile profile; "instance" := VInstance instance ]}
         /\ profile ∈ profiles (db w').
Proof.
  apply (disconnect_without_post_keeps_profile sample_settings get_request 3 5 42
           anonymous_world).
  discriminate.
Defined.

Example disconnect_get_renders_confirmation :
  disconnect sample_settings get_request 3 5 42 anonymous_world
  = Ok (render_to_response "socialregistration/confirm_disconnect.html"
          {[ "profile" := VProfile article_twitter; "instance" := VInstance article_42 ]})
       anonymous_world.
Proof. reflexivity. Qed.

Example disconnect_post_deletes :
  profiles (db (world_of (disconnect sample_settings post_request 3 5 42 anonymous_world)))
  = [alice_facebook; alice_twitter].
Proof. reflexivity. Qed.

(** What a successful confirmed disconnect redirects to: the session of the
    request has no part in it. *)
Lemma disconnect_redirect_without_session
    settings request network object_type object_id w url w' :
  disconnect settings request network object_type object_id w
  = Ok (HttpResponseRedirect url) w' ->
  exists content_object,
    url = post_disconnect_redirect_url settings content_object None.
Proof.
  unfold disconnect. intros H.
  apply bind_Ok in H as (model & w1 & _ & H).
  apply bind_Ok in H as (profile & w2 & _ & H).
  apply bind_Ok in H as (m & w3 & _ & H).
  apply bind_Ok in H as (instance & w4 & _ & H).
  case_bool_decide; [| discriminate].
  apply bind_Ok in H as ([] & w5 & _ & H). injection H as <- _. eauto.
Qed.

(** C6: on a confirmed disconnect of a profile whose object has no
    canonical location, with an override in the session and no configured
    default, the order of the claim gives the session override, which is what
    [post_disconnect_redirect_url] answers when it is handed the request;
    the view hands it the object alone and redirects to the root URL. *)
Theorem disconnect_ignores_session_override :
  get_absolute_url article_42 = None
  /\ session override_world !! "SOCIALREGISTRATION_DISCONNECT_URL"
     = Some (VStr "/profile/links/")
  /\ post_disconnect_redirect_url sample_settings article_42
       (Some (session override_world)) = VStr "/profile/links/"
  /\ response_of (disconnect sample_settings post_request 3 5 42 override_world)
     = Some (HttpResponseRedirect (VStr "/"))
  /\ profiles (db (world_of (disconnect sample_settings post_request 3 5 42 override_world)))
     = [alice_facebook; alice_twitter].
Proof. split_and!; reflexivity. Qed.

(** ** [facebook_login] *)

(** C8, as amended: a Facebook login whose uid is absent ([None]) is
    answered with the entry template and the error notice; the world is
    untouched, so no pending registration is stored, and there is no
    redirect to the setup view. *)
Theorem facebook_login_without_uid
    settings request template extra_context account_inactive_template w :
  fb_uid (facebook request) = None ->
  facebook_login settings request template extra_context account_inactive_template w
  = Ok (render_to_response template (<["error" := VStr FB_ERROR]> extra_context)) w.
Proof. intros H. unfold facebook_login. by rewrite H. Qed.

Lemma facebook_login_without_uid_witness :
  facebook_login sample_settings get_request "socialregistration/facebook.html" ∅
                 "socialregistration/account_inactive.html" anonymous_world
  = Ok (render_to_response "socialregistration/facebook.html"
          (<["error" := VStr FB_ERROR]> ∅)) anonymous_world.
Proof.
  apply (facebook_login_without_uid sample_settings get_request
           "socialregistration/facebook.html" ∅
           "socialregistration/account_inactive.html" anonymous_world).
  reflexivity.
Defined.

(** C8, as stated, fails on an empty uid: the uid is empty, yet the view
    stores a pending registration and redirects to the setup view. *)
Lemma facebook_login_empty_uid_offers_setup :
  no_subject_identifier (fb_uid (facebook empty_uid_request))
  /\ exists w',
       facebook_login sample_settings empty_uid_request "socialregistration/facebook.html"
                      ∅ "socialregistration/account_inactive.html" anonymous_world
       = Ok (HttpResponseRedirect (VStr (socialregistration_setup_url sample_settings))) w'
       /\ session w' !! "socialregistration_user" = Some (VUser User_new)
       /\ session w' !! "socialregistration_profile"
          = Some (VProfile (Profile_new sample_settings FacebookProfile "" "" None "")).
Proof.
  split; [by right |]. eexists. split; [reflexivity |]. split; reflexivity.
Qed.

(** ** [setup] without a pending registration *)

(** C9: when the session lacks the pending user or the pending profile,
    [setup] raises nothing: it renders its template with the error flag, and
    the world, so the accounts and the profiles, is as it was. *)
Theorem setup_without_pending_registration
    settings request uuid4 template form_class extra_context claim_form_class w :
  session w !! "socialregistration_user" = None
  \/ session w !! "socialregistration_profile" = None ->
  setup settings request uuid4 template form_class extra_context claim_form_class w
  = Ok (render_to_response template {[ "error" := VBool true ]}) w.
Proof.
  intros H. unfold setup, bind at 1, try_except, bind, session_get.
  destruct (session w !! "socialregistration_user") as [su|] eqn:Hu; simpl.
  - destruct H as [H|H]; [discriminate |]. by rewrite H.
  - reflexivity.
Qed.

Lemma setup_without_pending_registration_witness :
  setup sample_settings get_request "6fa459ea-ee8a-3ca4-894e-db77e160355e"
        "socialregistration/setup.html" UserForm ∅ ClaimForm anonymous_world
  = Ok (render_to_response "socialregistration/setup.html" {[ "error" := VBool true ]})
       anonymous_world.
Proof.
  apply (setup_without_pending_registration sample_settings get_request
           "6fa459ea-ee8a-3ca4-894e-db77e160355e" "socialregistration/setup.html"
           UserForm ∅ ClaimForm anonymous_world).
  left. reflexivity.
Defined.

(** ** [twitter]: the access token and the connect object *)

Lemma read_only_subscript v field : read_only (subscript v field).
Proof. destruct v; simpl; auto with read_only. Qed.
#[global] Hint Resolve read_only_subscript : read_only.

Lemma read_only_access_token_field field : read_only (access_token_field field).
Proof. unfold access_token_field. read_only. Qed.
#[global] Hint Resolve read_only_access_token_field : read_only.

Lemma access_token_field_Ok field w :
  token_keys_are_dicts w -> exists s, access_token_field field w = Ok s w.
Proof.
  intros Hd.
  assert (Hsecond : forall key, exists s,
            try_except (v <- session_get key ;; subscript v field)
                       (fun _ => true) (ret "") w = Ok s w).
  { intros key. unfold try_except, bind, session_get.
    destruct (session w !! key) as [v'|]; [| by eexists].
    pose proof (read_only_subscript v' field w) as Hro.
    destruct (subscript v' field w) as [s w1|e w1]; simpl in Hro; subst w1; by eexists. }
  unfold access_token_field. unfold try_except at 1, bind at 1, session_get at 1.
  destruct (session w !! "oauth_api.twitter.com_access_token") as [v|] eqn:Hv.
  - destruct (Hd v Hv) as [d ->]. simpl.
    destruct (d !! field) as [s|]; simpl; [by eexists | apply Hsecond].
  - simpl. apply Hsecond.
Qed.

Lemma connect_object_in_session_None w :
  no_connect_object w -> connect_object_in_session w = Ok None w.
Proof.
  unfold connect_object_in_session, bind, get_world, ret. by intros [-> | ->].
Qed.

Lemma connect_object_in_session_Some w v :
  session w !! "socialregistration_connect_object" = Some v -> v <> VNone ->
  connect_object_in_session w = Ok (Some v) w.
Proof.
  unfold connect_object_in_session, bind, get_world, ret. intros -> Hv.
  by destruct v.
Qed.

Lemma db_only_twitter_get_or_create settings user_info u tok sec :
  db_only (twitter_get_or_create settings user_info u tok sec).
Proof.
  unfold twitter_get_or_create. apply db_only_try_except.
  - apply read_only_db_only. read_only.
  - apply db_only_bind; [apply read_only_db_only; auto with read_only | intros id].
    apply db_only_bind; [apply read_only_db_only; auto with read_only | intros name].
    apply db_only_objects_create.
Qed.

(** The authenticated-user branch of [twitter], lines 337 to 345. *)
Lemma twitter_authenticated settings request user_info template extra_context w u :
  user w = Some u ->
  no_connect_object w ->
  twitter settings request user_info template extra_context w =
  (oauth_token <- access_token_field "oauth_token" ;;
   oauth_token_secret <- access_token_field "oauth_token_secret" ;;
   twitter_get_or_create settings user_info u oauth_token oauth_token_secret ;;;
   _get_next settings request ;;;
   next <- _get_next settings request ;;
   ret (HttpResponseRedirect next)) w.
Proof.
  intros Hu Hc. unfold twitter, bind.
  pose proof (read_only_access_token_field "oauth_token" w) as H1.
  destruct (access_token_field "oauth_token" w) as [tok w1|]; [| done].
  simpl in H1. subst w1.
  pose proof (read_only_access_token_field "oauth_token_secret" w) as H2.
  destruct (access_token_field "oauth_token_secret" w) as [sec w1|]; [| done].
  simpl in H2. subst w1.
  rewrite connect_object_in_session_None by done.
  unfold get_world at 1. rewrite Hu. unfold twitter_get_or_create, bind.
  destruct (try_except _ _ _ w) as [p w1|]; [| done].
  destruct (_get_next settings request w1) as [n1 w2|]; [| done].
  by destruct (_get_next settings request w2) as [n2 w3|].
Qed.

(** C10: with a [next] value in the session and none in the query string
    or the form data, the first call of [_get_next] returns the session value
    and deletes the key, and a second call returns the configured default;
    the authenticated-user branch of [twitter] calls it for the log line
    first, so whenever it answers, it redirects to the default, and it does
    answer when the user info has its fields, at most one profile matches and
    the token entries are dictionaries. *)
Theorem get_next_twice_twitter_redirects_to_default
    settings request user_info template extra_context w u v :
  session w !! "next" = Some v ->
  GET request !! "next" = None ->
  POST request !! "next" = None ->
  user w = Some u ->
  no_connect_object w ->
  let default_url := VStr (default "/" (LOGIN_REDIRECT_URL settings)) in
  (exists w1, _get_next settings request w = Ok v w1
              /\ session w1 !! "next" = None
              /\ _get_next settings request w1 = Ok default_url w1)
  /\ (forall response w',
        twitter settings request user_info template extra_context w = Ok response w' ->
        response = HttpResponseRedirect default_url)
  /\ (forall id name,
        user_info !! "id" = Some id ->
        user_info !! "screen_name" = Some name ->
        token_keys_are_dicts w ->
        length (objects_filter TwitterProfile
                  (mkQuery (Some (Some id)) (Some (Some UserModel)) None None None)
                  (db w)) <= 1 ->
        exists w', twitter settings request user_info template extra_context w
                   = Ok (HttpResponseRedirect default_url) w').
Proof.
  intros Hn HG HP Hu Hc default_url.
  assert (Htwice : forall w0, session w0 !! "next" = Some v ->
            exists w1, _get_next settings request w0 = Ok v w1
                       /\ session w1 !! "next" = None
                       /\ _get_next settings request w1 = Ok default_url w1).
  { intros w0 H0. eexists. split; [by apply _get_next_session |].
    assert (session (set_session (delete "next" (session w0)) w0) !! "next" = None)
      by apply lookup_delete_eq.
    split; [done |]. by apply _get_next_default. }
  assert (Hrun : forall tok sec p w1,
            twitter_get_or_create settings user_info u tok sec w = Ok p w1 ->
            exists w', (_get_next settings request ;;;
                        next <- _get_next settings request ;;
                        ret (HttpResponseRedirect next)) w1
                       = Ok (HttpResponseRedirect default_url) w').
  { intros tok sec p w1 H1.
    apply db_only_Ok in H1 as [Hs _]; [| apply db_only_twitter_get_or_create].
    destruct (Htwice w1) as (w2 & E1 & _ & E2); [by rewrite Hs |].
    exists w2. unfold bind. by rewrite E1, E2. }
  split; [by apply Htwice |]. split.
  - intros response w' H. rewrite (twitter_authenticated _ _ _ _ _ _ u) in H by done.
    apply bind_Ok in H as (tok & w1 & H1 & H).
    apply read_only_Ok in H1 as ->; [| auto with read_only].
    apply bind_Ok in H as (sec & w1 & H1 & H).
    apply read_only_Ok in H1 as ->; [| auto with read_only].
    apply bind_Ok in H as (p & w1 & H1 & H).
    destruct (Hrun _ _ _ _ H1) as [w2 E]. rewrite E in H. by injection H as <- _.
  - intros id name Hid Hname Hd Hlen.
    rewrite (twitter_authenticated _ _ _ _ _ _ u) by done.
    destruct (access_token_field_Ok "oauth_token" w Hd) as [tok Htok].
    destruct (access_token_field_Ok "oauth_token_secret" w Hd) as [sec Hsec].
    rewrite (bind_step _ _ _ _ _ Htok), (bind_step _ _ _ _ _ Hsec).
    assert (exists p w1, twitter_get_or_create settings user_info u tok sec w = Ok p w1)
      as (p & w1 & H1).
    { unfold twitter_get_or_create, try_except, objects_get, get_world, bind.
      rewrite Hid, Hname. simpl.
      remember (objects_filter TwitterProfile
                  (mkQuery (Some (Some id)) (Some (Some UserModel)) None None None)
                  (db w)) as rows eqn:Hrows.
      destruct rows as [|p [|q l]]; simpl in *.
      - unfold objects_create, Profile_save, bind, get_world, modify, ret. simpl. eauto.
      - eauto.
      - lia. }
    rewrite (bind_step _ _ _ _ _ H1). eapply Hrun, H1.
Qed.

Lemma get_next_twice_twitter_redirects_to_default_witness :
  let default_url := VStr (default "/" (LOGIN_REDIRECT_URL sample_settings)) in
  (exists w1, _get_next sample_settings get_request alice_world = Ok (VStr "/dashboard/") w1
              /\ session w1 !! "next" = None
              /\ _get_next sample_settings get_request w1 = Ok default_url w1)
  /\ (forall response w',
        twitter sample_settings get_request alice_user_info
                "socialregistration/account_inactive.html" ∅ alice_world
        = Ok response w' ->
        response = HttpResponseRedirect default_url)
  /\ (forall id name,
        alice_user_info !! "id" = Some id ->
        alice_user_info !! "screen_name" = Some name ->
        token_keys_are_dicts alice_world ->
        length (objects_filter TwitterProfile
                  (mkQuery (Some (Some id)) (Some (Some UserModel)) None None None)
                  (db alice_world)) <= 1 ->
        exists w', twitter sample_settings get_request alice_user_info
                     "socialregistration/account_inactive.html" ∅ alice_world
                   = Ok (HttpResponseRedirect default_url) w').
Proof.
  apply (get_next_twice_twitter_redirects_to_default sample_settings get_request
           alice_user_info "socialregistration/account_inactive.html" ∅
           alice_world alice (VStr "/dashboard/")).
  - reflexivity.
  - reflexivity.
  - reflexivity.
  - reflexivity.
  - left. reflexivity.
Defined.

Example twitter_connect_loses_next :
  response_of (twitter sample_settings get_request alice_user_info
                 "socialregistration/account_inactive.html" ∅ alice_world)
  = Some (HttpResponseRedirect (VStr "/"))
  /\ session alice_world !! "next" = Some (VStr "/dashboard/").
Proof. split; reflexivity. Qed.

(** ** The pending registration after a login *)

Lemma try_except_Ok {A} (m h : M A) handles w a w' :
  try_except m handles h w = Ok a w' ->
  m w = Ok a w'
  \/ exists e w1, m w = Raise e w1 /\ handles e = true /\ h w1 = Ok a w'.
Proof.
  unfold try_except. destruct (m w) as [a1 w1|e w1]; [auto |].
  destruct (handles e) eqn:He; [| discriminate]. right. eauto.
Qed.

Lemma _get_next_frame settings request w v w' :
  _get_next settings request w = Ok v w' ->
  db w' = db w /\ user w' = user w
  /\ forall key, key <> "next" -> session w' !! key = session w !! key.
Proof.
  unfold _get_next, bind, session_has, session_get, session_del, ret.
  case_bool_decide as Hn.
  - destruct (session w !! "next") as [n|] eqn:E; [| discriminate]. simpl. rewrite E.
    intros [= <- <-]. split_and!; [done..|]. intros key Hk. simpl.
    by rewrite lookup_delete_ne.
  - destruct (GET request !! "next"); [| destruct (POST request !! "next")];
      intros [= <- <-]; done.
Qed.

(** [if key in request.session: del request.session[key]]. *)
Lemma session_clear {B} key (k : M B) w :
  (has <- session_has key ;;
   (if has then session_del key else ret tt) ;;;
   k) w
  = k (set_session (delete key (session w)) w).
Proof.
  unfold bind, session_has, session_del, ret. case_bool_decide as H.
  - destruct H as [v ->]. done.
  - rewrite delete_id; [by destruct w |].
    destruct (session w !! key) eqn:E; [| done]. destruct H. eauto.
Qed.

Lemma login_Ok u w w' :
  login u w = Ok tt w' ->
  exists u0, u = Some u0 /\ user w' = Some u0 /\ db w' = db w.
Proof.
  unfold login, bind, get_world, session_set, modify, ret. destruct u as [u0|].
  - intros H. exists u0. split; [done |].
    destruct (session w !! SESSION_KEY) as [v|]; [case_bool_decide |];
      simpl in H; injection H as <-; done.
  - destruct (user w); discriminate.
Qed.

Lemma _authenticate_login_redirect_Ok settings request w response w' :
  _authenticate_login_redirect settings request w = Ok response w' ->
  pending_registration_cleared w'
  /\ is_Some (user w')
  /\ db w' = db w
  /\ exists url, response = HttpResponseRedirect url.
Proof.
  unfold _authenticate_login_redirect. intros H.
  apply bind_Ok in H as (v & w1 & H1 & H).
  apply read_only_Ok in H1 as ->; [| auto with read_only].
  apply bind_Ok in H as (p & w1 & H1 & H).
  assert (w1 = w) as -> by (destruct v; simpl in H1; by inversion H1).
  apply bind_Ok in H as (u & w1 & H2 & H).
  apply read_only_Ok in H2 as ->; [| apply read_only_authenticate].
  apply bind_Ok in H as ([] & w1 & H3 & H).
  apply login_Ok in H3 as (u0 & -> & Hu & Hd).
  rewrite !session_clear in H.
  apply bind_Ok in H as (next & w2 & H4 & H). injection H as <- <-.
  apply _get_next_frame in H4 as (Hd2 & Hu2 & Hs2).
  unfold pending_registration_cleared. split_and!.
  - rewrite Hs2 by done. simpl. rewrite lookup_delete_ne by done. apply lookup_delete_eq.
  - rewrite Hs2 by done. simpl. apply lookup_delete_eq.
  - rewrite Hu2. simpl. rewrite Hu. eauto.
  - by rewrite Hd2.
  - eauto.
Qed.

Lemma setup_link_existing_Ok settings request sp existing w response w' :
  setup_link_existing settings request sp existing w = Ok response w' ->
  from_login_redirect settings request response w'.
Proof.
  unfold setup_link_existing. intros H.
  apply bind_Ok in H as (w0 & w1 & _ & H).
  apply bind_Ok in H as (p & w2 & _ & H).
  apply bind_Ok in H as ([] & w3 & _ & H). by exists w3.
Qed.

Lemma setup_generate_Ok settings request uuid4 su sp w response w' :
  setup_generate settings request uuid4 su sp w = Ok response w' ->
  from_login_redirect settings request response w'.
Proof.
  unfold setup_generate. intros H.
  apply bind_Ok in H as (u & w1 & _ & H).
  apply bind_Ok in H as (u1 & w2 & _ & H).
  apply bind_Ok in H as ([] & w3 & _ & H).
  apply bind_Ok in H as (u2 & w4 & _ & H).
  apply bind_Ok in H as ([] & w5 & _ & H).
  apply bind_Ok in H as (p & w6 & _ & H).
  apply bind_Ok in H as (p1 & w7 & _ & H).
  apply bind_Ok in H as ([] & w8 & _ & H). by exists w8.
Qed.

Lemma setup_try_form_Ok settings request form_class form w response w' :
  setup_try_form settings request form_class form w = Ok (Some response) w' ->
  from_login_redirect settings request response w'.
Proof.
  unfold setup_try_form. intros H.
  apply bind_Ok in H as (valid & w1 & _ & H). destruct valid; [| discriminate].
  apply bind_Ok in H as (f & w2 & _ & H).
  apply bind_Ok in H as ([] & w3 & _ & H).
  apply bind_Ok in H as (p & w4 & _ & H).
  apply bind_Ok in H as (u & w5 & _ & H).
  apply bind_Ok in H as (u1 & w6 & _ & H).
  apply bind_Ok in H as (u2 & w7 & _ & H).
  apply bind_Ok in H as (r & w8 & H8 & H). injection H as <- <-. by exists w7.
Qed.

Lemma setup_claim_Ok settings request claim_form_class extra_context w response w' :
  setup_claim settings request claim_form_class extra_context w = Ok (inl response) w' ->
  from_login_redirect settings request response w'.
Proof.
  unfold setup_claim. intros H.
  apply bind_Ok in H as (u & w1 & _ & H).
  apply bind_Ok in H as (p & w2 & _ & H).
  apply bind_Ok in H as (valid & w3 & _ & H). destruct valid; [| discriminate].
  apply bind_Ok in H as (f & w4 & _ & H).
  apply bind_Ok in H as ([] & w5 & _ & H).
  apply bind_Ok in H as (r & w6 & H6 & H). injection H as <- <-. by exists w5.
Qed.

(** Every redirect of [setup] is the one of [_authenticate_login_redirect]. *)
Lemma setup_redirect_from_login
    settings request uuid4 template form_class extra_context claim_form_class w url w' :
  setup settings request uuid4 template form_class extra_context claim_form_class w
  = Ok (HttpResponseRedirect url) w' ->
  from_login_redirect settings request (HttpResponseRedirect url) w'.
Proof.
  unfold setup. intros H.
  apply bind_Ok in H as (pending & w1 & _ & H).
  destruct pending as [[su sp]|]; [| discriminate].
  apply bind_Ok in H as (p & w2 & _ & H).
  apply bind_Ok in H as (w3 & w4 & [= <- <-] & H).
  destruct (objects_filter _ _ _) as [|existing rest].
  - destruct (negb (GENERATE_USERNAME settings)).
    + apply bind_Ok in H as (ft & w5 & H5 & H).
      destruct ft as [r|[form ec]]; [| discriminate]. injection H as <- <-.
      destruct (negb (bool_decide (method request = "POST"))); [discriminate |].
      apply try_except_Ok in H5 as [H5|(e & w6 & _ & _ & H5)].
      * apply bind_Ok in H5 as (o & w6 & H6 & H5). destruct o; [| discriminate].
        injection H5 as <- <-. by eapply setup_try_form_Ok.
      * by eapply setup_claim_Ok.
    + by eapply setup_generate_Ok.
  - by eapply setup_link_existing_Ok.
Qed.

(** C4, as amended: every login made by [_authenticate_login_redirect], and
    so every redirect the setup view answers with (the link to an existing
    profile, the username form, the claim and the generated account), leaves
    a logged-in user and a session without the two keys of the pending
    registration. *)
Theorem setup_login_clears_pending_registration
    settings request uuid4 template form_class extra_context claim_form_class
    w response url w' :
  _authenticate_login_redirect settings request w = Ok response w'
  \/ setup settings request uuid4 template form_class extra_context claim_form_class w
     = Ok (HttpResponseRedirect url) w' ->
  pending_registration_cleared w' /\ is_Some (user w').
Proof.
  intros [H|H].
  - by apply _authenticate_login_redirect_Ok in H as (? & ? & _).
  - apply setup_redirect_from_login in H as [w0 H].
    by apply _authenticate_login_redirect_Ok in H as (? & ? & _).
Qed.

Lemma setup_login_clears_pending_registration_witness :
  pending_registration_cleared
    (world_of (setup sample_settings get_request sample_uuid4
                 "socialregistration/setup.html" UserForm ∅ ClaimForm sibling_world))
  /\ is_Some (user
       (world_of (setup sample_settings get_request sample_uuid4
                    "socialregistration/setup.html" UserForm ∅ ClaimForm sibling_world))).
Proof.
  apply (setup_login_clears_pending_registration sample_settings get_request
           sample_uuid4 "socialregistration/setup.html" UserForm ∅ ClaimForm
           sibling_world (HttpResponseRedirect (VStr "/dashboard/")) (VStr "/dashboard/")).
  right. reflexivity.
Defined.

(** C4, as stated, fails on a login that matches an existing profile
    directly: [facebook_login] logs Alice in and redirects, and the stale
    pending registration is still in the session. *)
Lemma facebook_login_keeps_stale_pending_registration :
  exists w',
    facebook_login sample_settings alice_facebook_request
                   "socialregistration/facebook.html" ∅
                   "socialregistration/account_inactive.html" stale_world
    = Ok (HttpResponseRedirect (VStr "/")) w'
    /\ user w' = Some alice
    /\ session w' !! SESSION_KEY = Some (VInt 1)
    /\ session w' !! "socialregistration_user" = Some (VUser User_new)
    /\ ~ pending_registration_cleared w'.
Proof.
  eexists. split; [reflexivity |]. split_and!; try reflexivity.
  intros [H _]. discriminate H.
Qed.

(** When the session belonged to another account, [login] flushes it, and
    the abandoned registration goes with everything else. *)
Example facebook_login_flush_drops_pending_registration :
  let o := facebook_login sample_settings alice_facebook_request
                          "socialregistration/facebook.html" ∅
                          "socialregistration/account_inactive.html" stale_bob_world in
  session stale_bob_world !! SESSION_KEY = Some (VInt 2)
  /\ ~ pending_registration_cleared stale_bob_world
  /\ user (world_of o) = Some alice
  /\ session (world_of o) = {[ SESSION_KEY := VInt 1 ]}
  /\ pending_registration_cleared (world_of o).
Proof.
  split_and!; try reflexivity; [| by split].
  intros [H _]. discriminate H.
Qed.



(** ** Running [_authenticate_login_redirect] *)

Lemma _get_next_total settings request w :
  exists v w', _get_next settings request w = Ok v w'.
Proof.
  destruct (session w !! "next") as [v|] eqn:E.
  - rewrite (_get_next_session _ _ _ v E). eauto.
  - unfold _get_next, bind, session_has, ret.
    rewrite bool_decide_eq_false_2; [| rewrite E; by intros [? ?]].
    destruct (GET request !! "next"); [| destruct (POST request !! "next")]; eauto.
Qed.

Lemma login_Some u w :
  exists w', login (Some u) w = Ok tt w'.
Proof.
  unfold login, bind, get_world, session_set, modify, ret.
  destruct (session w !! SESSION_KEY) as [v|]; [case_bool_decide |]; simpl; eauto.
Qed.

Lemma _authenticate_login_redirect_run settings request w p u :
  session w !! "socialregistration_profile" = Some (VProfile p) ->
  authenticate (p_class p) (remote_id p) w = Ok (Some u) w ->
  exists url w',
    _authenticate_login_redirect settings request w = Ok (HttpResponseRedirect url) w'
    /\ user w' = Some u /\ db w' = db w /\ pending_registration_cleared w'.
Proof.
  intros Hs Ha.
  destruct (login_Some u w) as [w1 Hl].
  destruct (_get_next_total settings request
              (set_session (delete "socialregistration_profile"
                 (session (set_session (delete "socialregistration_user" (session w1)) w1)))
                 (set_session (delete "socialregistration_user" (session w1)) w1)))
    as (url & w2 & Hn).
  assert (E : _authenticate_login_redirect settings request w
              = Ok (HttpResponseRedirect url) w2).
  { unfold _authenticate_login_redirect.
    unfold bind at 1, session_get. rewrite Hs.
    unfold bind at 1. simpl. unfold ret at 1.
    unfold Profile_authenticate. rewrite (bind_step _ _ _ _ _ Ha).
    rewrite (bind_step _ _ _ _ _ Hl). rewrite !session_clear.
    by rewrite (bind_step _ _ _ _ _ Hn). }
  exists url, w2. split; [done |].
  apply _authenticate_login_redirect_Ok in E as (Hc & _ & Hd & _).
  apply login_Ok in Hl as (u0 & [= <-] & Hu & _).
  apply _get_next_frame in Hn as (_ & Hu2 & _). simpl in Hu2.
  split_and!; [congruence | done | done].
Qed.

(** ** The profile table under [save] *)

Lemma objects_filter_app n q d rows :
  objects_filter n q (set_profiles (profiles d ++ rows) d)
  = (objects_filter n q d
     ++ filter (fun p => matches d q p) (filter (fun p => p_class p = n) rows))%list.
Proof. unfold objects_filter, objects. simpl. by rewrite !filter_app. Qed.

Lemma objects_filter_class n q d p :
  p ∈ objects_filter n q d -> p_class p = n.
Proof. intros H. by apply objects_filter_elem in H as (_ & ? & _). Qed.

Lemma with_remote_id_matches d rid p :
  matches d (with_remote_id rid) p = true <-> remote_id p = rid.
Proof.
  unfold matches, with_remote_id, criterion. simpl. rewrite !andb_true_r.
  rewrite bool_decide_eq_true. split; [by intros [= ->] | by intros ->].
Qed.

Lemma Profile_save_new p w :
  p_pk p = None ->
  let k := fresh_pk (p_pk <$> objects (p_class p) (db w)) in
  Profile_save p w
  = Ok (mkProfile (Some k) (p_class p) (remote_id p) (screenname p) (consumer_key p)
                  (consumer_secret p) (content_type p) (object_id p) (site p) (secret p))
       (set_db (set_profiles (profiles (db w) ++ [row_of k p]) (db w)) w).
Proof. intros H. unfold Profile_save, bind, get_world, modify, ret. by rewrite H. Qed.

(** ** The shortcut of [setup] *)

Lemma setup_pending settings request uuid4 template form_class extra_context
    claim_form_class w su sp :
  session w !! "socialregistration_user" = Some su ->
  session w !! "socialregistration_profile" = Some (VProfile sp) ->
  setup settings request uuid4 template form_class extra_context claim_form_class w =
  match objects_filter (p_class sp) (with_remote_id (remote_id sp)) (db w) with
  | existing_profile :: _ =>
    setup_link_existing settings request sp existing_profile w
  | [] =>
    if negb (GENERATE_USERNAME settings) then
      (fallthrough <-
         (if negb (bool_decide (method request = "POST")) then
            ret (inr (form_value form_class (mkForm su (VProfile sp) None),
                      extra_context))
          else
            let form := mkForm su (VProfile sp) (Some (POST request)) in
            try_except
              (r <- setup_try_form settings request form_class form ;;
               ret (match r with
                    | Some r => inl r
                    | None => inr (form_value form_class form, extra_context)
                    end))
              is_ExistingUser
              (setup_claim settings request claim_form_class extra_context)) ;;
       match fallthrough with
       | inl r => ret r
       | inr (form, extra_context) =>
         ret (render_to_response template (<["form" := form]> extra_context))
       end) w
    else
      setup_generate settings request uuid4 su (VProfile sp) w
  end.
Proof.
  intros Hu Hp. unfold setup.
  unfold bind at 1, try_except, bind at 1, session_get. rewrite Hu.
  unfold bind at 1. rewrite Hp. unfold ret at 1.
  unfold bind at 1. simpl. unfold ret at 1. unfold bind at 1, get_world.
  unfold with_remote_id.
  destruct (objects_filter _ _ _); [destruct (negb (GENERATE_USERNAME settings)) |];
    reflexivity.
Qed.

Lemma authenticate_first n rid w p rest k u :
  objects_filter n (with_remote_id rid) (db w) = p :: rest ->
  content_type p = Some UserModel -> object_id p = Some k ->
  head (filter (fun r => u_pk r = Some k) (users (db w))) = Some u ->
  authenticate n rid w = Ok (Some u) w.
Proof.
  intros Hf Hc Ho Hu. unfold authenticate, bind, get_world, ret.
  unfold with_remote_id in Hf. rewrite Hf. simpl. by rewrite Hc, Ho, Hu.
Qed.

(** C7: before any form is shown, [setup] looks for the profiles of the
    class of the pending profile that have its remote id.  When the first of
    them is bound to an account, the pending profile is saved bound to that
    account and the visitor is logged in as it and redirected, whatever the
    request; the profile found is of the same class, profiles of another
    class are never found, and when no profile of the class has the remote id
    the visitor of the manual flow gets the username form. *)
Theorem setup_links_profile_of_same_provider
    settings request uuid4 template form_class extra_context claim_form_class w su sp :
  session w !! "socialregistration_user" = Some su ->
  session w !! "socialregistration_profile" = Some (VProfile sp) ->
  p_pk sp = None ->
  (forall existing rest k u,
     objects_filter (p_class sp) (with_remote_id (remote_id sp)) (db w)
     = existing :: rest ->
     content_type existing = Some UserModel ->
     object_id existing = Some k ->
     head (filter (fun r => u_pk r = Some k) (users (db w))) = Some u ->
     p_class existing = p_class sp
     /\ remote_id existing = remote_id sp
     /\ exists url w',
          setup settings request uuid4 template form_class extra_context
                claim_form_class w = Ok (HttpResponseRedirect url) w'
          /\ user w' = Some u
          /\ users (db w') = users (db w)
          /\ profiles (db w')
             = (profiles (db w)
                ++ [row_of (fresh_pk (p_pk <$> objects (p_class sp) (db w)))
                           (set_content_object (Some (UserModel, Some k)) sp)])%list
          /\ pending_registration_cleared w')
  /\ (forall p, p ∈ objects_filter (p_class sp) (with_remote_id (remote_id sp)) (db w) ->
                p_class p = p_class sp)
  /\ (objects_filter (p_class sp) (with_remote_id (remote_id sp)) (db w) = [] ->
      GENERATE_USERNAME settings = false ->
      method request <> "POST" ->
      setup settings request uuid4 template form_class extra_context claim_form_class w
      = Ok (render_to_response template
              (<["form" := form_value form_class (mkForm su (VProfile sp) None)]>
                 extra_context)) w).
Proof.
  intros Hsu Hsp Hpk. split_and!.
  - intros existing rest k u Hf Hc Ho Hu.
    assert (Hin : existing ∈ objects_filter (p_class sp) (with_remote_id (remote_id sp))
                                (db w)) by (rewrite Hf; apply list_elem_of_here).
    apply objects_filter_elem in Hin as (_ & Hcl & Hm).
    apply with_remote_id_matches in Hm.
    split; [done |]. split; [done |].
    rewrite (setup_pending _ _ _ _ _ _ _ _ su sp) by done. rewrite Hf.
    unfold setup_link_existing. unfold bind at 1, get_world.
    assert (Ht : content_object existing (db w)
                 = Some (mkInstance UserModel k (Some ("/users/" ++ username u ++ "/")))).
    { unfold content_object. rewrite Hc, Ho. simpl.
      destruct (filter (fun r => u_pk r = Some k) (users (db w))) as [|u' l] eqn:E;
        [discriminate |].
      injection Hu as ->.
      assert (u ∈ filter (fun r => u_pk r = Some k) (users (db w)))
        by (rewrite E; apply list_elem_of_here).
      apply list_elem_of_filter in H as [Hk _]. simpl.
      unfold instance_of_user at 1. by rewrite Hk. }
    rewrite Ht. simpl.
    set (linked := set_content_object (Some (UserModel, Some k)) sp).
    assert (Hlk : p_pk linked = None) by done.
    rewrite (bind_step _ _ _ _ _ (Profile_save_new linked w Hlk)).
    unfold bind at 1, session_set, modify.
    match goal with |- context [_authenticate_login_redirect _ _ ?w2] =>
      destruct (_authenticate_login_redirect_run settings request w2
                  (mkProfile (Some (fresh_pk (p_pk <$> objects (p_class linked) (db w))))
                     (p_class linked) (remote_id linked) (screenname linked)
                     (consumer_key linked) (consumer_secret linked)
                     (content_type linked) (object_id linked) (site linked)
                     (secret linked)) u)
        as (url & w' & E & Hu' & Hd' & Hcl')
    end.
    + simpl. apply lookup_insert_eq.
    + simpl. apply (authenticate_first _ _ _ existing
                      (rest ++ filter (fun p => matches (db w) (with_remote_id (remote_id sp)) p)
                                 (filter (fun p => p_class p = p_class sp)
                                    [row_of (fresh_pk (p_pk <$> objects (p_class sp) (db w)))
                                            linked])) k); [| done..].
      simpl. rewrite objects_filter_app, Hf. done.
    + exists url, w'. rewrite E. rewrite Hd'. done.
  - intros p. apply objects_filter_class.
  - intros Hf Hg Hm.
    rewrite (setup_pending _ _ _ _ _ _ _ _ su sp) by done. rewrite Hf, Hg. simpl.
    unfold bind. rewrite bool_decide_eq_false_2 by done. done.
Qed.

Lemma setup_links_profile_of_same_provider_witness :
  (forall existing rest k u,
     objects_filter FacebookProfile (with_remote_id "fb-1001") (db sibling_world)
     = existing :: rest ->
     content_type existing = Some UserModel ->
     object_id existing = Some k ->
     head (filter (fun r => u_pk r = Some k) (users (db sibling_world))) = Some u ->
     p_class existing = FacebookProfile
     /\ remote_id existing = "fb-1001"
     /\ exists url w',
          setup sample_settings post_request sample_uuid4 "socialregistration/setup.html"
                UserForm ∅ ClaimForm sibling_world = Ok (HttpResponseRedirect url) w'
          /\ user w' = Some u
          /\ users (db w') = users (db sibling_world)
          /\ profiles (db w')
             = (profiles (db sibling_world)
                ++ [row_of (fresh_pk (p_pk <$> objects FacebookProfile (db sibling_world)))
                           (set_content_object (Some (UserModel, Some k))
                              (Profile_new sample_settings FacebookProfile "fb-1001" ""
                                           None ""))])%list
          /\ pending_registration_cleared w')
  /\ (forall p, p ∈ objects_filter FacebookProfile (with_remote_id "fb-1001")
                                   (db sibling_world) ->
                p_class p = FacebookProfile)
  /\ (objects_filter FacebookProfile (with_remote_id "fb-1001") (db sibling_world) = [] ->
      GENERATE_USERNAME sample_settings = false ->
      method post_request <> "POST" ->
      setup sample_settings post_request sample_uuid4 "socialregistration/setup.html"
            UserForm ∅ ClaimForm sibling_world
      = Ok (render_to_response "socialregistration/setup.html"
              (<["form" := form_value UserForm
                             (mkForm (VUser User_new)
                                (VProfile (Profile_new sample_settings FacebookProfile
                                             "fb-1001" "" None "")) None)]> ∅))
           sibling_world).
Proof.
  apply (setup_links_profile_of_same_provider sample_settings post_request sample_uuid4
           "socialregistration/setup.html" UserForm ∅ ClaimForm sibling_world
           (VUser User_new)
           (Profile_new sample_settings FacebookProfile "fb-1001" "" None "")).
  - reflexivity.
  - reflexivity.
  - reflexivity.
Defined.

Example setup_sibling_logs_alice_in :
  let o := setup sample_settings post_request sample_uuid4
                 "socialregistration/setup.html" UserForm ∅ ClaimForm sibling_world in
  response_of o = Some (HttpResponseRedirect (VStr "/dashboard/"))
  /\ user (world_of o) = Some alice
  /\ profiles (db (world_of o))
     = [alice_facebook; alice_twitter; article_twitter;
        mkProfile (Some 2) FacebookProfile "fb-1001" "" None ""
                  (Some UserModel) (Some 1) 1 None].
Proof. split_and!; reflexivity. Qed.

Example setup_other_provider_prompts :
  remote_id alice_twitter = "1001"
  /\ setup sample_settings get_request sample_uuid4 "socialregistration/setup.html"
           UserForm ∅ ClaimForm other_provider_world
     = Ok (render_to_response "socialregistration/setup.html"
             {[ "form" := VForm false false ]}) other_provider_world.
Proof. split; reflexivity. Qed.

(** ** Computations that do not look at [request.user] *)

Lemma ignores_user_ret {A} (a : A) : ignores_user (ret a).
Proof. by intros w u. Qed.

Lemma ignores_user_raise {A} e : ignores_user (@raise A e).
Proof. by intros w u. Qed.

Lemma ignores_user_bind {A B} (m : M A) (k : A -> M B) :
  ignores_user m -> (forall a, ignores_user (k a)) -> ignores_user (bind m k).
Proof.
  intros Hm Hk w u. unfold bind. rewrite Hm.
  destruct (m w) as [a w1|e w1]; simpl; [apply Hk | done].
Qed.

Lemma ignores_user_try_except {A} (m h : M A) handles :
  ignores_user m -> ignores_user h -> ignores_user (try_except m handles h).
Proof.
  intros Hm Hh w u. unfold try_except. rewrite Hm.
  destruct (m w) as [a w1|e w1]; simpl; [done |].
  destruct (handles e); [apply Hh | done].
Qed.

Lemma ignores_user_lift_option {A} e (o : option A) : ignores_user (lift_option e o).
Proof. by destruct o. Qed.

Lemma ignores_user_session_get key : ignores_user (session_get key).
Proof. intros w u. unfold session_get. simpl. by destruct (session w !! key). Qed.

Lemma ignores_user_session_has key : ignores_user (session_has key).
Proof. by intros w u. Qed.

Lemma ignores_user_session_del key : ignores_user (session_del key).
Proof. intros w u. unfold session_del. simpl. by destruct (session w !! key). Qed.

Lemma ignores_user_session_set key v : ignores_user (session_set key v).
Proof. by intros w u. Qed.

Lemma ignores_user_subscript v field : ignores_user (subscript v field).
Proof. destruct v; simpl; try apply ignores_user_raise. apply ignores_user_lift_option. Qed.

Lemma ignores_user_class_and_pk v : ignores_user (class_and_pk v).
Proof. by destruct v. Qed.

Lemma ignores_user_objects_get n q : ignores_user (objects_get n q).
Proof.
  intros w u. unfold objects_get, bind, get_world. simpl.
  by destruct (objects_filter n q (db w)) as [|p [|p' l]].
Qed.

Lemma ignores_user_Profile_save p : ignores_user (Profile_save p).
Proof.
  intros w u. unfold Profile_save, bind, get_world, modify, ret. simpl.
  destruct (p_pk p); [case_bool_decide |]; done.
Qed.

Lemma ignores_user_objects_create n target rid name key sec site_id :
  ignores_user (objects_create n target rid name key sec site_id).
Proof.
  unfold objects_create. destruct rid; [apply ignores_user_Profile_save | done].
Qed.

Lemma ignores_user__get_next settings request : ignores_user (_get_next settings request).
Proof.
  intros w u. unfold _get_next, bind, session_has, session_get, session_del, ret. simpl.
  destruct (session w !! "next") as [v|] eqn:E.
  - rewrite bool_decide_eq_true_2; [| eauto]. simpl. rewrite E. simpl. by rewrite E.
  - rewrite bool_decide_eq_false_2; [| by intros [? ?]].
    destruct (GET request !! "next"); [| destruct (POST request !! "next")]; done.
Qed.

Create HintDb ignores_user.
#[global] Hint Resolve ignores_user_ret ignores_user_raise ignores_user_lift_option
  ignores_user_session_get ignores_user_session_has ignores_user_session_del
  ignores_user_session_set ignores_user_subscript ignores_user_class_and_pk
  ignores_user_objects_get ignores_user_Profile_save ignores_user_objects_create
  ignores_user__get_next : ignores_user.

Ltac ignores_user :=
  repeat first
    [ solve [auto with ignores_user]
    | apply ignores_user_try_except
    | apply ignores_user_bind; [| intros ?] ].

Lemma ignores_user_access_token_field field : ignores_user (access_token_field field).
Proof. unfold access_token_field. ignores_user. Qed.
#[global] Hint Resolve ignores_user_access_token_field : ignores_user.

Lemma ignores_user_twitter_link_object settings user_info obj tok sec :
  ignores_user (twitter_link_object settings user_info obj tok sec).
Proof. unfold twitter_link_object. ignores_user. Qed.

Lemma ignores_user_openid_link_object settings identity obj :
  ignores_user (openid_link_object settings identity obj).
Proof. unfold openid_link_object. ignores_user. Qed.
#[global] Hint Resolve ignores_user_twitter_link_object
  ignores_user_openid_link_object : ignores_user.

(** ** The connect-object branch *)

Lemma twitter_connect_object settings request user_info template extra_context w obj :
  session w !! "socialregistration_connect_object" = Some obj -> obj <> VNone ->
  twitter settings request user_info template extra_context w
  = twitter_connect_object_branch settings request user_info obj w.
Proof.
  intros Hs Hn. unfold twitter, twitter_connect_object_branch, bind.
  destruct (access_token_field "oauth_token" w) as [tok w1|] eqn:E1; [| done].
  apply read_only_Ok in E1 as ->; [| auto with read_only].
  destruct (access_token_field "oauth_token_secret" w) as [sec w1|] eqn:E2; [| done].
  apply read_only_Ok in E2 as ->; [| auto with read_only].
  rewrite (connect_object_in_session_Some w obj) by done.
  unfold twitter_link_object, bind.
  destruct (try_except _ _ _ w) as [[] w1|]; [| done].
  destruct (session_del _ w1) as [[] w2|]; [| done]. unfold ret at 1.
  by destruct (_get_next settings request w2).
Qed.

Lemma openid_connect_object settings request identity template extra_context
    account_inactive_template w obj :
  session w !! "socialregistration_connect_object" = Some obj -> obj <> VNone ->
  openid_callback settings request true identity template extra_context
                  account_inactive_template w
  = openid_connect_object_branch settings request identity obj w.
Proof.
  intros Hs Hn. unfold openid_callback, openid_connect_object_branch, bind.
  rewrite (connect_object_in_session_Some w obj) by done.
  unfold openid_link_object, bind.
  destruct (try_except _ _ _ w) as [[] w1|]; [| done].
  destruct (session_del _ w1) as [[] w2|]; [| done]. unfold ret at 1.
  by destruct (_get_next settings request w2).
Qed.

Lemma ignores_user_twitter_connect_object_branch settings request user_info obj :
  ignores_user (twitter_connect_object_branch settings request user_info obj).
Proof. unfold twitter_connect_object_branch. ignores_user. Qed.

Lemma ignores_user_openid_connect_object_branch settings request identity obj :
  ignores_user (openid_connect_object_branch settings request identity obj).
Proof. unfold openid_connect_object_branch. ignores_user. Qed.

Lemma matches_target d rid c k p :
  matches d (mkQuery (Some (Some rid)) (Some (Some c)) None (Some (Some k)) None) p = true ->
  remote_id p = rid /\ content_type p = Some c /\ object_id p = Some k.
Proof.
  unfold matches, criterion. simpl. rewrite !andb_true_r, !andb_true_iff.
  rewrite !bool_decide_eq_true. by intros [[[= ->] ->] ->].
Qed.

Lemma objects_filter_bound_to n rid obj d p :
  p ∈ objects_filter n
        (mkQuery (Some (Some rid)) (Some (Some (i_class obj))) None
                 (Some (Some (i_pk obj))) None) d ->
  p ∈ profiles d /\ bound_to n rid obj p.
Proof.
  intros H. apply objects_filter_elem in H as (Hp & Hc & Hm).
  apply matches_target in Hm as (? & ? & ?). by repeat split.
Qed.

(** The outcome is an exception that left the world as it was. *)
Ltac world_unchanged :=
  split; [reflexivity |]; split; [intros ? ?; by left | intros ? ?; discriminate].

Lemma twitter_link_object_spec settings user_info obj tok sec w :
  links_object TwitterProfile (user_info !! "id") obj w
    (twitter_link_object settings user_info (VInstance obj) tok sec w).
Proof.
  unfold links_object, twitter_link_object, try_except, objects_get, get_world, bind.
  destruct (user_info !! "id") as [id|]; simpl; [| world_unchanged].
  remember (objects_filter TwitterProfile
              (mkQuery (Some (Some id)) (Some (Some (i_class obj))) None
                       (Some (Some (i_pk obj))) None) (db w)) as rows eqn:Hrows.
  destruct rows as [|p [|q l]]; simpl.
  - destruct (user_info !! "screen_name") as [name|]; simpl; [| world_unchanged].
    split; [done |]. split.
    + intros p [Hp|Hp]%elem_of_app; [by left | right].
      apply list_elem_of_singleton in Hp as ->. exists id. by repeat split.
    + intros w' [= <-]. eexists id, _. split; [done |]. split.
      * simpl. apply elem_of_app. right. apply list_elem_of_here.
      * by repeat split.
  - assert (Hin : p ∈ profiles (db w) /\ bound_to TwitterProfile id obj p).
    { apply objects_filter_bound_to. rewrite <- Hrows. apply list_elem_of_here. }
    split; [done |]. split; [intros ? ?; by left |].
    intros w' [= <-]. exists id, p. by destruct Hin.
  - world_unchanged.
Qed.

Lemma openid_link_object_spec settings identity obj w :
  links_object OpenIDProfile (Some identity) obj w
    (openid_link_object settings identity (VInstance obj) w).
Proof.
  unfold links_object, openid_link_object, try_except, objects_get, get_world, bind.
  simpl.
  remember (objects_filter OpenIDProfile
              (mkQuery (Some (Some identity)) (Some (Some (i_class obj))) None
                       (Some (Some (i_pk obj))) None) (db w)) as rows eqn:Hrows.
  destruct rows as [|p [|q l]]; simpl.
  - split; [done |]. split.
    + intros p [Hp|Hp]%elem_of_app; [by left | right].
      apply list_elem_of_singleton in Hp as ->. exists identity. by repeat split.
    + intros w' [= <-]. eexists identity, _. split; [done |]. split.
      * simpl. apply elem_of_app. right. apply list_elem_of_here.
      * by repeat split.
  - assert (Hin : p ∈ profiles (db w) /\ bound_to OpenIDProfile identity obj p).
    { apply objects_filter_bound_to. rewrite <- Hrows. apply list_elem_of_here. }
    split; [done |]. split; [intros ? ?; by left |].
    intros w' [= <-]. exists identity, p. by destruct Hin.
  - world_unchanged.
Qed.

(** After the link step the branch deletes the session key and resolves
    the next URL: the database stays as the link step left it. *)
Lemma after_link_db settings request (link : M unit) w :
  let o := (link ;;;
            session_del "socialregistration_connect_object" ;;;
            next <- _get_next settings request ;;
            ret (HttpResponseRedirect next)) w in
  db (world_of o) = db (world_of (link w))
  /\ forall response w', o = Ok response w' -> exists w1, link w = Ok tt w1.
Proof.
  unfold bind. destruct (link w) as [[] w1|e w1]; simpl; [| by split].
  unfold session_del. destruct (session w1 !! _) as [held|]; simpl; [| by split].
  match goal with |- context [_get_next settings request ?w2] =>
    destruct (_get_next_total settings request w2) as (next & w3 & E);
    rewrite E; apply _get_next_frame in E as (Hd & _)
  end.
  simpl. split; [done | eauto].
Qed.

Lemma links_object_after settings request n rid obj (link : M unit) w :
  links_object n rid obj w (link w) ->
  let o := (link ;;;
            session_del "socialregistration_connect_object" ;;;
            next <- _get_next settings request ;;
            ret (HttpResponseRedirect next)) w in
  (forall p, p ∈ profiles (db (world_of o)) ->
     p ∈ profiles (db w) \/ exists r, rid = Some r /\ bound_to n r obj p)
  /\ (forall response w', o = Ok response w' ->
        exists r p, rid = Some r /\ p ∈ profiles (db w') /\ bound_to n r obj p).
Proof.
  intros (_ & Hnew & Hok) o.
  destruct (after_link_db settings request link w) as [Hd Hret]. fold o in Hd, Hret.
  split.
  - intros p. rewrite Hd. apply Hnew.
  - intros response w' E. destruct (Hret _ _ E) as [w1 E1].
    destruct (Hok _ E1) as (r & p & ? & Hp & ?). exists r, p.
    rewrite E in Hd. rewrite E1 in Hd. simpl in Hd. by rewrite Hd.
Qed.

(** C2: when the session carries a connect object, [twitter] and
    [openid_callback] never look at [request.user]: running them with any
    other user gives the same outcome but for that user.  Every profile the
    database gains is bound to the connect object, and when the view answers,
    the database holds a profile of the identity bound to the connect
    object. *)
Theorem connect_object_wins_over_user
    settings request user_info identity template extra_context
    account_inactive_template w obj :
  session w !! "socialregistration_connect_object" = Some (VInstance obj) ->
  let tw := twitter settings request user_info account_inactive_template extra_context in
  let oid := openid_callback settings request true identity template extra_context
                             account_inactive_template in
  (forall u, tw (set_user u w) = with_user u (tw w))
  /\ (forall u, oid (set_user u w) = with_user u (oid w))
  /\ (forall p, p ∈ profiles (db (world_of (tw w))) ->
        p ∈ profiles (db w)
        \/ exists rid, user_info !! "id" = Some rid /\ bound_to TwitterProfile rid obj p)
  /\ (forall p, p ∈ profiles (db (world_of (oid w))) ->
        p ∈ profiles (db w) \/ bound_to OpenIDProfile identity obj p)
  /\ (forall response w', tw w = Ok response w' ->
        exists rid p, user_info !! "id" = Some rid
                      /\ p ∈ profiles (db w') /\ bound_to TwitterProfile rid obj p)
  /\ (forall response w', oid w = Ok response w' ->
        exists p, p ∈ profiles (db w') /\ bound_to OpenIDProfile identity obj p).
Proof.
  intros Hs tw oid.
  assert (Htw : forall w0, session w0 !! "socialregistration_connect_object"
                           = Some (VInstance obj) ->
                tw w0 = twitter_connect_object_branch settings request user_info
                          (VInstance obj) w0).
  { intros w0 H0. by apply twitter_connect_object. }
  assert (Hoid : forall w0, session w0 !! "socialregistration_connect_object"
                            = Some (VInstance obj) ->
                 oid w0 = openid_connect_object_branch settings request identity
                            (VInstance obj) w0).
  { intros w0 H0. by apply openid_connect_object. }
  assert (Htokens : forall (k : string -> string -> M HttpResponse),
            (forall tok sec, let o := k tok sec w in
               (forall p, p ∈ profiles (db (world_of o)) ->
                  p ∈ profiles (db w)
                  \/ exists rid, user_info !! "id" = Some rid
                                 /\ bound_to TwitterProfile rid obj p)
               /\ (forall response w', o = Ok response w' ->
                     exists rid p, user_info !! "id" = Some rid
                                   /\ p ∈ profiles (db w')
                                   /\ bound_to TwitterProfile rid obj p)) ->
            let o := (tok <- access_token_field "oauth_token" ;;
                      sec <- access_token_field "oauth_token_secret" ;;
                      k tok sec) w in
            (forall p, p ∈ profiles (db (world_of o)) ->
               p ∈ profiles (db w)
               \/ exists rid, user_info !! "id" = Some rid
                              /\ bound_to TwitterProfile rid obj p)
            /\ (forall response w', o = Ok response w' ->
                  exists rid p, user_info !! "id" = Some rid
                                /\ p ∈ profiles (db w')
                                /\ bound_to TwitterProfile rid obj p)).
  { intros k Hk. unfold bind.
    destruct (access_token_field "oauth_token" w) as [tok w1|e w1] eqn:E1.
    - apply read_only_Ok in E1 as ->; [| auto with read_only].
      destruct (access_token_field "oauth_token_secret" w) as [sec w1|e w1] eqn:E2.
      + apply read_only_Ok in E2 as ->; [| auto with read_only]. apply Hk.
      + pose proof (read_only_access_token_field "oauth_token_secret" w) as Hro.
        rewrite E2 in Hro. simpl in Hro. subst w1. simpl. split; [by auto | done].
    - pose proof (read_only_access_token_field "oauth_token" w) as Hro.
      rewrite E1 in Hro. simpl in Hro. subst w1. simpl. split; [by auto | done]. }
  split_and!.
  - intros u. rewrite !Htw by done.
    apply ignores_user_twitter_connect_object_branch.
  - intros u. rewrite !Hoid by done.
    apply ignores_user_openid_connect_object_branch.
  - rewrite Htw by done. unfold twitter_connect_object_branch.
    apply Htokens. intros tok sec.
    apply (links_object_after settings request TwitterProfile (user_info !! "id") obj).
    apply twitter_link_object_spec.
  - rewrite Hoid by done. unfold openid_connect_object_branch.
    intros p Hp.
    apply (links_object_after settings request OpenIDProfile (Some identity) obj) in Hp
      as [Hp|(r & [= <-] & Hp)]; [by left | by right | apply openid_link_object_spec].
  - rewrite Htw by done. unfold twitter_connect_object_branch.
    apply Htokens. intros tok sec.
    apply (links_object_after settings request TwitterProfile (user_info !! "id") obj).
    apply twitter_link_object_spec.
  - rewrite Hoid by done. unfold openid_connect_object_branch.
    intros response w' E.
    apply (links_object_after settings request OpenIDProfile (Some identity) obj) in E
      as (r & p & [= <-] & Hp & Hb); [eauto | apply openid_link_object_spec].
Qed.

Lemma connect_object_wins_over_user_witness :
  let tw := twitter sample_settings get_request new_user_info
                    "socialregistration/account_inactive.html" ∅ in
  let oid := openid_callback sample_settings get_request true "https://example.com/press"
                             "socialregistration/openid.html" ∅
                             "socialregistration/account_inactive.html" in
  (forall u, tw (set_user u connect_world) = with_user u (tw connect_world))
  /\ (forall u, oid (set_user u connect_world) = with_user u (oid connect_world))
  /\ (forall p, p ∈ profiles (db (world_of (tw connect_world))) ->
        p ∈ profiles (db connect_world)
        \/ exists rid, new_user_info !! "id" = Some rid
                       /\ bound_to TwitterProfile rid article_42 p)
  /\ (forall p, p ∈ profiles (db (world_of (oid connect_world))) ->
        p ∈ profiles (db connect_world)
        \/ bound_to OpenIDProfile "https://example.com/press" article_42 p)
  /\ (forall response w', tw connect_world = Ok response w' ->
        exists rid p, new_user_info !! "id" = Some rid
                      /\ p ∈ profiles (db w') /\ bound_to TwitterProfile rid article_42 p)
  /\ (forall response w', oid connect_world = Ok response w' ->
        exists p, p ∈ profiles (db w')
                  /\ bound_to OpenIDProfile "https://example.com/press" article_42 p).
Proof.
  apply (connect_object_wins_over_user sample_settings get_request new_user_info
           "https://example.com/press" "socialregistration/openid.html" ∅
           "socialregistration/account_inactive.html" connect_world article_42).
  reflexivity.
Defined.

Example twitter_connects_article_not_bob :
  let o := twitter sample_settings get_request new_user_info
                   "socialregistration/account_inactive.html" ∅ connect_world in
  user connect_world = Some bob
  /\ response_of o = Some (HttpResponseRedirect (VStr "/blog/42/"))
  /\ profiles (db (world_of o))
     = [alice_facebook; alice_twitter; article_twitter;
        mkProfile (Some 3) TwitterProfile "3003" "press_tw" (Some "") ""
                  (Some Article) (Some 42) 1 None]
  /\ session (world_of o) !! "socialregistration_connect_object" = None.
Proof. split_and!; reflexivity. Qed.

(** The redirect out stores the object the query string names. *)
Example oauth_redirect_stores_connect_object :
  let request := mkRequest "GET" {[ "a" := "blog"; "m" := "article"; "i" := "42" ]}
                           ∅ ∅ no_facebook in
  session (world_of (oauth_redirect sample_settings request
                       (HttpResponseRedirect (VStr "https://api.twitter.com/oauth"))
                       anonymous_world))
    !! "socialregistration_connect_object" = Some (VInstance article_42).
Proof. reflexivity. Qed.

(** ** The primary keys under [save] *)

Lemma fresh_pk_fresh (pks : list (option nat)) : Some (fresh_pk pks) ∉ pks.
Proof.
  intros Hin. unfold fresh_pk in Hin.
  assert (S (max_list (omap id pks)) ∈ omap id pks) as Hle.
  { apply list_elem_of_omap. eexists. split; [exact Hin | done]. }
  apply max_list_elem_of_le in Hle. lia.
Qed.

Lemma primary_keys_append d row :
  primary_keys d ->
  is_Some (p_pk row) ->
  (forall r, r ∈ profiles d -> p_class r = p_class row -> p_pk r <> p_pk row) ->
  primary_keys (set_profiles (profiles d ++ [row]) d).
Proof.
  intros [Hpk Hnd] Hrow Hnew. split; simpl.
  - intros p [Hp|Hp]%elem_of_app; [by apply Hpk |].
    by apply list_elem_of_singleton in Hp as ->.
  - rewrite fmap_app. apply NoDup_app. split; [done |]. split.
    + intros key Hkey Hkey'. simpl in Hkey'. apply list_elem_of_singleton in Hkey' as ->.
      apply list_elem_of_fmap in Hkey as (r & [= Hc Hk] & Hr).
      by apply (Hnew r Hr).
    + simpl. apply NoDup_singleton.
Qed.

(** [save] keeps the primary keys of the profile table. *)
Lemma Profile_save_primary_keys p w :
  primary_keys (db w) -> primary_keys (db (world_of (Profile_save p w))).
Proof.
  intros Hkeys. unfold Profile_save, bind, get_world, modify, ret.
  destruct (p_pk p) as [k|] eqn:Hk; [case_bool_decide as Hrow |]; simpl.
  - destruct Hkeys as [Hpk Hnd]. split; simpl.
    + intros r (r0 & -> & Hr0)%list_elem_of_fmap.
      destruct (same_row (p_class p) k r0); [by eexists | by apply Hpk].
    + rewrite <- list_fmap_compose.
      replace ((fun r => (p_class r, p_pk r))
               ∘ (fun r => if same_row (p_class p) k r then row_of k p else r) <$>
               profiles (db w))
        with ((fun r => (p_class r, p_pk r)) <$> profiles (db w)); [done |].
      apply list_fmap_ext. intros i r _. simpl.
      destruct (same_row (p_class p) k r) eqn:E; [| done].
      apply Is_true_true in E. unfold same_row in E.
      apply bool_decide_spec in E as [-> ->]. done.
  - apply primary_keys_append; [done | by eexists |].
    intros r Hr Hc Hpk. simpl in *. apply Hrow. apply Exists_exists.
    exists r. split; [done |]. apply bool_decide_spec. done.
  - apply primary_keys_append; [done | by eexists |].
    intros r Hr Hc Hpk. simpl in *.
    apply (fresh_pk_fresh (p_pk <$> objects (p_class p) (db w))).
    rewrite <- Hpk. apply list_elem_of_fmap. exists r. split; [done |].
    unfold objects. by apply list_elem_of_filter.
Qed.

(** ** Connecting an identity that is already linked *)

Lemma keeps_db_bind {A B} (m : M A) (k : A -> M B) :
  keeps_db m -> (forall a, keeps_db (k a)) -> keeps_db (bind m k).
Proof.
  intros Hm Hk w. unfold bind. specialize (Hm w).
  destruct (m w) as [a w1|e w1]; simpl in *; [| done]. by rewrite Hk.
Qed.

Lemma keeps_db_ret {A} (a : A) : keeps_db (ret a).
Proof. done. Qed.

Lemma keeps_db__get_next settings request : keeps_db (_get_next settings request).
Proof.
  intros w. destruct (_get_next_total settings request w) as (v & w' & E).
  rewrite E. by apply _get_next_frame in E as (? & _).
Qed.

Lemma keeps_db_redirect settings request :
  keeps_db (_get_next settings request ;;;
            next <- _get_next settings request ;;
            ret (HttpResponseRedirect next)).
Proof.
  apply keeps_db_bind; [apply keeps_db__get_next | intros _].
  apply keeps_db_bind; [apply keeps_db__get_next | intros ?]. apply keeps_db_ret.
Qed.

Lemma bind_db {A B} (m : M A) (k : A -> M B) w :
  (forall a, keeps_db (k a)) -> db (world_of (bind m k w)) = db (world_of (m w)).
Proof.
  intros Hk. unfold bind. destruct (m w) as [a w1|e w1]; simpl; [apply Hk | done].
Qed.

(** The user branch of [facebook_connect], lines 243 to 258 and 269 to
    270. *)
Lemma facebook_connect_user settings request template extra_context w u uid fb :
  GET request !! "m" = None ->
  fb_uid (facebook request) = Some uid ->
  fb_user (facebook request) = Some fb ->
  fb <> ∅ ->
  user w = Some u ->
  facebook_connect settings request template extra_context w =
  (facebook_link_user settings fb uid u ;;;
   _get_next settings request ;;;
   next <- _get_next settings request ;;
   ret (HttpResponseRedirect next)) w.
Proof.
  intros Hm Huid Hfb Hne Hu. unfold facebook_connect, get_object.
  rewrite bool_decide_eq_false_2; [| rewrite Hm; by intros [? ?]].
  unfold bind at 1. unfold ret at 1. unfold authorized. rewrite Hfb.
  rewrite bool_decide_eq_false_2 by done.
  unfold bind at 1. unfold bind at 1. unfold get_world at 1. rewrite Huid, Hu.
  fold (facebook_link_user settings fb uid u). unfold bind.
  destruct (facebook_link_user settings fb uid u w) as [linked w1|e w1] eqn:E; [| done].
  assert (linked = None) as ->; [| done].
  unfold facebook_link_user in E. apply try_except_Ok in E as [E|(e & w2 & _ & _ & E)].
  - apply bind_Ok in E as (p & w2 & _ & E).
    apply bind_Ok in E as (p' & w3 & _ & E). by injection E as <-.
  - apply bind_Ok in E as (p' & w3 & _ & E). by injection E as <-.
Qed.

Lemma Profile_save_existing p k w :
  p_pk p = Some k ->
  Exists (fun r => same_row (p_class p) k r) (profiles (db w)) ->
  Profile_save p w
  = Ok p (set_db (set_profiles (rewrite_row p k <$> profiles (db w)) (db w)) w).
Proof.
  intros Hk He. unfold Profile_save, bind, get_world, modify, ret. rewrite Hk.
  by rewrite bool_decide_eq_true_2.
Qed.

Lemma same_row_iff n k r : same_row n k r <-> p_class r = n /\ p_pk r = Some k.
Proof. unfold same_row. by rewrite bool_decide_spec. Qed.

(** With primary keys, the rows to rewrite are the found row alone. *)
Lemma rewrite_row_found d p0 k p r :
  primary_keys d -> p0 ∈ profiles d -> r ∈ profiles d ->
  p_class p0 = p_class p -> p_pk p0 = Some k ->
  rewrite_row p k r = if decide (r = p0) then row_of k p else r.
Proof.
  intros [_ Hnd] H0 Hr Hc Hk. unfold rewrite_row.
  destruct (decide (r = p0)) as [->|Hne].
  - assert (same_row (p_class p) k p0 = true) as ->; [| done].
    apply Is_true_true, same_row_iff. done.
  - destruct (same_row (p_class p) k r) eqn:E; [| done].
    apply Is_true_true, same_row_iff in E as [E1 E2]. destruct Hne.
    apply list_elem_of_lookup in H0 as [i Hi]. apply list_elem_of_lookup in Hr as [j Hj].
    assert (i = j) as ->.
    { eapply NoDup_lookup; [exact Hnd | |].
      - rewrite list_lookup_fmap, Hi. reflexivity.
      - rewrite list_lookup_fmap, Hj. simpl. by rewrite E1, E2, Hc, Hk. }
    congruence.
Qed.

Lemma length_filter_fmap_iff {A} (P Q : A -> Prop) `{!forall x, Decision (P x)}
    `{!forall x, Decision (Q x)} (f : A -> A) (l : list A) :
  (forall x, x ∈ l -> (P (f x) <-> Q x)) ->
  length (filter P (f <$> l)) = length (filter Q l).
Proof.
  induction l as [|x l IH]; intros Hall; [done |].
  rewrite fmap_cons, !filter_cons.
  assert (Hx : P (f x) <-> Q x) by (apply Hall, list_elem_of_here).
  assert (Hl : length (filter P (f <$> l)) = length (filter Q l)).
  { apply IH. intros y Hy. apply Hall. by apply list_elem_of_further. }
  destruct (decide (P (f x))), (decide (Q x)); simpl; try rewrite Hl; tauto.
Qed.

(** Rewriting the found row with its identity columns unchanged keeps
    every count of profiles. *)
Lemma rewrite_row_counts d p0 k p n q :
  primary_keys d -> p0 ∈ profiles d ->
  p_class p0 = p_class p -> p_pk p0 = Some k ->
  remote_id p = remote_id p0 -> content_type p = content_type p0 ->
  object_id p = object_id p0 -> site p = site p0 ->
  length (objects_filter n q (set_profiles (rewrite_row p k <$> profiles d) d))
  = length (objects_filter n q d).
Proof.
  intros Hpk H0 Hc Hk Hr Hct Ho Hs. unfold objects_filter, objects. simpl.
  rewrite !list_filter_filter. apply length_filter_fmap_iff. intros r Hin.
  rewrite (rewrite_row_found d p0 k p r) by done.
  destruct (decide (r = p0)) as [->|]; [| done].
  unfold matches. simpl. by rewrite Hr, Hct, Ho, Hs, Hc.
Qed.

Lemma linked_to_user_matches d n rid u p :
  linked_to_user n rid u p -> matches d (of_user_model rid) p = true.
Proof.
  intros (_ & Hr & Hc & _). unfold matches, of_user_model, criterion. simpl.
  rewrite Hr, Hc, !bool_decide_eq_true_2; done.
Qed.

Lemma linked_to_user_found d n rid u p :
  p ∈ profiles d -> linked_to_user n rid u p ->
  p ∈ objects_filter n (of_user_model rid) d.
Proof.
  intros Hp Hl. unfold objects_filter, objects. rewrite !list_elem_of_filter.
  split; [apply Is_true_true; by eapply linked_to_user_matches |].
  split; [by destruct Hl | done].
Qed.

Lemma facebook_link_user_spec settings fb uid u w pf :
  primary_keys (db w) ->
  pf ∈ profiles (db w) ->
  linked_to_user FacebookProfile uid u pf ->
  let o := facebook_link_user settings fb uid u w in
  (forall n q, length (objects_filter n q (db (world_of o)))
               = length (objects_filter n q (db w)))
  /\ length (profiles (db (world_of o))) = length (profiles (db w))
  /\ (objects_filter FacebookProfile (of_user_model uid) (db w) = [pf] ->
      exists w', o = Ok None w'
                 /\ profiles (db w') = refresh_token fb pf <$> profiles (db w)).
Proof.
  intros Hpk Hpf Hl.
  pose proof (linked_to_user_found _ _ _ _ _ Hpf Hl) as Hin.
  unfold facebook_link_user, try_except, objects_get, get_world, bind.
  cbv beta. unfold of_user_model in *.
  remember (objects_filter FacebookProfile
              (mkQuery (Some (Some uid)) (Some (Some UserModel)) None None None)
              (db w)) as rows eqn:Hrows.
  destruct rows as [|p0 [|p1 rows]]; simpl.
  - by apply elem_of_nil in Hin.
  - assert (H0 : p0 ∈ objects_filter FacebookProfile
                   (mkQuery (Some (Some uid)) (Some (Some UserModel)) None None None)
                   (db w)) by (rewrite <- Hrows; apply list_elem_of_here).
    apply objects_filter_elem in H0 as (H0 & Hc0 & _).
    destruct (proj1 Hpk p0 H0) as [k Hk].
    set (updated := mkProfile (p_pk p0) (p_class p0) (remote_id p0) (screenname p0)
                      (fb !! "access_token") (consumer_secret p0) (content_type p0)
                      (object_id p0) (site p0) (Some (default "" (fb !! "secret")))).
    assert (Hsave : facebook_update fb p0 w
              = Ok updated (set_db (set_profiles (rewrite_row updated k <$> profiles (db w))
                                                 (db w)) w)).
    { unfold facebook_update. apply Profile_save_existing; [done |].
      apply Exists_exists. exists p0. split; [done |]. by apply same_row_iff. }
    rewrite Hsave. simpl. split_and!.
    + intros n q. by apply (rewrite_row_counts (db w) p0 k updated).
    + apply length_fmap.
    + intros [= ->]. eexists. split; [done |]. simpl.
      apply list_fmap_ext. intros i r Hr.
      rewrite (rewrite_row_found (db w) pf k updated r); try done.
      * unfold refresh_token. destruct (decide (r = pf)); [| done].
        unfold row_of, with_access_token, updated. simpl. by rewrite Hk.
      * apply list_elem_of_lookup. eauto.
  - split_and!; [done | done | discriminate].
Qed.

Lemma twitter_get_or_create_found settings user_info u tok sec w id pt :
  user_info !! "id" = Some id ->
  pt ∈ profiles (db w) ->
  linked_to_user TwitterProfile id u pt ->
  world_of (twitter_get_or_create settings user_info u tok sec w) = w.
Proof.
  intros Hid Hpt Hl.
  pose proof (linked_to_user_found _ _ _ _ _ Hpt Hl) as Hin.
  unfold twitter_get_or_create, try_except, objects_get, get_world, bind.
  rewrite Hid. simpl. unfold of_user_model in Hin.
  destruct (objects_filter TwitterProfile _ (db w)) as [|p0 [|p1 rows]]; simpl;
    [by apply elem_of_nil in Hin | done | done].
Qed.

Lemma on_site_found d rid u p site_id :
  p ∈ profiles d -> linked_to_user OpenIDProfile rid u p -> site p = site_id ->
  p ∈ objects_filter OpenIDProfile (of_user_model_on_site rid site_id) d.
Proof.
  intros Hp (Hc & Hr & Hct & _) Hs. unfold objects_filter, objects.
  rewrite !list_elem_of_filter. split; [| by split].
  apply Is_true_true. unfold matches, of_user_model_on_site, criterion. simpl.
  rewrite Hr, Hct, Hs, !bool_decide_eq_true_2; done.
Qed.

(** The authenticated-user branch of [openid_callback], lines 484 to 493,
    on an identity that is linked on the current site. *)
Lemma openid_reconnect_db settings request identity template extra_context
    account_inactive_template w u po :
  user w = Some u ->
  no_connect_object w ->
  po ∈ profiles (db w) ->
  linked_to_user OpenIDProfile identity u po ->
  site po = SITE_ID settings ->
  db (world_of (openid_callback settings request true identity template extra_context
                                account_inactive_template w)) = db w.
Proof.
  intros Hu Hn Hpo Hl Hs.
  pose proof (on_site_found _ _ _ _ _ Hpo Hl Hs) as Hin.
  unfold openid_callback.
  rewrite (bind_step _ _ _ _ _ (connect_object_in_session_None _ Hn)).
  rewrite bind_db.
  2: { intros [r|]; [apply keeps_db_ret |].
       apply keeps_db_bind; [apply keeps_db__get_next | intros ?]. apply keeps_db_ret. }
  unfold bind at 1, get_world at 1. rewrite Hu.
  rewrite bind_db.
  2: { intros _. apply keeps_db_bind; [apply keeps_db__get_next | intros _].
       apply keeps_db_bind; [apply keeps_db__get_next | intros ?]. apply keeps_db_ret. }
  unfold try_except, objects_get, get_world, bind. unfold of_user_model_on_site in Hin.
  destruct (objects_filter OpenIDProfile _ (db w)) as [|p0 [|p1 rows]]; simpl;
    [by apply elem_of_nil in Hin | done | done].
Qed.

(** C1, as amended: when the identity is already linked to the logged-in
    user, connecting again creates no profile, for each provider on its own.
    After [facebook_connect] every count of profiles, by class and by any of
    remote id, target and site, is what it was, and when the profile is the
    one the lookup finds, its row is rewritten in place with the new access
    token; after [twitter] the database is what it was; after
    [openid_callback] the database is what it was when the identity is
    linked on the current site. *)
Theorem reconnect_creates_no_second_profile
    settings request_fb request_tw request_oid user_info identity template
    extra_context account_inactive_template w u :
  user w = Some u ->
  (forall uid fb pf,
     primary_keys (db w) ->
     GET request_fb !! "m" = None ->
     fb_uid (facebook request_fb) = Some uid ->
     fb_user (facebook request_fb) = Some fb ->
     fb <> ∅ ->
     pf ∈ profiles (db w) ->
     linked_to_user FacebookProfile uid u pf ->
     let after_facebook :=
       facebook_connect settings request_fb template extra_context w in
     (forall n q, length (objects_filter n q (db (world_of after_facebook)))
                  = length (objects_filter n q (db w)))
     /\ length (profiles (db (world_of after_facebook))) = length (profiles (db w))
     /\ (objects_filter FacebookProfile (of_user_model uid) (db w) = [pf] ->
         exists url w', after_facebook = Ok (HttpResponseRedirect url) w'
                        /\ profiles (db w') = refresh_token fb pf <$> profiles (db w)))
  /\ (forall id pt,
        no_connect_object w ->
        user_info !! "id" = Some id ->
        pt ∈ profiles (db w) ->
        linked_to_user TwitterProfile id u pt ->
        db (world_of (twitter settings request_tw user_info account_inactive_template
                              extra_context w)) = db w)
  /\ (forall po,
        no_connect_object w ->
        po ∈ profiles (db w) ->
        linked_to_user OpenIDProfile identity u po ->
        site po = SITE_ID settings ->
        db (world_of (openid_callback settings request_oid true identity template
                                      extra_context account_inactive_template w))
        = db w).
Proof.
  intros Hu. split_and!.
  - intros uid fb pf Hpk Hm Huid Hfb Hne Hpf Hlf after_facebook.
    destruct (facebook_link_user_spec settings fb uid u w pf Hpk Hpf Hlf)
      as (Hcount & Hlen & Hupd).
    assert (Hdb : db (world_of after_facebook)
                  = db (world_of (facebook_link_user settings fb uid u w))).
    { unfold after_facebook. rewrite (facebook_connect_user _ _ _ _ _ u uid fb) by done.
      apply bind_db. intros _. apply keeps_db_redirect. }
    split_and!.
    + intros n q. rewrite Hdb. apply Hcount.
    + rewrite Hdb. apply Hlen.
    + intros Hone. destruct (Hupd Hone) as (w1 & E & Hrows).
      unfold after_facebook. rewrite (facebook_connect_user _ _ _ _ _ u uid fb) by done.
      rewrite (bind_step _ _ _ _ _ E).
      destruct (_get_next_total settings request_fb w1) as (v1 & w2 & E1).
      destruct (_get_next_total settings request_fb w2) as (v2 & w3 & E2).
      exists v2, w3. rewrite (bind_step _ _ _ _ _ E1), (bind_step _ _ _ _ _ E2).
      split; [done |].
      apply _get_next_frame in E1 as (D1 & _). apply _get_next_frame in E2 as (D2 & _).
      by rewrite D2, D1.
  - intros id pt Hco Hid Hpt Hlt.
    rewrite (twitter_authenticated _ _ _ _ _ _ u) by done.
    unfold bind at 1.
    pose proof (read_only_access_token_field "oauth_token" w) as H1.
    destruct (access_token_field "oauth_token" w) as [tok w1|e w1]; simpl in H1; subst w1;
      [| done].
    unfold bind at 1.
    pose proof (read_only_access_token_field "oauth_token_secret" w) as H2.
    destruct (access_token_field "oauth_token_secret" w) as [sec w1|e w1]; simpl in H2;
      subst w1; [| done].
    rewrite bind_db by (intros _; apply keeps_db_redirect).
    by rewrite (twitter_get_or_create_found _ _ _ _ _ _ id pt).
  - intros po Hco Hpo Hlo Hs. by apply (openid_reconnect_db _ _ _ _ _ _ _ u po).
Qed.

Lemma sample_db_primary_keys : primary_keys sample_db.
Proof.
  split.
  - intros p Hp. simpl in Hp.
    repeat (apply elem_of_cons in Hp as [->|Hp]; [by eexists |]).
    by apply elem_of_nil in Hp.
  - apply (bool_decide_unpack _). by vm_compute.
Qed.

Lemma facebook_only_db_primary_keys : primary_keys facebook_only_db.
Proof.
  split.
  - intros p Hp. simpl in Hp.
    repeat (apply elem_of_cons in Hp as [->|Hp]; [by eexists |]).
    by apply elem_of_nil in Hp.
  - apply (bool_decide_unpack _). by vm_compute.
Qed.

Lemma reconnect_creates_no_second_profile_witness :
  let fb : gmap string string := {[ "access_token" := "token-new" ]} in
  let after_facebook :=
    facebook_connect sample_settings alice_facebook_request
                     "socialregistration/facebook.html" ∅ facebook_only_world in
  let after_twitter :=
    twitter sample_settings get_request alice_user_info
            "socialregistration/account_inactive.html" ∅ linked_world in
  let after_openid :=
    openid_callback sample_settings get_request true "https://example.com/alice"
                    "socialregistration/openid.html" ∅
                    "socialregistration/account_inactive.html" linked_world in
  ((forall n q, length (objects_filter n q (db (world_of after_facebook)))
                = length (objects_filter n q (db facebook_only_world)))
   /\ length (profiles (db (world_of after_facebook)))
      = length (profiles (db facebook_only_world))
   /\ (objects_filter FacebookProfile (of_user_model "fb-1001") (db facebook_only_world)
       = [alice_facebook] ->
       exists url w', after_facebook = Ok (HttpResponseRedirect url) w'
                      /\ profiles (db w')
                         = refresh_token fb alice_facebook
                             <$> profiles (db facebook_only_world)))
  /\ db (world_of after_twitter) = db linked_world
  /\ db (world_of after_openid) = db linked_world.
Proof.
  destruct (reconnect_creates_no_second_profile sample_settings alice_facebook_request
              get_request get_request alice_user_info "https://example.com/alice"
              "socialregistration/facebook.html" ∅
              "socialregistration/account_inactive.html" facebook_only_world alice
              eq_refl) as (Hf & _ & _).
  destruct (reconnect_creates_no_second_profile sample_settings alice_facebook_request
              get_request get_request alice_user_info "https://example.com/alice"
              "socialregistration/openid.html" ∅
              "socialregistration/account_inactive.html" linked_world alice
              eq_refl) as (_ & Ht & Ho).
  split; [| split].
  - apply (Hf "fb-1001" {[ "access_token" := "token-new" ]} alice_facebook).
    + exact facebook_only_db_primary_keys.
    + reflexivity.
    + reflexivity.
    + reflexivity.
    + intros H. apply (f_equal (fun m => m !! "access_token")) in H. discriminate H.
    + simpl. apply list_elem_of_here.
    + repeat split; reflexivity.
  - apply (Ht "1001" alice_twitter).
    + left. reflexivity.
    + reflexivity.
    + simpl. apply list_elem_of_further, list_elem_of_here.
    + repeat split; reflexivity.
  - apply (Ho alice_openid).
    + left. reflexivity.
    + simpl. do 3 apply list_elem_of_further. apply list_elem_of_here.
    + repeat split; reflexivity.
    + reflexivity.
Defined.

(** C1, as stated, fails on Twitter: Alice's profile exists, she comes back
    with a new token and secret, the view answers, and the stored
    credentials are the old ones. *)
Lemma twitter_reconnect_keeps_old_credentials :
  let o := twitter sample_settings get_request alice_user_info
                   "socialregistration/account_inactive.html" ∅ reconnect_world in
  user reconnect_world = Some alice
  /\ linked_to_user TwitterProfile "1001" alice alice_twitter
  /\ access_token_field "oauth_token" reconnect_world = Ok "token-new" reconnect_world
  /\ access_token_field "oauth_token_secret" reconnect_world
     = Ok "secret-new" reconnect_world
  /\ response_of o = Some (HttpResponseRedirect (VStr "/"))
  /\ profiles (db (world_of o)) = [alice_facebook; alice_twitter; article_twitter]
  /\ consumer_key alice_twitter = Some "token-old"
  /\ consumer_secret alice_twitter = "secret-old".
Proof. split_and!; try reflexivity. repeat split; reflexivity. Qed.

(** What [facebook_connect] stores for the same visit: the new access
    token, next to the secret it had. *)
Example facebook_reconnect_refreshes_token :
  let request := mkRequest "GET" ∅ ∅ ∅
                   (mkFacebook (Some "fb-1001")
                      (Some {[ "access_token" := "token-new"; "secret" := "secret-new" ]})) in
  profiles (db (world_of (facebook_connect sample_settings request
                            "socialregistration/facebook.html" ∅ reconnect_world)))
  = [mkProfile (Some 1) FacebookProfile "fb-1001" "" (Some "token-new") "secret-old"
               (Some UserModel) (Some 1) 1 None;
     alice_twitter; article_twitter].
Proof. reflexivity. Qed.

(** The lookup of [openid_callback] is by site as well: an identity that is
    linked to Alice on another site is not found, and a second profile of
    the identity is created for her. *)
Example openid_reconnect_elsewhere_adds_profile :
  let o := openid_callback sample_settings get_request true "https://example.com/alice"
                           "socialregistration/openid.html" ∅
                           "socialregistration/account_inactive.html" elsewhere_world in
  linked_to_user OpenIDProfile "https://example.com/alice" alice alice_openid_elsewhere
  /\ site alice_openid_elsewhere <> SITE_ID sample_settings
  /\ profiles (db (world_of o))
     = [alice_facebook; alice_twitter; article_twitter; alice_openid_elsewhere;
        mkProfile (Some 2) OpenIDProfile "https://example.com/alice" "" None ""
                  (Some UserModel) (Some 1) 1 None].
Proof. split_and!; [repeat split; reflexivity | discriminate | reflexivity]. Qed.


(** ** Creating the account *)

Lemma username_taken_free u d :
  (forall r, r ∈ users d -> username r = username u -> u_pk r = u_pk u) ->
  username_taken u d = false.
Proof.
  intros H. unfold username_taken. apply bool_decide_eq_false_2.
  rewrite Exists_exists. intros (r & Hr & Hn & Hk). by apply Hk, H.
Qed.

Lemma User_save_insert u w :
  u_pk u = None ->
  (forall r, r ∈ users (db w) -> username r <> username u) ->
  let u' := mkUser (Some (fresh_pk (u_pk <$> users (db w))))
                   (username u) (email u) (password u) (is_active u) in
  User_save u w = Ok u' (set_db (set_users (users (db w) ++ [u']) (db w)) w).
Proof.
  intros Hk Hfree. unfold User_save, bind, get_world, modify, ret.
  rewrite username_taken_free; [by rewrite Hk |].
  intros r Hr Hn. by destruct (Hfree r Hr).
Qed.

Lemma User_save_last u u1 k rows w :
  users (db w) = (rows ++ [u1])%list ->
  u_pk u1 = Some k -> u_pk u = Some k ->
  Some k ∉ u_pk <$> rows ->
  (forall r, r ∈ rows -> username r <> username u) ->
  User_save u w = Ok u (set_db (set_users (rows ++ [u]) (db w)) w).
Proof.
  intros Hus Hk1 Hk Hfresh Hfree. unfold User_save, bind, get_world, modify, ret.
  rewrite username_taken_free.
  - rewrite Hk. rewrite bool_decide_eq_true_2.
    + rewrite Hus, fmap_app. simpl. rewrite bool_decide_eq_true_2 by done.
      replace ((fun r => if bool_decide (u_pk r = Some k) then u else r) <$> rows)
        with rows; [done |].
      rewrite <- (list_fmap_id rows) at 1. apply list_fmap_ext. intros i r Hr. simpl.
      rewrite bool_decide_eq_false_2; [done |]. intros Hrk. apply Hfresh.
      apply list_elem_of_fmap. exists r. split; [done |].
      apply list_elem_of_lookup. eauto.
    + rewrite Hus, Exists_app. right. by apply Exists_cons_hd.
  - rewrite Hus. intros r [Hr|Hr]%elem_of_app Hn.
    + by destruct (Hfree r Hr).
    + apply list_elem_of_singleton in Hr as ->. congruence.
Qed.

Lemma filter_none {A} (P : A -> Prop) `{!forall x, Decision (P x)} (l : list A) :
  (forall x, x ∈ l -> ~ P x) -> filter P l = [].
Proof.
  intros Hnone. destruct (filter P l) as [|x l'] eqn:E; [done |].
  assert (Hx : x ∈ filter P l) by (rewrite E; apply list_elem_of_here).
  apply list_elem_of_filter in Hx as [Hp Hin]. by destruct (Hnone x Hin).
Qed.

(** After the account and the profile are saved, the identity
    authenticates the account. *)
Lemma authenticate_new_profile n rid w rows accounts row k account :
  profiles (db w) = (rows ++ [row])%list ->
  users (db w) = (accounts ++ [account])%list ->
  filter (fun p => matches (db w) (with_remote_id rid) p)
         (filter (fun p => p_class p = n) rows) = [] ->
  p_class row = n -> remote_id row = rid ->
  content_type row = Some UserModel -> object_id row = Some k ->
  u_pk account = Some k -> Some k ∉ u_pk <$> accounts ->
  authenticate n rid w = Ok (Some account) w.
Proof.
  intros Hp Hu Hnone Hc Hr Hct Ho Hk Hfresh.
  apply (authenticate_first n rid w row [] k); [| done | done |].
  - unfold objects_filter, objects. rewrite Hp, !filter_app, Hnone. simpl.
    rewrite filter_cons_True by done. rewrite filter_nil.
    rewrite filter_cons_True; [done |]. apply Is_true_true, with_remote_id_matches. done.
  - rewrite Hu, filter_app.
    replace (filter (fun u => u_pk u = Some k) accounts) with (@nil User).
    + simpl. by rewrite filter_cons_True.
    + symmetry. apply filter_none.
      intros r Hin Hrk. apply Hfresh. apply list_elem_of_fmap. eauto.
Qed.

Lemma bind_session_set {B} key v (k : M B) w :
  (session_set key v ;;; k) w = k (set_session (<[key := v]> (session w)) w).
Proof. reflexivity. Qed.

(** The last step of both flows: the account and the profile row are in
    the database, the session holds the saved profile. *)
Lemma login_new_account settings request w w3 su sp mail name saved :
  objects_filter (p_class sp) (with_remote_id (remote_id sp)) (db w) = [] ->
  content_types (db w3) = content_types (db w) ->
  users (db w3) = (users (db w) ++ [new_account (db w) name mail su])%list ->
  profiles (db w3)
  = (profiles (db w) ++ [new_profile_row (db w) (new_account (db w) name mail su) sp])%list ->
  session w3 !! "socialregistration_profile" = Some (VProfile saved) ->
  p_class saved = p_class sp -> remote_id saved = remote_id sp ->
  exists url w',
    _authenticate_login_redirect settings request w3 = Ok (HttpResponseRedirect url) w'
    /\ user w' = Some (new_account (db w) name mail su)
    /\ db w' = db w3
    /\ pending_registration_cleared w'.
Proof.
  intros Hnone Hct Hus Hps Hs Hc Hr.
  apply (_authenticate_login_redirect_run settings request w3 saved); [done |].
  rewrite Hc, Hr.
  apply (authenticate_new_profile _ _ _ (profiles (db w)) (users (db w))
           (new_profile_row (db w) (new_account (db w) name mail su) sp)
           (fresh_pk (u_pk <$> users (db w)))); try done.
  apply fresh_pk_fresh.
Qed.

Lemma setup_generate_run settings request uuid4 w su sp :
  session w !! "socialregistration_profile" = Some (VProfile sp) ->
  u_pk su = None -> p_pk sp = None ->
  objects_filter (p_class sp) (with_remote_id (remote_id sp)) (db w) = [] ->
  (forall r, r ∈ users (db w) -> username r <> String.substring 0 30 uuid4) ->
  let account := new_account (db w) (String.substring 0 30 uuid4) (email su) su in
  exists url w',
    setup_generate settings request uuid4 (VUser su) (VProfile sp) w
    = Ok (HttpResponseRedirect url) w'
    /\ users (db w') = (users (db w) ++ [account])%list
    /\ profiles (db w') = (profiles (db w) ++ [new_profile_row (db w) account sp])%list
    /\ user w' = Some account
    /\ pending_registration_cleared w'.
Proof.
  intros Hsp Hpk Hppk Hnone Hfree account.
  set (name := String.substring 0 30 uuid4) in *.
  set (u1 := mkUser (Some (fresh_pk (u_pk <$> users (db w)))) name (email su)
                    (password su) (is_active su)).
  unfold setup_generate. unfold bind at 1. simpl. unfold ret at 1.
  rewrite (bind_step _ _ _ _ _ (User_save_insert (set_username name su) w Hpk Hfree)).
  rewrite bind_session_set.
  match goal with |- context [bind (User_save ?u) _ ?w2] =>
    assert (E2 : User_save u w2
                 = Ok account (set_db (set_users (users (db w) ++ [account]) (db w2)) w2))
  end.
  { apply (User_save_last _ u1 (fresh_pk (u_pk <$> users (db w)))); try done.
    apply fresh_pk_fresh. }
  rewrite (bind_step _ _ _ _ _ E2). clear E2.
  rewrite bind_session_set. unfold bind at 1. simpl.
  match goal with |- context [bind (Profile_save ?p) _ ?w4] =>
    pose proof (Profile_save_new p w4 Hppk) as E3
  end.
  rewrite (bind_step _ _ _ _ _ E3). clear E3.
  rewrite bind_session_set.
  match goal with |- context [_authenticate_login_redirect _ _ ?w6] =>
    destruct (login_new_account settings request w w6 su sp (email su) name
                (mkProfile (Some (fresh_pk (p_pk <$> objects (p_class sp) (db w))))
                   (p_class sp) (remote_id sp) (screenname sp) (consumer_key sp)
                   (consumer_secret sp) (Some UserModel) (u_pk account) (site sp)
                   (secret sp)))
      as (url & w' & E & Hu & Hd & Hc); try done
  end.
  - simpl. apply lookup_insert_eq.
  - exists url, w'. rewrite E, Hd. done.
Qed.

Lemma bind_store_pending {B} u p (k : M B) w :
  (store_pending u p ;;; k) w
  = k (set_session (<["socialregistration_profile" := p]>
                      (<["socialregistration_user" := u]> (session w))) w).
Proof. destruct w. reflexivity. Qed.

Lemma try_except_step {A} (m h : M A) handles w a w' :
  m w = Ok a w' -> try_except m handles h w = Ok a w'.
Proof. unfold try_except. by intros ->. Qed.

Lemma UserForm_is_valid_available su sp request w name :
  POST request !! "username" = Some name -> name <> "" ->
  (forall r, r ∈ users (db w) -> username r <> name) ->
  UserForm_is_valid (mkForm su sp (Some (POST request))) w = Ok true w.
Proof.
  intros Hn Hne Hfree. unfold UserForm_is_valid, bind, get_world. simpl. rewrite Hn.
  rewrite bool_decide_eq_false_2 by done.
  rewrite filter_none; [done |]. intros r Hr. by apply Hfree.
Qed.

Lemma setup_try_form_run settings request w su sp name :
  session w !! "socialregistration_profile" = Some (VProfile sp) ->
  u_pk su = None -> p_pk sp = None ->
  objects_filter (p_class sp) (with_remote_id (remote_id sp)) (db w) = [] ->
  (forall r, r ∈ users (db w) -> username r <> name) ->
  POST request !! "username" = Some name -> name <> "" ->
  let account := new_account (db w) name (default "" (POST request !! "email")) su in
  exists url w',
    setup_try_form settings request UserForm
      (mkForm (VUser su) (VProfile sp) (Some (POST request))) w
    = Ok (Some (HttpResponseRedirect url)) w'
    /\ users (db w') = (users (db w) ++ [account])%list
    /\ profiles (db w') = (profiles (db w) ++ [new_profile_row (db w) account sp])%list
    /\ user w' = Some account
    /\ pending_registration_cleared w'.
Proof.
  intros Hsp Hpk Hppk Hnone Hfree Hname Hne account.
  set (mail := default "" (POST request !! "email")) in *.
  set (k := fresh_pk (u_pk <$> users (db w))).
  set (u1 := mkUser (Some k) name mail (password su) (is_active su)).
  unfold setup_try_form. simpl.
  rewrite (bind_step _ _ _ _ _ (UserForm_is_valid_available _ _ _ _ name Hname Hne Hfree)).
  assert (Hsave : UserForm_save (mkForm (VUser su) (VProfile sp) (Some (POST request))) w
            = Ok (mkForm (VUser u1)
                    (VProfile (mkProfile
                       (Some (fresh_pk (p_pk <$> objects (p_class sp) (db w))))
                       (p_class sp) (remote_id sp) (screenname sp) (consumer_key sp)
                       (consumer_secret sp) (Some UserModel) (Some k) (site sp)
                       (secret sp)))
                    (Some (POST request)))
                 (set_db (set_profiles
                    (profiles (db w) ++ [new_profile_row (db w) account sp])
                    (set_users (users (db w) ++ [u1]) (db w))) w)).
  { unfold UserForm_save. unfold bind at 1. simpl. unfold bind at 1. simpl.
    rewrite Hname. simpl. fold mail.
    rewrite (bind_step _ _ _ _ _
               (User_save_insert (mkUser (u_pk su) name mail (password su) (is_active su))
                  w Hpk Hfree)).
    fold k. fold u1.
    match goal with |- context [bind (Profile_save ?p) _ ?w1] =>
      rewrite (bind_step _ _ _ _ _ (Profile_save_new p w1 Hppk))
    end.
    reflexivity. }
  rewrite (bind_step _ _ _ _ _ Hsave). clear Hsave. simpl.
  rewrite bind_store_pending. unfold bind at 1. simpl.
  match goal with |- context [bind (Profile_authenticate ?p) _ ?w2] =>
    assert (Hauth : Profile_authenticate p w2 = Ok (Some u1) w2)
  end.
  { unfold Profile_authenticate. simpl.
    apply (authenticate_new_profile _ _ _ (profiles (db w)) (users (db w))
             (new_profile_row (db w) account sp) k); try done.
    apply fresh_pk_fresh. }
  rewrite (bind_step _ _ _ _ _ Hauth). clear Hauth. unfold bind at 1. simpl.
  match goal with |- context [bind (User_save ?u) _ ?w2] =>
    assert (E2 : User_save u w2
                 = Ok account (set_db (set_users (users (db w) ++ [account]) (db w2)) w2))
  end.
  { apply (User_save_last _ u1 k); try done. apply fresh_pk_fresh. }
  rewrite (bind_step _ _ _ _ _ E2). clear E2.
  match goal with |- context [bind (_authenticate_login_redirect _ _) _ ?w6] =>
    destruct (login_new_account settings request w w6 su sp mail name
                (mkProfile (Some (fresh_pk (p_pk <$> objects (p_class sp) (db w))))
                   (p_class sp) (remote_id sp) (screenname sp) (consumer_key sp)
                   (consumer_secret sp) (Some UserModel) (Some k) (site sp)
                   (secret sp)))
      as (url & w' & E & Hu & Hd & Hc); try done
  end.
  - simpl. apply lookup_insert_eq.
  - exists url, w'. rewrite (bind_step _ _ _ _ _ E), Hd. done.
Qed.

(** No password claims an account whose password is the unusable
    sentinel. *)
Lemma unusable_account_not_claimable f d accounts account :
  users d = (accounts ++ [account])%list ->
  (forall r, r ∈ accounts -> username r <> username account) ->
  has_usable_password account = false ->
  form_data f ≫= (fun data => data !! "username") = Some (username account) ->
  claimed_account f d = None.
Proof.
  intros Hus Hfree Hun Hname. unfold claimed_account.
  destruct (form_data f) as [data|]; [| done]. simpl in *. rewrite Hname. simpl.
  destruct (data !! "password") as [pass|]; [| done]. simpl.
  rewrite filter_none; [done |].
  intros r Hr (Hn & Hus' & _). rewrite Hus in Hr.
  apply elem_of_app in Hr as [Hr|Hr].
  - by destruct (Hfree r Hr).
  - apply list_elem_of_singleton in Hr as ->. rewrite Hun in Hus'. done.
Qed.

(** C3: a setup request of a pending registration whose identity no profile
    has, with a username no account holds, whether submitted in the form
    (generated usernames off) or drawn by the view (generated usernames on):
    [setup] adds one account, with that name and the unusable password, which
    is not empty and which no password claims, adds one profile row bound to
    the account, logs the account in, redirects, and leaves the session
    without the pending registration. *)
Theorem setup_creates_account_and_profile
    settings request uuid4 template extra_context w su sp name :
  session w !! "socialregistration_user" = Some (VUser su) ->
  session w !! "socialregistration_profile" = Some (VProfile sp) ->
  u_pk su = None ->
  p_pk sp = None ->
  objects_filter (p_class sp) (with_remote_id (remote_id sp)) (db w) = [] ->
  (forall r, r ∈ users (db w) -> username r <> name) ->
  (GENERATE_USERNAME settings = false /\ method request = "POST"
   /\ POST request !! "username" = Some name /\ name <> "")
  \/ (GENERATE_USERNAME settings = true /\ name = String.substring 0 30 uuid4) ->
  exists url w' mail,
    let account := new_account (db w) name mail su in
    let row := new_profile_row (db w) account sp in
    setup settings request uuid4 template UserForm extra_context ClaimForm w
    = Ok (HttpResponseRedirect url) w'
    /\ users (db w') = (users (db w) ++ [account])%list
    /\ profiles (db w') = (profiles (db w) ++ [row])%list
    /\ username account = name
    /\ password account = UNUSABLE_PASSWORD
    /\ UNUSABLE_PASSWORD <> ""
    /\ has_usable_password account = false
    /\ (forall f, form_data f ≫= (fun data => data !! "username") = Some name ->
                  claimed_account f (db w') = None)
    /\ content_type row = Some UserModel
    /\ object_id row = u_pk account
    /\ remote_id row = remote_id sp
    /\ user w' = Some account
    /\ pending_registration_cleared w'.
Proof.
  intros Hsu Hsp Hpk Hppk Hnone Hfree Hpath.
  assert (Hrun : exists url w' mail,
            setup settings request uuid4 template UserForm extra_context ClaimForm w
            = Ok (HttpResponseRedirect url) w'
            /\ users (db w') = (users (db w) ++ [new_account (db w) name mail su])%list
            /\ profiles (db w')
               = (profiles (db w)
                  ++ [new_profile_row (db w) (new_account (db w) name mail su) sp])%list
            /\ user w' = Some (new_account (db w) name mail su)
            /\ pending_registration_cleared w').
  { rewrite (setup_pending _ _ _ _ _ _ _ _ (VUser su) sp) by done. rewrite Hnone.
    destruct Hpath as [(Hg & Hm & Hname & Hne)|(Hg & ->)]; rewrite Hg; simpl.
    - destruct (setup_try_form_run settings request w su sp name)
        as (url & w' & E & Hrest); try done.
      exists url, w', (default "" (POST request !! "email")). split; [| done].
      rewrite bool_decide_eq_true_2 by done. simpl.
      rewrite (bind_step _ _ _ (inl (HttpResponseRedirect url)) w'); [done |].
      apply try_except_step. by rewrite (bind_step _ _ _ _ _ E).
    - destruct (setup_generate_run settings request uuid4 w su sp)
        as (url & w' & E & Hrest); try done.
      by exists url, w', (email su). }
  destruct Hrun as (url & w' & mail & E & Hus & Hps & Hu & Hc).
  exists url, w', mail. simpl. split_and!; try done.
  intros f Hf.
  apply (unusable_account_not_claimable f (db w') (users (db w))
           (new_account (db w) name mail su)); done.
Qed.

Lemma setup_creates_account_and_profile_witness :
  exists url w' mail,
    let account := new_account (db openid_pending_world) "carol" mail User_new in
    let row := new_profile_row (db openid_pending_world) account
                 (Profile_new sample_settings OpenIDProfile "https://example.com/carol"
                              "" None "") in
    setup sample_settings carol_request sample_uuid4 "socialregistration/setup.html"
          UserForm ∅ ClaimForm openid_pending_world
    = Ok (HttpResponseRedirect url) w'
    /\ users (db w') = (users (db openid_pending_world) ++ [account])%list
    /\ profiles (db w') = (profiles (db openid_pending_world) ++ [row])%list
    /\ username account = "carol"
    /\ password account = UNUSABLE_PASSWORD
    /\ UNUSABLE_PASSWORD <> ""
    /\ has_usable_password account = false
    /\ (forall f, form_data f ≫= (fun data => data !! "username") = Some "carol" ->
                  claimed_account f (db w') = None)
    /\ content_type row = Some UserModel
    /\ object_id row = u_pk account
    /\ remote_id row = "https://example.com/carol"
    /\ user w' = Some account
    /\ pending_registration_cleared w'.
Proof.
  apply (setup_creates_account_and_profile sample_settings carol_request sample_uuid4
           "socialregistration/setup.html" ∅ openid_pending_world User_new
           (Profile_new sample_settings OpenIDProfile "https://example.com/carol"
                        "" None "") "carol").
  - reflexivity.
  - reflexivity.
  - reflexivity.
  - reflexivity.
  - reflexivity.
  - intros r Hr. simpl in Hr.
    repeat (apply elem_of_cons in Hr as [->|Hr]; [discriminate |]).
    by apply elem_of_nil in Hr.
  - left. split_and!; [reflexivity | reflexivity | reflexivity | discriminate].
Defined.

Example setup_carol :
  let o := setup sample_settings carol_request sample_uuid4
                 "socialregistration/setup.html" UserForm ∅ ClaimForm
                 openid_pending_world in
  let carol := mkUser (Some 3) "carol" "carol@example.com" "!" true in
  response_of o = Some (HttpResponseRedirect (VStr "/welcome/"))
  /\ users (db (world_of o)) = [alice; bob; carol]
  /\ profiles (db (world_of o))
     = [alice_facebook; alice_twitter; article_twitter;
        mkProfile (Some 1) OpenIDProfile "https://example.com/carol" "" None ""
                  (Some UserModel) (Some 3) 1 None]
  /\ user (world_of o) = Some carol
  /\ session (world_of o) = {[ SESSION_KEY := VInt 3 ]}.
Proof. split_and!; reflexivity. Qed.

Example setup_generated_username :
  let o := setup generate_settings get_request sample_uuid4
                 "socialregistration/setup.html" UserForm ∅ ClaimForm
                 openid_pending_world in
  response_of o = Some (HttpResponseRedirect (VStr "/welcome/"))
  /\ users (db (world_of o))
     = [alice; bob; mkUser (Some 3) "6fa459ea-ee8a-3ca4-894e-db77e1" "" "!" true]
  /\ length (profiles (db (world_of o))) = 4.
Proof. split_and!; reflexivity. Qed.

(** * Further properties of the views *)

(** ** [_get_next] *)

Lemma set_session_same w : set_session (session w) w = w.
Proof. by destruct w. Qed.

Lemma _get_next_run settings request w :
  _get_next settings request w
  = Ok (resolved_next settings request w) (without_next w).
Proof.
  unfold resolved_next, without_next.
  destruct (session w !! "next") as [v|] eqn:E.
  - by rewrite (_get_next_session _ _ _ v E).
  - rewrite delete_id, set_session_same by done. simpl.
    unfold _get_next, bind, session_has, ret, explicit_next.
    rewrite bool_decide_eq_false_2; [| rewrite E; by intros [? ?]].
    by destruct (GET request !! "next"); [| destruct (POST request !! "next")].
Qed.

(** X1: [_get_next] always answers: with the session value when the session
    holds one, else with the GET value, else with the POST value, else with
    [LOGIN_REDIRECT_URL] or the root URL.  All it changes is the session,
    which loses its [next] key and nothing else. *)
Theorem get_next_consumes_session_next settings request w :
  exists w',
    _get_next settings request w = Ok (resolved_next settings request w) w'
    /\ session w' = delete "next" (session w)
    /\ db w' = db w /\ user w' = user w /\ messages w' = messages w.
Proof. exists (without_next w). split; [apply _get_next_run | done]. Qed.

Lemma without_next_lookup w : session (without_next w) !! "next" = None.
Proof. apply lookup_delete_eq. Qed.

Lemma resolved_next_without_next settings request w :
  resolved_next settings request (without_next w) = explicit_next settings request.
Proof. unfold resolved_next. by rewrite without_next_lookup. Qed.

Lemma without_next_twice w : without_next (without_next w) = without_next w.
Proof.
  unfold without_next. simpl. destruct w. simpl. unfold set_session. simpl.
  by rewrite delete_delete_eq.
Qed.

(** Logging [_get_next(request)] and then redirecting to it. *)
Lemma get_next_logged_then_used settings request w :
  (_get_next settings request ;;;
   next <- _get_next settings request ;;
   ret (HttpResponseRedirect next)) w
  = Ok (HttpResponseRedirect (explicit_next settings request)) (without_next w).
Proof.
  unfold bind. rewrite !_get_next_run.
  by rewrite resolved_next_without_next, without_next_twice.
Qed.

(** ** [disconnect] on POST *)

Lemma read_only_Raise {A} (m : M A) w e w' : read_only m -> m w = Raise e w' -> w' = w.
Proof. intros Hm E. specialize (Hm w). rewrite E in Hm. exact Hm. Qed.

Lemma bind_Raise {A B} (m : M A) (k : A -> M B) w e w' :
  bind m k w = Raise e w' ->
  m w = Raise e w' \/ exists a w1, m w = Ok a w1 /\ k a w1 = Raise e w'.
Proof.
  unfold bind. destruct (m w) as [a w1|e1 w1]; simpl; intros H.
  - right. exists a, w1. by split.
  - injection H as -> ->. by left.
Qed.

(** The lookups of [disconnect], lines 56 to 59. *)
Lemma read_only_disconnect_profile profile_model object_type object_id :
  read_only (match profile_model with
             | ProfileModel n => objects_get n (of_target object_type object_id)
             | _ => raise FieldError
             end).
Proof. destruct profile_model; auto with read_only. Qed.

Lemma disconnect_Ok settings request network object_type object_id w response w' :
  disconnect settings request network object_type object_id w = Ok response w' ->
  exists n profile model content_object,
    ContentType_get network w = Ok (ProfileModel n) w
    /\ objects_filter n (of_target object_type object_id) (db w) = [profile]
    /\ ContentType_get object_type w = Ok model w
    /\ Model_objects_get model object_id w = Ok content_object w
    /\ (if bool_decide (method request = "POST")
        then response = HttpResponseRedirect
                          (post_disconnect_redirect_url settings content_object None)
             /\ w' = set_db (set_profiles (other_rows profile (profiles (db w))) (db w)) w
        else w' = w).
Proof.
  unfold disconnect. intros H.
  apply bind_Ok in H as (profile_model & w1 & H1 & H).
  pose proof (read_only_Ok _ _ _ _ (read_only_ContentType_get network) H1) as ->.
  apply bind_Ok in H as (profile & w1 & H2 & H).
  destruct profile_model as [|n|]; try discriminate.
  apply objects_get_Ok in H2 as [H2 ->].
  apply bind_Ok in H as (model & w1 & H3 & H).
  pose proof (read_only_Ok _ _ _ _ (read_only_ContentType_get object_type) H3) as ->.
  apply bind_Ok in H as (content_object & w1 & H4 & H).
  pose proof (read_only_Ok _ _ _ _ (read_only_Model_objects_get model object_id) H4) as ->.
  exists n, profile, model, content_object. split_and!; try done.
  case_bool_decide.
  - apply bind_Ok in H as ([] & w1 & H5 & H). injection H as <- <-.
    unfold Profile_delete, modify in H5. by injection H5 as <-.
  - by injection H as _ <-.
Qed.

(** X2: when [disconnect] raises, whatever the method, nothing has been
    deleted or changed: the exceptions come from the four lookups, which
    precede [profile.delete()]. *)
Theorem disconnect_failure_changes_nothing
    settings request network object_type object_id w e w' :
  disconnect settings request network object_type object_id w = Raise e w' ->
  w' = w.
Proof.
  unfold disconnect. intros H.
  apply bind_Raise in H as [H|(profile_model & w1 & H1 & H)];
    [by eapply read_only_Raise; [apply read_only_ContentType_get |] |].
  pose proof (read_only_Ok _ _ _ _ (read_only_ContentType_get network) H1) as ->.
  apply bind_Raise in H as [H|(profile & w1 & H2 & H)];
    [by eapply read_only_Raise; [apply read_only_disconnect_profile |] |].
  pose proof (read_only_Ok _ _ _ _
                (read_only_disconnect_profile profile_model object_type object_id) H2)
    as ->.
  apply bind_Raise in H as [H|(model & w1 & H3 & H)];
    [by eapply read_only_Raise; [apply read_only_ContentType_get |] |].
  pose proof (read_only_Ok _ _ _ _ (read_only_ContentType_get object_type) H3) as ->.
  apply bind_Raise in H as [H|(content_object & w1 & H4 & H)];
    [by eapply read_only_Raise; [apply read_only_Model_objects_get |] |].
  pose proof (read_only_Ok _ _ _ _ (read_only_Model_objects_get model object_id) H4) as ->.
  case_bool_decide; [| discriminate].
  apply bind_Raise in H as [H|([] & w1 & _ & H)]; discriminate.
Qed.

Lemma disconnect_failure_changes_nothing_witness :
  world_of (disconnect sample_settings post_request 9 5 42 anonymous_world)
  = anonymous_world.
Proof.
  apply (disconnect_failure_changes_nothing sample_settings post_request 9 5 42
           anonymous_world (DoesNotExist "ContentType")).
  reflexivity.
Defined.

Lemma other_rows_elem profile rows r :
  r ∈ other_rows profile rows
  <-> r ∈ rows /\ ~ (p_class r = p_class profile /\ p_pk r = p_pk profile).
Proof. unfold other_rows. rewrite list_elem_of_filter. tauto. Qed.

Lemma objects_filter_other_rows n q d profile :
  objects_filter n q (set_profiles (other_rows profile (profiles d)) d)
  = other_rows profile (objects_filter n q d).
Proof.
  unfold objects_filter, objects, other_rows. simpl.
  rewrite !list_filter_filter. apply list_filter_iff. intros r. tauto.
Qed.

Lemma Model_rows_elem model pk d o :
  o ∈ Model_rows model pk d -> i_class o = model /\ i_pk o = pk.
Proof.
  destruct model as [|n|a m]; simpl.
  - intros (u & Hu & Ho)%list_elem_of_omap.
    apply list_elem_of_filter in Hu as [Hk _]. unfold instance_of_user in Ho.
    rewrite Hk in Ho. by injection Ho as <-.
  - intros (p & Hp & Ho)%list_elem_of_omap.
    apply list_elem_of_filter in Hp as [Hk Hp]. unfold instance_of_profile in Ho.
    rewrite Hk in Ho. injection Ho as <-. simpl.
    unfold objects in Hp. apply list_elem_of_filter in Hp as [Hc _]. by rewrite Hc.
  - intros [Ho _]%list_elem_of_filter. done.
Qed.

(** X3: a confirmed disconnect that answers has found exactly one profile
    on the target, and the target itself: the single row with primary key
    [object_id] of the model whose content type id is [object_type].  It
    deletes the rows with that profile's class and primary key and no other
    row, leaves the accounts, the session and [request.user] alone, and
    redirects to the URL of that target: its own URL, else the configured
    URL, else the root. *)
Theorem disconnect_post_deletes_the_profile
    settings request network object_type object_id w response w' :
  method request = "POST" ->
  disconnect settings request network object_type object_id w = Ok response w' ->
  exists n profile model content_object,
    ContentType_get network w = Ok (ProfileModel n) w
    /\ objects_filter n (of_target object_type object_id) (db w) = [profile]
    /\ ContentType_get object_type w = Ok model w
    /\ Model_rows model object_id (db w) = [content_object]
    /\ i_class content_object = model
    /\ i_pk content_object = object_id
    /\ response = HttpResponseRedirect
                    (post_disconnect_redirect_url settings content_object None)
    /\ (profile ∉ profiles (db w'))
    /\ (forall r, r ∈ profiles (db w') <->
                  r ∈ profiles (db w)
                  /\ ~ (p_class r = p_class profile /\ p_pk r = p_pk profile))
    /\ users (db w') = users (db w)
    /\ instances (db w') = instances (db w)
    /\ session w' = session w
    /\ user w' = user w.
Proof.
  intros Hm H.
  apply disconnect_Ok in H as (n & profile & model & obj & Hn & Hf & Hct & Hobj & H).
  rewrite bool_decide_eq_true_2 in H by done. destruct H as [-> ->].
  unfold Model_objects_get in Hobj.
  apply bind_Ok in Hobj as (w0 & w1 & [= <- <-] & Hobj).
  apply get_one_Ok in Hobj as [Hrows _].
  assert (Ho : obj ∈ Model_rows model object_id (db w))
    by (rewrite Hrows; apply list_elem_of_here).
  apply Model_rows_elem in Ho as [Hclass Hpk].
  exists n, profile, model, obj. split_and!; try done.
  - simpl. rewrite other_rows_elem. intros [_ Hne]. by apply Hne.
  - intros r. simpl. apply other_rows_elem.
Qed.

Lemma disconnect_post_deletes_the_profile_witness :
  let w' := world_of (disconnect sample_settings post_request 3 5 42 anonymous_world) in
  exists n profile model content_object,
    ContentType_get 3 anonymous_world = Ok (ProfileModel n) anonymous_world
    /\ objects_filter n (of_target 5 42) (db anonymous_world) = [profile]
    /\ ContentType_get 5 anonymous_world = Ok model anonymous_world
    /\ Model_rows model 42 (db anonymous_world) = [content_object]
    /\ i_class content_object = model
    /\ i_pk content_object = 42
    /\ HttpResponseRedirect (VStr "/")
       = HttpResponseRedirect
           (post_disconnect_redirect_url sample_settings content_object None)
    /\ (profile ∉ profiles (db w'))
    /\ (forall r, r ∈ profiles (db w') <->
                  r ∈ profiles (db anonymous_world)
                  /\ ~ (p_class r = p_class profile /\ p_pk r = p_pk profile))
    /\ users (db w') = users (db anonymous_world)
    /\ instances (db w') = instances (db anonymous_world)
    /\ session w' = session anonymous_world
    /\ user w' = user anonymous_world.
Proof.
  apply (disconnect_post_deletes_the_profile sample_settings post_request 3 5 42
           anonymous_world (HttpResponseRedirect (VStr "/"))
           (world_of (disconnect sample_settings post_request 3 5 42 anonymous_world))).
  - reflexivity.
  - reflexivity.
Defined.

(** X4: the confirmed disconnect is not repeatable: once it has answered,
    the same request raises [DoesNotExist] for the profile and changes
    nothing. *)
Theorem disconnect_twice_raises
    settings request network object_type object_id w response w' :
  method request = "POST" ->
  disconnect settings request network object_type object_id w = Ok response w' ->
  disconnect settings request network object_type object_id w'
  = Raise (DoesNotExist "Profile") w'.
Proof.
  intros Hm H.
  apply disconnect_Ok in H as (n & profile & model & obj & Hct & Hf & _ & _ & H).
  rewrite bool_decide_eq_true_2 in H by done. destruct H as [_ ->].
  unfold disconnect.
  assert (Hct' : forall w0, content_types (db w0) = content_types (db w) ->
                 ContentType_get network w0 = Ok (ProfileModel n) w0).
  { intros w0 H0. unfold ContentType_get, bind, get_world in *. rewrite H0.
    destruct (snd <$> head _) as [m|]; simpl in *; [| discriminate].
    by injection Hct as ->. }
  rewrite (bind_step _ _ _ _ _
             (Hct' (set_db (set_profiles (other_rows profile (profiles (db w))) (db w)) w)
                   eq_refl)).
  unfold bind at 1, objects_get. unfold bind at 1, get_world.
  fold (of_target object_type object_id). simpl.
  rewrite objects_filter_other_rows, Hf. unfold other_rows.
  rewrite filter_cons_False by tauto. done.
Qed.

Lemma disconnect_twice_raises_witness :
  disconnect sample_settings post_request 3 5 42
    (world_of (disconnect sample_settings post_request 3 5 42 anonymous_world))
  = Raise (DoesNotExist "Profile")
      (world_of (disconnect sample_settings post_request 3 5 42 anonymous_world)).
Proof.
  apply (disconnect_twice_raises sample_settings post_request 3 5 42 anonymous_world
           (HttpResponseRedirect (VStr "/"))).
  - reflexivity.
  - reflexivity.
Defined.

(** ** [get_object] *)

Lemma read_only_ContentType_get_by_natural_key a m :
  read_only (ContentType_get_by_natural_key a m).
Proof. unfold ContentType_get_by_natural_key. read_only. Qed.

Lemma read_only_int s : read_only (int s).
Proof. unfold int. case_bool_decide; auto with read_only. Qed.

#[global] Hint Resolve read_only_ContentType_get_by_natural_key read_only_int : read_only.

Lemma read_only_get_object info : read_only (get_object info).
Proof. unfold get_object. case_bool_decide; read_only. Qed.
#[global] Hint Resolve read_only_get_object : read_only.




Example get_object_finds_article :
  get_object {[ "a" := "blog"; "m" := "article"; "i" := "42" ]} anonymous_world
  = Ok (Some article_42) anonymous_world
  /\ get_object {[ "a" := "blog"; "i" := "42" ]} anonymous_world = Ok None anonymous_world
  /\ get_object {[ "m" := "article"; "i" := "42" ]} anonymous_world
     = Raise (KeyError "a") anonymous_world
  /\ get_object {[ "a" := "blog"; "m" := "article"; "i" := "4x" ]} anonymous_world
     = Raise ValueError anonymous_world.
Proof. split_and!; reflexivity. Qed.

(** ** The access token of [twitter] *)

(** X6: a field of the Twitter access token is read from the session key
    [oauth_api.twitter.com_access_token] when it holds a dictionary with the
    field; when the key or the field is missing, from
    [oauth_twitter.com_access_token], with the empty string for anything that
    goes wrong there; a first key that holds no dictionary raises
    [TypeError].  The session is only read. *)
Theorem access_token_field_cases field w :
  access_token_field field w
  = match session w !! "oauth_api.twitter.com_access_token" with
    | Some (VDict d) =>
      match d !! field with
      | Some s => Ok s w
      | None => Ok (token_fallback field w) w
      end
    | Some _ => Raise TypeError w
    | None => Ok (token_fallback field w) w
    end.
Proof.
  assert (Hsecond :
            try_except
              (v <- session_get "oauth_twitter.com_access_token" ;; subscript v field)
              (fun _ => true) (ret "") w
            = Ok (token_fallback field w) w).
  { unfold try_except, bind, session_get, token_fallback.
    destruct (session w !! "oauth_twitter.com_access_token") as [v|]; [| done].
    destruct v; try done. simpl. by destruct (d !! field). }
  unfold access_token_field. unfold try_except at 1, bind at 1, session_get at 1.
  destruct (session w !! "oauth_api.twitter.com_access_token") as [v|]; [| done].
  destruct v; try done. simpl. by destruct (d !! field).
Qed.

(** ** Computations that read the database alone *)

Lemma reads_db_only_ret {A} (a : A) : reads_db_only (ret a).
Proof. by intros w1 w2 _. Qed.

Lemma reads_db_only_raise {A} e : reads_db_only (@raise A e).
Proof. by intros w1 w2 _. Qed.

Lemma reads_db_only_lift_option {A} e (o : option A) : reads_db_only (lift_option e o).
Proof. by destruct o. Qed.

Lemma reads_db_only_get_one {A} name (rows : list A) : reads_db_only (get_one name rows).
Proof. by destruct rows as [|x [|y rows]]. Qed.

Lemma reads_db_only_same {A} (m : M A) w : reads_db_only m -> m w = in_world w (m w).
Proof. intros Hm. by apply Hm. Qed.

Lemma reads_db_only_bind {A B} (m : M A) (k : A -> M B) :
  reads_db_only m -> (forall a, reads_db_only (k a)) -> reads_db_only (bind m k).
Proof.
  intros Hm Hk w1 w2 Hd. unfold bind. rewrite (Hm w1 w2 Hd).
  pose proof (reads_db_only_same m w2 Hm) as Hs.
  destruct (m w2) as [a w3|e w3]; simpl in *; [| done].
  injection Hs as ->. by apply Hk.
Qed.

Lemma reads_db_only_ContentType_get_by_natural_key a m :
  reads_db_only (ContentType_get_by_natural_key a m).
Proof.
  intros w1 w2 Hd. unfold ContentType_get_by_natural_key, bind, get_world.
  rewrite Hd. apply reads_db_only_lift_option. done.
Qed.

Lemma reads_db_only_Model_objects_get model pk :
  reads_db_only (Model_objects_get model pk).
Proof.
  intros w1 w2 Hd. unfold Model_objects_get, bind, get_world.
  rewrite Hd. apply reads_db_only_get_one. done.
Qed.

Lemma reads_db_only_int s : reads_db_only (int s).
Proof.
  unfold int. case_bool_decide;
    [apply reads_db_only_raise | apply reads_db_only_lift_option].
Qed.

Lemma reads_db_only_get_object info : reads_db_only (get_object info).
Proof.
  unfold get_object. case_bool_decide; [| apply reads_db_only_ret].
  repeat first
    [ apply reads_db_only_lift_option
    | apply reads_db_only_ContentType_get_by_natural_key
    | apply reads_db_only_int
    | apply reads_db_only_Model_objects_get
    | apply reads_db_only_ret
    | apply reads_db_only_bind; [| intros ?] ].
Qed.

Lemma get_object_in_session info s w :
  get_object info (set_session s w) = in_world (set_session s w) (get_object info w).
Proof. by apply reads_db_only_get_object. Qed.

Lemma get_object_in_place info w : get_object info w = in_world w (get_object info w).
Proof. apply reads_db_only_same, reads_db_only_get_object. Qed.

(** ** The redirects out to the provider *)

Lemma set_session_twice s1 s2 w : set_session s1 (set_session s2 w) = set_session s1 w.
Proof. done. Qed.

Lemma oauth_redirect_run settings request client_redirect w :
  oauth_redirect settings request client_redirect w
  = match get_object (GET request) w with
    | Ok o _ =>
      Ok client_redirect (set_session (redirect_out_session settings request o w) w)
    | Raise e _ => Raise e w
    end.
Proof.
  unfold oauth_redirect. unfold bind at 1. rewrite get_object_in_place.
  destruct (get_object (GET request) w) as [o w1|e w1]; simpl; [| done].
  unfold bind at 1. unfold session_set at 1, modify.
  unfold bind at 1. rewrite _get_next_run.
  unfold bind, session_set, modify, ret. f_equal.
  unfold without_next, redirect_out_session, resolved_next. simpl.
  rewrite lookup_insert_ne by done. rewrite set_session_twice.
  by rewrite insert_delete_eq.
Qed.

Lemma redirect_out_session_object settings request o w :
  redirect_out_session settings request o w !! "socialregistration_connect_object"
  = Some (value_of_object o).
Proof.
  unfold redirect_out_session. rewrite lookup_insert_ne by done. apply lookup_insert_eq.
Qed.

Lemma redirect_out_session_next settings request o w :
  redirect_out_session settings request o w !! "next"
  = Some (resolved_next settings request w).
Proof. apply lookup_insert_eq. Qed.



Lemma read_only_class_and_pk v : read_only (class_and_pk v).
Proof. destruct v; auto with read_only. Qed.

Lemma db_only_twitter_link_object settings user_info obj tok sec :
  db_only (twitter_link_object settings user_info obj tok sec).
Proof.
  pose proof read_only_class_and_pk.
  unfold twitter_link_object. apply db_only_try_except.
  - apply read_only_db_only. read_only.
  - repeat (apply db_only_bind;
              [apply read_only_db_only; solve [auto with read_only] | intros ?]).
    apply db_only_bind; [apply db_only_objects_create | intros ?].
    apply read_only_db_only. auto with read_only.
Qed.

Lemma db_only_openid_link_object settings identity obj :
  db_only (openid_link_object settings identity obj).
Proof.
  pose proof read_only_class_and_pk.
  unfold openid_link_object. apply db_only_try_except.
  - apply read_only_db_only. read_only.
  - repeat (apply db_only_bind;
              [apply read_only_db_only; solve [auto with read_only] | intros ?]).
    apply db_only_bind; [apply db_only_objects_create | intros ?].
    apply read_only_db_only. auto with read_only.
Qed.

(** X8: the round trip through Twitter.  When the redirect-out has found
    the object the query string names, and the callback runs on the session
    it left (whoever is logged in by then, whatever the tables hold by then),
    a callback that answers has a Twitter profile of the returned identity
    bound to that object, redirects to the next URL resolved at the
    redirect-out, not to anything of the callback request, and has used up
    both session keys. *)
Theorem oauth_round_trip_links_named_object
    settings request_out client_redirect request_in user_info template extra_context
    obj w w1 response w2 :
  get_object (GET request_out) w = Ok (Some obj) w ->
  session w1 = session (world_of (oauth_redirect settings request_out client_redirect w)) ->
  twitter settings request_in user_info template extra_context w1 = Ok response w2 ->
  response = HttpResponseRedirect (resolved_next settings request_out w)
  /\ (exists rid p, user_info !! "id" = Some rid
                    /\ p ∈ profiles (db w2) /\ bound_to TwitterProfile rid obj p)
  /\ session w2 !! "socialregistration_connect_object" = None
  /\ session w2 !! "next" = None
  /\ user w2 = user w1.
Proof.
  intros Hobj Hs H. rewrite oauth_redirect_run, Hobj in Hs. simpl in Hs.
  assert (Hc : session w1 !! "socialregistration_connect_object" = Some (VInstance obj))
    by (rewrite Hs; apply (redirect_out_session_object _ _ (Some obj))).
  rewrite (twitter_connect_object _ _ _ _ _ _ _ Hc) in H by done.
  unfold twitter_connect_object_branch in H.
  apply bind_Ok in H as (tok & w3 & H1 & H).
  pose proof (read_only_Ok _ _ _ _ (read_only_access_token_field _) H1) as ->.
  apply bind_Ok in H as (sec & w3 & H2 & H).
  pose proof (read_only_Ok _ _ _ _ (read_only_access_token_field _) H2) as ->.
  apply bind_Ok in H as ([] & w3 & H3 & H).
  pose proof (twitter_link_object_spec settings user_info obj tok sec w1) as (Hs3 & _ & Hp).
  rewrite H3 in Hs3. simpl in Hs3. destruct (Hp _ H3) as (rid & p & Hrid & Hin & Hb).
  assert (Hu3 : user w3 = user w1).
  { pose proof (db_only_Ok _ _ _ _ (db_only_twitter_link_object settings user_info
                                      (VInstance obj) tok sec) H3) as [_ ?]. done. }
  apply bind_Ok in H as ([] & w4 & H4 & H).
  unfold session_del in H4. rewrite Hs3, Hc in H4. injection H4 as <-.
  rewrite bind_step with (a := resolved_next settings request_in
                                 (set_session (delete "socialregistration_connect_object"
                                                      (session w1)) w3))
                         (w1 := without_next
                                  (set_session (delete "socialregistration_connect_object"
                                                       (session w1)) w3)) in H
    by apply _get_next_run.
  injection H as <- <-. split_and!.
  - f_equal. unfold resolved_next at 1. simpl.
    rewrite lookup_delete_ne by done. rewrite Hs.
    by rewrite redirect_out_session_next.
  - by exists rid, p.
  - simpl. rewrite lookup_delete_ne by done. apply lookup_delete_eq.
  - apply without_next_lookup.
  - done.
Qed.

Lemma oauth_round_trip_links_named_object_witness :
  let w1 := set_user (Some bob)
              (world_of (oauth_redirect sample_settings connect_request twitter_authorize
                           anonymous_world)) in
  let w2 := world_of (twitter sample_settings get_request new_user_info
                        "socialregistration/account_inactive.html" ∅ w1) in
  HttpResponseRedirect (VStr "/blog/42/")
  = HttpResponseRedirect (resolved_next sample_settings connect_request anonymous_world)
  /\ (exists rid p, new_user_info !! "id" = Some rid
                    /\ p ∈ profiles (db w2) /\ bound_to TwitterProfile rid article_42 p)
  /\ session w2 !! "socialregistration_connect_object" = None
  /\ session w2 !! "next" = None
  /\ user w2 = user w1.
Proof.
  apply (oauth_round_trip_links_named_object sample_settings connect_request
           twitter_authorize get_request new_user_info
           "socialregistration/account_inactive.html" ∅ article_42 anonymous_world).
  - reflexivity.
  - reflexivity.
  - reflexivity.
Defined.

(** ** [openid_redirect] *)

Lemma session_set_run key v w :
  session_set key v w = Ok tt (set_session (<[key := v]> (session w)) w).
Proof. done. Qed.

Lemma openid_redirect_run settings request login_url client_redirect w :
  openid_redirect settings request login_url client_redirect w
  = match get_object (GET request) w with
    | Raise e _ => Raise e (set_session (openid_out_session settings request w) w)
    | Ok o _ =>
      let s := <["socialregistration_connect_object" := value_of_object o]>
                 (openid_out_session settings request w) in
      match client_redirect with
      | Some response => Ok response (set_session s w)
      | None => Ok (HttpResponseRedirect (VStr login_url))
                   (set_session (<["openid_error" := VBool true]> s) w)
      end
    end.
Proof.
  unfold openid_redirect. unfold bind at 1. rewrite _get_next_run.
  rewrite !bind_session_set. unfold without_next. simpl. rewrite !set_session_twice.
  rewrite insert_delete_eq. fold (openid_out_session settings request w).
  unfold bind at 1. rewrite get_object_in_session.
  destruct (get_object (GET request) w) as [o w1|e w1]; simpl; [| done].
  rewrite bind_session_set. simpl. rewrite set_session_twice.
  destruct client_redirect as [response|]; [done |].
  by rewrite bind_session_set.
Qed.

(** X9: [openid_redirect] stores the next URL and the provider before it
    looks the connect object up, so that, unlike [oauth_redirect], a lookup
    that raises leaves both stored (and the session's own [next] replaced).
    When the lookup answers, the object is stored as well; the answer is the
    client's redirect, or, on a discovery failure, a redirect to [LOGIN_URL]
    with [openid_error] set in the session.  Database and [request.user]
    are never touched. *)
Theorem openid_redirect_stores_before_lookup
    settings request login_url client_redirect w :
  let o := openid_redirect settings request login_url client_redirect w in
  db (world_of o) = db w /\ user (world_of o) = user w
  /\ session (world_of o) !! "next" = Some (resolved_next settings request w)
  /\ session (world_of o) !! "openid_provider" = Some (GET_get request "openid_provider")
  /\ (forall e w', o = Raise e w' ->
        get_object (GET request) w = Raise e w
        /\ session w' = openid_out_session settings request w)
  /\ (forall response w', o = Ok response w' ->
        (exists obj, get_object (GET request) w = Ok obj w
                     /\ session w' !! "socialregistration_connect_object"
                        = Some (value_of_object obj))
        /\ match client_redirect with
           | Some r => response = r
                       /\ session w' !! "openid_error" = session w !! "openid_error"
           | None => response = HttpResponseRedirect (VStr login_url)
                     /\ session w' !! "openid_error" = Some (VBool true)
           end).
Proof.
  intros o. subst o. rewrite openid_redirect_run.
  rewrite (get_object_in_place (GET request) w).
  assert (Hn : forall v, <["socialregistration_connect_object" := v]>
                           (openid_out_session settings request w) !! "next"
                         = Some (resolved_next settings request w)).
  { intros v. unfold openid_out_session. rewrite !lookup_insert_ne by done.
    apply lookup_insert_eq. }
  assert (Hp : forall v, <["socialregistration_connect_object" := v]>
                           (openid_out_session settings request w) !! "openid_provider"
                         = Some (GET_get request "openid_provider")).
  { intros v. unfold openid_out_session. rewrite lookup_insert_ne by done.
    apply lookup_insert_eq. }
  destruct (get_object (GET request) w) as [obj w1|e w1]; simpl.
  - destruct client_redirect as [r|]; simpl; split_and!; try done.
    + intros response w' [= <- <-]. split.
      * exists obj. split; [done |]. apply lookup_insert_eq.
      * split; [done |]. simpl. unfold openid_out_session.
        by rewrite !lookup_insert_ne.
    + by rewrite lookup_insert_ne.
    + by rewrite lookup_insert_ne.
    + intros response w' [= <- <-]. split.
      * exists obj. split; [done |]. simpl. rewrite lookup_insert_ne by done.
        apply lookup_insert_eq.
      * split; [done |]. apply lookup_insert_eq.
  - split_and!; try done.
    + unfold openid_out_session. rewrite lookup_insert_ne by done. apply lookup_insert_eq.
    + apply lookup_insert_eq.
    + by intros e' w' [= <- <-].
Qed.

Lemma openid_redirect_stores_before_lookup_witness :
  let o := openid_redirect sample_settings openid_request "/accounts/login/" None
                           alice_world in
  db (world_of o) = db alice_world /\ user (world_of o) = user alice_world
  /\ session (world_of o) !! "next"
     = Some (resolved_next sample_settings openid_request alice_world)
  /\ session (world_of o) !! "openid_provider"
     = Some (GET_get openid_request "openid_provider")
  /\ (forall e w', o = Raise e w' ->
        get_object (GET openid_request) alice_world = Raise e alice_world
        /\ session w' = openid_out_session sample_settings openid_request alice_world)
  /\ (forall response w', o = Ok response w' ->
        (exists obj, get_object (GET openid_request) alice_world = Ok obj alice_world
                     /\ session w' !! "socialregistration_connect_object"
                        = Some (value_of_object obj))
        /\ response = HttpResponseRedirect (VStr "/accounts/login/")
           /\ session w' !! "openid_error" = Some (VBool true)).
Proof.
  apply (openid_redirect_stores_before_lookup sample_settings openid_request
           "/accounts/login/" None alice_world).
Defined.

(** ** Visitors who did not authorize *)

Lemma referer_or_next_sent_back settings request message w :
  exists response w',
    (modify (add_message message) ;;;
     redirect <- match META request !! "HTTP_REFERER" with
                 | Some r => ret (VStr r)
                 | None => _get_next settings request
                 end ;;
     ret (HttpResponseRedirect redirect)) w = Ok response w'
    /\ sent_back settings request message w response w'.
Proof.
  unfold sent_back. unfold bind at 1, modify.
  destruct (META request !! "HTTP_REFERER") as [r|].
  - eexists _, _. split; [reflexivity |]. by split_and!.
  - unfold bind. rewrite _get_next_run. eexists _, _. split; [reflexivity |].
    by split_and!.
Qed.

Lemma facebook_connect_unauthorized settings request template extra_context w :
  authorized (facebook request) = None ->
  facebook_connect settings request template extra_context w
  = match get_object (GET request) w with
    | Ok _ _ =>
      (modify (add_message
         "You must authorize the Facebook application in order to link your account.") ;;;
       redirect <- match META request !! "HTTP_REFERER" with
                   | Some r => ret (VStr r)
                   | None => _get_next settings request
                   end ;;
       ret (HttpResponseRedirect redirect)) w
    | Raise e _ => Raise e w
    end.
Proof.
  intros Ha. unfold facebook_connect. unfold bind at 1.
  rewrite (get_object_in_place (GET request) w), Ha.
  by destruct (get_object (GET request) w).
Qed.

(** X10: without an authorized Facebook user (no [user] attribute, or an
    empty one) [facebook_connect] links nothing, even when the query string
    names a connect object: the tables and [request.user] are as before, a
    message is queued, and the visitor is sent to the referring page, or to
    the next URL when there is no referrer.  The connect object is looked up
    all the same, before the check: a bad reference raises with nothing
    changed. *)
Theorem facebook_connect_unauthorized_links_nothing
    settings request template extra_context w :
  authorized (facebook request) = None ->
  let o := facebook_connect settings request template extra_context w in
  (forall e w', o = Raise e w' -> w' = w /\ get_object (GET request) w = Raise e w)
  /\ (forall obj, get_object (GET request) w = Ok obj w ->
        exists response w',
          o = Ok response w'
          /\ sent_back settings request not_authorized_message w response w').
Proof.
  intros Ha o. subst o.
  rewrite (facebook_connect_unauthorized _ _ _ _ _ Ha).
  destruct (referer_or_next_sent_back settings request not_authorized_message w)
    as (response & w2 & E & Hs).
  unfold not_authorized_message in E at 1. rewrite E.
  rewrite (get_object_in_place (GET request) w).
  destruct (get_object (GET request) w) as [obj w1|e w1]; simpl; split.
  - discriminate.
  - intros _ _. by exists response, w2.
  - by intros e' w' [= <- <-].
  - discriminate.
Qed.

Lemma facebook_connect_unauthorized_links_nothing_witness :
  let o := facebook_connect sample_settings connect_request
                            "socialregistration/facebook.html" ∅ alice_world in
  (forall e w', o = Raise e w' ->
     w' = alice_world /\ get_object (GET connect_request) alice_world = Raise e alice_world)
  /\ (forall obj, get_object (GET connect_request) alice_world = Ok obj alice_world ->
        exists response w',
          o = Ok response w'
          /\ sent_back sample_settings connect_request not_authorized_message alice_world
                       response w').
Proof.
  apply (facebook_connect_unauthorized_links_nothing sample_settings connect_request
           "socialregistration/facebook.html" ∅ alice_world).
  reflexivity.
Defined.

(** ** Where the connect and login views redirect to *)

Lemma get_next_twice_run {B} settings request (f : Value -> B) w :
  (_get_next settings request ;;;
   next <- _get_next settings request ;;
   ret (f next)) w
  = Ok (f (explicit_next settings request)) (without_next w).
Proof.
  unfold bind. rewrite !_get_next_run.
  by rewrite resolved_next_without_next, without_next_twice.
Qed.

Lemma then_ret_Ok {A B} (m : M A) (b : B) w r w' :
  (m ;;; ret b) w = Ok r w' -> r = b /\ exists a, m w = Ok a w'.
Proof. intros H. apply bind_Ok in H as (a & w1 & E & [= <- <-]). eauto. Qed.

Lemma db_only_facebook_update fb profile : db_only (facebook_update fb profile).
Proof. apply db_only_Profile_save. Qed.

(** The get-or-update-or-create of [facebook_connect], lines 230 to 239 and
    250 to 258. *)
Lemma facebook_link_Ok q (create : M Profile) fb w (linked : option HttpResponse) w' :
  db_only create ->
  try_except
    (profile <- objects_get FacebookProfile q ;;
     facebook_update fb profile ;;; ret None)
    is_DoesNotExist
    (create ;;; ret None) w = Ok linked w' ->
  linked = None /\ session w' = session w /\ user w' = user w.
Proof.
  intros Hc H. split.
  - apply try_except_Ok in H as [H|(e & w1 & _ & _ & H)].
    + apply bind_Ok in H as (p & w1 & _ & H). by apply then_ret_Ok in H as [-> _].
    + by apply then_ret_Ok in H as [-> _].
  - eapply db_only_Ok; [| exact H]. apply db_only_try_except.
    + apply db_only_bind; [apply read_only_db_only, read_only_objects_get | intros p].
      apply db_only_bind; [apply db_only_facebook_update | intros _].
      apply read_only_db_only, read_only_ret.
    + apply db_only_bind; [exact Hc | intros _]. apply read_only_db_only, read_only_ret.
Qed.

(** X12: with an authorized Facebook user, [facebook_connect] that answers
    either renders the error (no connect object, and no uid or nobody logged
    in; nothing is changed), or redirects to the next URL of the request
    itself (GET, then POST), else to the default: the log line has consumed
    the session's [next] before the redirect is computed, so the stored next
    URL is dropped and never followed. *)
Theorem facebook_connect_never_follows_session_next
    settings request template extra_context w fb response w' :
  authorized (facebook request) = Some fb ->
  facebook_connect settings request template extra_context w = Ok response w' ->
  (response = render_to_response template (<["error" := VStr FB_ERROR]> extra_context)
   /\ w' = w
   /\ get_object (GET request) w = Ok None w
   /\ (fb_uid (facebook request) = None \/ user w = None))
  \/ (response = HttpResponseRedirect (explicit_next settings request)
      /\ session w' = delete "next" (session w)
      /\ user w' = user w).
Proof.
  intros Ha H. unfold facebook_connect in H.
  apply bind_Ok in H as (connect_object & w1 & H1 & H).
  pose proof (read_only_Ok _ _ _ _ (read_only_get_object _) H1) as ->.
  rewrite Ha in H. apply bind_Ok in H as (linked & w2 & H2 & H).
  assert (Hl : (linked = None /\ session w2 = session w /\ user w2 = user w)
               \/ (linked = Some (render_to_response template
                                    (<["error" := VStr FB_ERROR]> extra_context))
                   /\ w2 = w /\ connect_object = None
                   /\ (fb_uid (facebook request) = None \/ user w = None))).
  { destruct connect_object as [obj|].
    - left. eapply facebook_link_Ok; [| exact H2]. apply db_only_objects_create.
    - unfold bind at 1, get_world at 1 in H2.
      destruct (fb_uid (facebook request)) as [uid|] eqn:Huid;
        [destruct (user w) as [u|] eqn:Hu |].
      + left. rewrite <- Hu. unfold facebook_link_user in H2.
        eapply facebook_link_Ok; [| exact H2]. apply db_only_objects_create.
      + right. injection H2 as <- <-. split_and!; auto.
      + right. injection H2 as <- <-. split_and!; auto. }
  destruct Hl as [(-> & Hs & Hu)|(-> & -> & -> & Hor)].
  - right. rewrite get_next_logged_then_used in H. injection H as <- <-.
    simpl. by rewrite Hs.
  - left. by injection H as <- <-.
Qed.

Lemma facebook_connect_never_follows_session_next_witness :
  let o := facebook_connect sample_settings alice_facebook_request
                            "socialregistration/facebook.html" ∅ alice_world in
  session alice_world !! "next" = Some (VStr "/dashboard/")
  /\ ((HttpResponseRedirect (VStr "/")
       = render_to_response "socialregistration/facebook.html"
           (<["error" := VStr FB_ERROR]> ∅)
       /\ world_of o = alice_world
       /\ get_object (GET alice_facebook_request) alice_world = Ok None alice_world
       /\ (fb_uid (facebook alice_facebook_request) = None \/ user alice_world = None))
      \/ (HttpResponseRedirect (VStr "/")
          = HttpResponseRedirect (explicit_next sample_settings alice_facebook_request)
          /\ session (world_of o) = delete "next" (session alice_world)
          /\ user (world_of o) = user alice_world)).
Proof.
  split; [reflexivity |].
  apply (facebook_connect_never_follows_session_next sample_settings
           alice_facebook_request "socialregistration/facebook.html" ∅ alice_world
           {[ "access_token" := "token-new" ]}).
  - reflexivity.
  - reflexivity.
Defined.

(** ** [openid_callback] without a connect object *)

Lemma login_session u w w' key :
  login (Some u) w = Ok tt w' ->
  session w !! SESSION_KEY = None -> key <> SESSION_KEY ->
  session w' !! key = session w !! key.
Proof.
  unfold login, bind, get_world, session_set, modify, ret. intros H Hk Hne.
  rewrite Hk in H. injection H as <-. simpl. by rewrite lookup_insert_ne.
Qed.

(** X13: [openid_callback] with an invalid client renders its template with
    an empty context and changes nothing.  With a valid client and no
    connect object in the session, an answer is one of three: the redirect to
    the next URL of the request itself or the default, never to the
    session's [next], which the log lines consume first, for a visitor who is
    or has just been logged in; the redirect to the setup view, with the
    pending registration stored and nothing else changed (the session's
    [next] included); or the inactive-account page, with nothing changed. *)
Theorem openid_callback_answers
    settings request identity template extra_context account_inactive_template w :
  openid_callback settings request false identity template extra_context
                  account_inactive_template w
  = Ok (render_to_response template ∅) w
  /\ (forall response w',
        no_connect_object w ->
        openid_callback settings request true identity template extra_context
                        account_inactive_template w = Ok response w' ->
        (response = HttpResponseRedirect (explicit_next settings request)
         /\ session w' !! "next" = None
         /\ is_Some (user w'))
        \/ (response = HttpResponseRedirect (VStr (socialregistration_setup_url settings))
            /\ user w = None
            /\ w' = set_session
                      (<["socialregistration_profile" :=
                           VProfile (Profile_new settings OpenIDProfile identity "" None "")]>
                         (<["socialregistration_user" := VUser User_new]> (session w))) w)
        \/ (response = render_to_response account_inactive_template extra_context
            /\ user w = None /\ w' = w)).
Proof.
  split; [done |]. intros response w' Hn H. unfold openid_callback in H.
  rewrite (bind_step _ _ _ _ _ (connect_object_in_session_None _ Hn)) in H.
  apply bind_Ok in H as (returned & w1 & H1 & H).
  unfold bind at 1, get_world at 1 in H1. destruct (user w) as [u|] eqn:Hu.
  - left. apply bind_Ok in H1 as (p & w2 & H2 & H1).
    assert (Hs : session w2 = session w /\ user w2 = user w).
    { eapply db_only_Ok; [| exact H2]. apply db_only_try_except;
        [apply read_only_db_only, read_only_objects_get | apply db_only_objects_create]. }
    rewrite get_next_twice_run in H1. injection H1 as <- <-. injection H as <- <-.
    split_and!; [done | apply without_next_lookup |].
    simpl. destruct Hs as [_ ->]. rewrite Hu. eauto.
  - apply bind_Ok in H1 as (found & w2 & H2 & H1).
    pose proof (read_only_Ok _ _ _ _ (read_only_authenticate _ _) H2) as ->.
    destruct found as [u|].
    + destruct (is_active u); simpl in H1.
      * left. apply bind_Ok in H1 as ([] & w2 & H3 & H1).
        apply login_Ok in H3 as (u0 & _ & Hu0 & _).
        apply then_ret_Ok in H1 as [-> [v H1]]. rewrite _get_next_run in H1.
        injection H1 as _ <-. rewrite (bind_step _ _ _ _ _ (_get_next_run _ _ _)) in H.
        injection H as <- <-. rewrite resolved_next_without_next, without_next_twice.
        split_and!; [done | apply without_next_lookup |]. simpl. rewrite Hu0. eauto.
      * right. right. injection H1 as <- <-. by injection H as <- <-.
    + right. left. rewrite !bind_session_set in H1. injection H1 as <- <-.
      by injection H as <- <-.
Qed.

Lemma openid_callback_answers_witness :
  openid_callback sample_settings get_request false "https://example.com/carol"
                  "socialregistration/openid.html" {[ "site" := VStr "blog" ]}
                  "socialregistration/account_inactive.html" alice_world
  = Ok (render_to_response "socialregistration/openid.html" ∅) alice_world
  /\ (forall response w',
        no_connect_object alice_world ->
        openid_callback sample_settings get_request true "https://example.com/carol"
                        "socialregistration/openid.html" {[ "site" := VStr "blog" ]}
                        "socialregistration/account_inactive.html" alice_world
        = Ok response w' ->
        (response = HttpResponseRedirect (explicit_next sample_settings get_request)
         /\ session w' !! "next" = None
         /\ is_Some (user w'))
        \/ (response = HttpResponseRedirect
                         (VStr (socialregistration_setup_url sample_settings))
            /\ user alice_world = None
            /\ w' = set_session
                      (<["socialregistration_profile" :=
                           VProfile (Profile_new sample_settings OpenIDProfile
                                       "https://example.com/carol" "" None "")]>
                         (<["socialregistration_user" := VUser User_new]>
                            (session alice_world))) alice_world)
        \/ (response = render_to_response "socialregistration/account_inactive.html"
                         {[ "site" := VStr "blog" ]}
            /\ user alice_world = None /\ w' = alice_world)).
Proof.
  apply (openid_callback_answers sample_settings get_request "https://example.com/carol"
           "socialregistration/openid.html" {[ "site" := VStr "blog" ]}
           "socialregistration/account_inactive.html" alice_world).
Defined.

(** ** Logging in through a provider *)

Lemma login_run u w :
  login (Some u) w = Ok tt (set_user (Some u) (set_session (session_after_login u w) w)).
Proof.
  unfold login, bind, get_world, session_set, modify, ret, session_after_login.
  destruct (session w !! SESSION_KEY) as [v|]; [case_bool_decide |]; done.
Qed.

Lemma login_then_next {B} settings request u (f : Value -> B) w :
  (login (Some u) ;;;
   next <- _get_next settings request ;;
   ret (f next)) w
  = Ok (f (next_after_login settings request u w)) (logged_in u w).
Proof.
  rewrite (bind_step _ _ _ _ _ (login_run u w)).
  by rewrite (bind_step _ _ _ _ _ (_get_next_run _ _ _)).
Qed.

Lemma store_next_run {B} settings request (k : M B) w :
  (next <- _get_next settings request ;; session_set "next" next ;;; k) w
  = k (set_session (<["next" := resolved_next settings request w]> (session w)) w).
Proof.
  rewrite (bind_step _ _ _ _ _ (_get_next_run _ _ _)), bind_session_set.
  unfold without_next. simpl. by rewrite set_session_twice, insert_delete_eq.
Qed.

(** [facebook_login] with a uid, by the answer of the authentication
    backend. *)
Lemma facebook_login_run settings request template extra_context
    account_inactive_template w uid found :
  fb_uid (facebook request) = Some uid ->
  authenticate FacebookProfile uid w = Ok found w ->
  facebook_login settings request template extra_context account_inactive_template w
  = match found with
    | None =>
      Ok (HttpResponseRedirect (VStr (socialregistration_setup_url settings)))
         (set_session
            (pending_session settings request
               (Profile_new settings FacebookProfile uid "" None "") w) w)
    | Some u =>
      if is_active u
      then Ok (HttpResponseRedirect (next_after_login settings request u w))
              (logged_in u w)
      else Ok (render_to_response account_inactive_template extra_context) w
    end.
Proof.
  intros Huid Ha. unfold facebook_login. rewrite Huid, (bind_step _ _ _ _ _ Ha).
  destruct found as [u|].
  - destruct (is_active u); simpl; [| done]. apply login_then_next.
  - rewrite !bind_session_set, store_next_run. unfold ret, pending_session. simpl.
    rewrite !set_session_twice. unfold resolved_next. simpl.
    by rewrite !lookup_insert_ne.
Qed.

(** [twitter] for an anonymous visitor without a connect object, by the
    answer of the authentication backend. *)
Lemma twitter_anonymous_run settings request user_info account_inactive_template
    extra_context w id tok sec found :
  user w = None ->
  no_connect_object w ->
  access_token_field "oauth_token" w = Ok tok w ->
  access_token_field "oauth_token_secret" w = Ok sec w ->
  user_info !! "id" = Some id ->
  authenticate TwitterProfile id w = Ok found w ->
  twitter settings request user_info account_inactive_template extra_context w
  = match found with
    | None =>
      match user_info !! "screen_name" with
      | Some name =>
        Ok (HttpResponseRedirect (VStr (socialregistration_setup_url settings)))
           (set_session
              (<["next" := resolved_next settings request w]>
                 (<["socialregistration_user" := VUser User_new]>
                    (<["socialregistration_profile" :=
                         VProfile (Profile_new settings TwitterProfile id name (Some tok) sec)]>
                       (session w)))) w)
      | None => Raise (KeyError "screen_name") w
      end
    | Some u =>
      if is_active u
      then Ok (HttpResponseRedirect (next_after_login settings request u w))
              (logged_in u w)
      else Ok (render_to_response account_inactive_template extra_context) w
    end.
Proof.
  intros Hu Hn Ht Hs Hid Ha. unfold twitter.
  rewrite (bind_step _ _ _ _ _ Ht), (bind_step _ _ _ _ _ Hs).
  rewrite (bind_step _ _ _ _ _ (connect_object_in_session_None _ Hn)).
  unfold bind at 1. unfold bind at 1. unfold get_world at 1. rewrite Hu, Hid.
  unfold bind at 1. unfold lift_option at 1, ret at 1.
  unfold bind at 1. rewrite Ha.
  destruct found as [u|].
  - destruct (is_active u); simpl; [| done].
    unfold bind at 1. rewrite login_run. unfold ret at 1.
    unfold bind. by rewrite _get_next_run.
  - destruct (user_info !! "screen_name") as [name|]; simpl; [| done].
    unfold bind at 1. unfold ret at 1.
    rewrite !bind_session_set, store_next_run. unfold ret. simpl.
    rewrite !set_session_twice. unfold resolved_next. simpl.
    by rewrite !lookup_insert_ne.
Qed.

(** X14: an account that is not active is never logged in by a provider
    login.  When the identity offered to [facebook_login], [twitter] or
    [openid_callback] authenticates as an inactive account, the view answers
    with the inactive-account page and changes nothing: no session key is
    set, [request.user] stays anonymous and the next URL stays stored. *)
Theorem inactive_account_is_not_logged_in
    settings request user_info identity template extra_context
    account_inactive_template w u :
  is_active u = false ->
  let page := Ok (render_to_response account_inactive_template extra_context) w in
  (forall uid,
     fb_uid (facebook request) = Some uid ->
     authenticate FacebookProfile uid w = Ok (Some u) w ->
     facebook_login settings request template extra_context account_inactive_template w
     = page)
  /\ (forall id,
        user w = None -> no_connect_object w -> token_keys_are_dicts w ->
        user_info !! "id" = Some id ->
        authenticate TwitterProfile id w = Ok (Some u) w ->
        twitter settings request user_info account_inactive_template extra_context w
        = page)
  /\ (user w = None -> no_connect_object w ->
      authenticate OpenIDProfile identity w = Ok (Some u) w ->
      openid_callback settings request true identity template extra_context
                      account_inactive_template w
      = page).
Proof.
  intros Hact page. subst page. split_and!.
  - intros uid Huid Ha.
    rewrite (facebook_login_run _ _ _ _ _ _ _ _ Huid Ha). by rewrite Hact.
  - intros id Hu Hn Hd Hid Ha.
    destruct (access_token_field_Ok "oauth_token" w Hd) as [tok Ht].
    destruct (access_token_field_Ok "oauth_token_secret" w Hd) as [sec Hs].
    rewrite (twitter_anonymous_run _ _ _ _ _ _ _ _ _ _ Hu Hn Ht Hs Hid Ha).
    by rewrite Hact.
  - intros Hu Hn Ha. unfold openid_callback.
    rewrite (bind_step _ _ _ _ _ (connect_object_in_session_None _ Hn)).
    unfold bind at 1. unfold bind at 1. unfold get_world at 1. rewrite Hu.
    unfold bind at 1. rewrite Ha. by rewrite Hact.
Qed.

Lemma inactive_account_is_not_logged_in_witness :
  facebook_login sample_settings dave_facebook_request "socialregistration/facebook.html"
                 ∅ "socialregistration/account_inactive.html" dormant_world
  = Ok (render_to_response "socialregistration/account_inactive.html" ∅) dormant_world
  /\ twitter sample_settings get_request dave_user_info
             "socialregistration/account_inactive.html" ∅ dormant_world
     = Ok (render_to_response "socialregistration/account_inactive.html" ∅) dormant_world
  /\ openid_callback sample_settings get_request true "https://example.com/dave"
                     "socialregistration/openid.html" ∅
                     "socialregistration/account_inactive.html" dormant_world
     = Ok (render_to_response "socialregistration/account_inactive.html" ∅) dormant_world.
Proof.
  destruct (inactive_account_is_not_logged_in sample_settings dave_facebook_request
              dave_user_info "https://example.com/dave" "socialregistration/facebook.html"
              ∅ "socialregistration/account_inactive.html" dormant_world dave eq_refl)
    as (Hf & _ & _).
  destruct (inactive_account_is_not_logged_in sample_settings get_request
              dave_user_info "https://example.com/dave" "socialregistration/openid.html"
              ∅ "socialregistration/account_inactive.html" dormant_world dave eq_refl)
    as (_ & Ht & Ho).
  split_and!.
  - apply (Hf "fb-4004"); reflexivity.
  - apply (Ht "4004"); try reflexivity.
    + by left.
    + intros v Hv. discriminate.
  - apply Ho; try reflexivity. by left.
Defined.

(** X15: an identity the backend does not know starts a registration.
    [facebook_login] and [twitter] answer with the redirect to the setup
    view and change the session alone: it gets a new unsaved user, the
    unsaved profile of the identity (for Twitter with the screen name and the
    access token read from the session), and the next URL as [_get_next]
    resolves it, so that a next URL of the login request is kept for the end
    of the setup. *)
Theorem unmatched_identity_starts_registration
    settings request user_info template extra_context account_inactive_template w :
  let setup_page :=
    HttpResponseRedirect (VStr (socialregistration_setup_url settings)) in
  (forall uid,
     fb_uid (facebook request) = Some uid ->
     authenticate FacebookProfile uid w = Ok None w ->
     facebook_login settings request template extra_context account_inactive_template w
     = Ok setup_page
          (set_session
             (pending_session settings request
                (Profile_new settings FacebookProfile uid "" None "") w) w))
  /\ (forall id name,
        user w = None -> no_connect_object w -> token_keys_are_dicts w ->
        user_info !! "id" = Some id ->
        user_info !! "screen_name" = Some name ->
        authenticate TwitterProfile id w = Ok None w ->
        exists tok sec,
          access_token_field "oauth_token" w = Ok tok w
          /\ access_token_field "oauth_token_secret" w = Ok sec w
          /\ twitter settings request user_info account_inactive_template extra_context w
             = Ok setup_page
                  (set_session
                     (pending_session settings request
                        (Profile_new settings TwitterProfile id name (Some tok) sec) w) w)).
Proof.
  intros setup_page. subst setup_page. split.
  - intros uid Huid Ha. by rewrite (facebook_login_run _ _ _ _ _ _ _ _ Huid Ha).
  - intros id name Hu Hn Hd Hid Hname Ha.
    destruct (access_token_field_Ok "oauth_token" w Hd) as [tok Ht].
    destruct (access_token_field_Ok "oauth_token_secret" w Hd) as [sec Hs].
    exists tok, sec. split_and!; [done.. |].
    rewrite (twitter_anonymous_run _ _ _ _ _ _ _ _ _ _ Hu Hn Ht Hs Hid Ha), Hname.
    unfold pending_session. do 3 f_equal. by apply insert_insert_ne.
Qed.

Lemma unmatched_identity_starts_registration_witness :
  let setup_page := HttpResponseRedirect (VStr "/social/setup/") in
  facebook_login sample_settings erin_facebook_request "socialregistration/facebook.html"
                 ∅ "socialregistration/account_inactive.html" anonymous_world
  = Ok setup_page
       (set_session
          (pending_session sample_settings erin_facebook_request
             (Profile_new sample_settings FacebookProfile "fb-5005" "" None "")
             anonymous_world) anonymous_world)
  /\ resolved_next sample_settings erin_facebook_request anonymous_world = VStr "/welcome/"
  /\ exists tok sec,
       access_token_field "oauth_token" anonymous_world = Ok tok anonymous_world
       /\ access_token_field "oauth_token_secret" anonymous_world = Ok sec anonymous_world
       /\ twitter sample_settings next_request erin_user_info
                  "socialregistration/account_inactive.html" ∅ anonymous_world
          = Ok setup_page
               (set_session
                  (pending_session sample_settings next_request
                     (Profile_new sample_settings TwitterProfile "5005" "erin_tw"
                                  (Some tok) sec) anonymous_world) anonymous_world).
Proof.
  destruct (unmatched_identity_starts_registration sample_settings erin_facebook_request
              erin_user_info "socialregistration/facebook.html" ∅
              "socialregistration/account_inactive.html" anonymous_world) as (Hf & _).
  destruct (unmatched_identity_starts_registration sample_settings next_request
              erin_user_info "socialregistration/facebook.html" ∅
              "socialregistration/account_inactive.html" anonymous_world) as (_ & Ht).
  split_and!.
  - apply (Hf "fb-5005"); reflexivity.
  - reflexivity.
  - apply (Ht "5005" "erin_tw"); try reflexivity.
    + by left.
    + intros v Hv. discriminate.
Defined.

(** X16: an identity that authenticates as an active account logs that
    account in, in [facebook_login] and in [twitter]: the session key and
    [request.user] are set, the tables are untouched, and the redirect
    follows the next URL stored in the session, which is used up; the
    request's own next URL or the default serve when the session holds none.
    A session that belonged to another account is flushed by the login, and
    its stored next URL with it. *)
Theorem provider_login_follows_stored_next
    settings request user_info template extra_context account_inactive_template w u :
  is_active u = true ->
  let answer := Ok (HttpResponseRedirect (next_after_login settings request u w))
                   (logged_in u w) in
  (forall uid,
     fb_uid (facebook request) = Some uid ->
     authenticate FacebookProfile uid w = Ok (Some u) w ->
     facebook_login settings request template extra_context account_inactive_template w
     = answer)
  /\ (forall id,
        user w = None -> no_connect_object w -> token_keys_are_dicts w ->
        user_info !! "id" = Some id ->
        authenticate TwitterProfile id w = Ok (Some u) w ->
        twitter settings request user_info account_inactive_template extra_context w
        = answer)
  /\ (session w !! SESSION_KEY = None ->
      next_after_login settings request u w = resolved_next settings request w)
  /\ (forall v, session w !! SESSION_KEY = Some v -> v <> user_id u ->
        next_after_login settings request u w = explicit_next settings request)
  /\ user (logged_in u w) = Some u
  /\ db (logged_in u w) = db w
  /\ session (logged_in u w) !! SESSION_KEY = Some (user_id u)
  /\ session (logged_in u w) !! "next" = None.
Proof.
  intros Hact answer. subst answer. split_and!; try done.
  - intros uid Huid Ha.
    rewrite (facebook_login_run _ _ _ _ _ _ _ _ Huid Ha). by rewrite Hact.
  - intros id Hu Hn Hd Hid Ha.
    destruct (access_token_field_Ok "oauth_token" w Hd) as [tok Ht].
    destruct (access_token_field_Ok "oauth_token_secret" w Hd) as [sec Hs].
    rewrite (twitter_anonymous_run _ _ _ _ _ _ _ _ _ _ Hu Hn Ht Hs Hid Ha).
    by rewrite Hact.
  - intros Hk. unfold next_after_login, session_after_login, resolved_next.
    rewrite Hk. by rewrite lookup_insert_ne.
  - intros v Hk Hne. unfold next_after_login, session_after_login.
    rewrite Hk, bool_decide_eq_false_2 by done.
    by rewrite lookup_insert_ne, lookup_empty.
  - simpl. rewrite lookup_delete_ne by done. apply lookup_insert_eq.
  - apply lookup_delete_eq.
Qed.

Lemma provider_login_follows_stored_next_witness :
  facebook_login sample_settings alice_facebook_request "socialregistration/facebook.html"
                 ∅ "socialregistration/account_inactive.html" dormant_world
  = Ok (HttpResponseRedirect (VStr "/inbox/")) (logged_in alice dormant_world)
  /\ twitter sample_settings get_request alice_user_info
             "socialregistration/account_inactive.html" ∅ dormant_world
     = Ok (HttpResponseRedirect (VStr "/inbox/")) (logged_in alice dormant_world)
  /\ user (logged_in alice dormant_world) = Some alice.
Proof.
  destruct (provider_login_follows_stored_next sample_settings alice_facebook_request
              alice_user_info "socialregistration/facebook.html" ∅
              "socialregistration/account_inactive.html" dormant_world alice eq_refl)
    as (Hf & _ & _ & _ & Hu & _).
  destruct (provider_login_follows_stored_next sample_settings get_request
              alice_user_info "socialregistration/facebook.html" ∅
              "socialregistration/account_inactive.html" dormant_world alice eq_refl)
    as (_ & Ht & _).
  split_and!.
  - apply (Hf "fb-1001"); reflexivity.
  - apply (Ht "1001"); try reflexivity.
    + by left.
    + intros v Hv. discriminate.
  - exact Hu.
Defined.

(** ** The redirect at the end of the setup *)

Lemma _authenticate_login_redirect_target settings request w p u :
  session w !! "socialregistration_profile" = Some (VProfile p) ->
  authenticate (p_class p) (remote_id p) w = Ok (Some u) w ->
  _authenticate_login_redirect settings request w
  = Ok (HttpResponseRedirect (next_after_login settings request u w))
       (set_user (Some u)
          (set_session
             (delete "next"
                (delete "socialregistration_profile"
                   (delete "socialregistration_user" (session_after_login u w)))) w)).
Proof.
  intros Hs Ha. unfold _authenticate_login_redirect.
  unfold bind at 1, session_get. rewrite Hs.
  unfold bind at 1. simpl. unfold ret at 1.
  unfold Profile_authenticate. rewrite (bind_step _ _ _ _ _ Ha).
  rewrite (bind_step _ _ _ _ _ (login_run u w)). rewrite !session_clear.
  rewrite (bind_step _ _ _ _ _ (_get_next_run _ _ _)).
  unfold ret, without_next, resolved_next, next_after_login. simpl.
  by rewrite !lookup_delete_ne.
Qed.

Lemma read_only_as_profile v : read_only (as_profile v).
Proof. destruct v; auto with read_only. Qed.

Lemma read_only_as_user v : read_only (as_user v).
Proof. destruct v; auto with read_only. Qed.

Lemma _authenticate_login_redirect_inv settings request w response w' :
  _authenticate_login_redirect settings request w = Ok response w' ->
  exists p u,
    session w !! "socialregistration_profile" = Some (VProfile p)
    /\ authenticate (p_class p) (remote_id p) w = Ok (Some u) w
    /\ response = HttpResponseRedirect (next_after_login settings request u w)
    /\ w' = set_user (Some u)
               (set_session
                  (delete "next"
                     (delete "socialregistration_profile"
                        (delete "socialregistration_user" (session_after_login u w)))) w).
Proof.
  intros H. pose proof H as H0. unfold _authenticate_login_redirect in H.
  apply bind_Ok in H as (v & w1 & H1 & H).
  unfold session_get in H1.
  destruct (session w !! "socialregistration_profile") as [v'|] eqn:Hs; [| discriminate].
  injection H1 as -> <-.
  apply bind_Ok in H as (p & w1 & H1 & H).
  destruct v; try discriminate. injection H1 as -> <-.
  apply bind_Ok in H as (found & w1 & H1 & H). unfold Profile_authenticate in H1.
  pose proof (read_only_Ok _ _ _ _ (read_only_authenticate _ _) H1) as ->.
  apply bind_Ok in H as ([] & w2 & H2 & _).
  apply login_Ok in H2 as (u & -> & _ & _).
  rewrite (_authenticate_login_redirect_target _ _ _ _ _ Hs H1) in H0.
  injection H0 as <- <-. by exists p, u.
Qed.

(** X17: [_authenticate_login_redirect] reads the pending profile from the
    session and raises [KeyError] without one.  A profile that authenticates
    nobody makes it raise as well, with nothing changed and nobody logged in.
    Otherwise the account the profile authenticates as is logged in, active
    or not (the path has no [is_active] check), both pending-registration
    keys and the stored next URL leave the session, and the redirect follows
    the stored next URL as after any login. *)
Theorem login_redirect_outcomes settings request w :
  match session w !! "socialregistration_profile" with
  | None =>
    _authenticate_login_redirect settings request w
    = Raise (KeyError "socialregistration_profile") w
  | Some (VProfile p) =>
    forall found, authenticate (p_class p) (remote_id p) w = Ok found w ->
      match found with
      | None => exists e, _authenticate_login_redirect settings request w = Raise e w
      | Some u =>
        exists w',
          _authenticate_login_redirect settings request w
          = Ok (HttpResponseRedirect (next_after_login settings request u w)) w'
          /\ user w' = Some u
          /\ db w' = db w
          /\ session w' !! SESSION_KEY = Some (user_id u)
          /\ session w' !! "next" = None
          /\ pending_registration_cleared w'
      end
  | Some _ =>
    _authenticate_login_redirect settings request w
    = Raise (AttributeError "remote_id") w
  end.
Proof.
  destruct (session w !! "socialregistration_profile") as [v|] eqn:Hs.
  - destruct v;
      try (unfold _authenticate_login_redirect, bind, session_get; by rewrite Hs).
    intros found Ha. destruct found as [u|].
    + eexists. split; [exact (_authenticate_login_redirect_target _ _ _ _ _ Hs Ha) |].
      split_and!; try done; simpl.
      * rewrite !lookup_delete_ne by done. apply lookup_insert_eq.
      * apply lookup_delete_eq.
      * split; simpl.
        -- rewrite !lookup_delete_ne by done. apply lookup_delete_eq.
        -- rewrite lookup_delete_ne by done. apply lookup_delete_eq.
    + unfold _authenticate_login_redirect. unfold bind at 1, session_get. rewrite Hs.
      unfold bind at 1. simpl. unfold ret at 1.
      unfold Profile_authenticate. rewrite (bind_step _ _ _ _ _ Ha).
      unfold login, get_world, bind. destruct (user w); eauto.
  - unfold _authenticate_login_redirect, bind, session_get. by rewrite Hs.
Qed.

Lemma login_redirect_outcomes_witness :
  exists w',
    _authenticate_login_redirect sample_settings get_request sibling_world
    = Ok (HttpResponseRedirect
            (next_after_login sample_settings get_request alice sibling_world)) w'
    /\ user w' = Some alice
    /\ db w' = db sibling_world
    /\ session w' !! SESSION_KEY = Some (user_id alice)
    /\ session w' !! "next" = None
    /\ pending_registration_cleared w'.
Proof.
  apply (login_redirect_outcomes sample_settings get_request sibling_world (Some alice)).
  reflexivity.
Defined.

(** ** From the provider login to the end of the setup *)

Lemma db_only_User_save u : db_only (User_save u).
Proof.
  intros w. unfold User_save, bind, get_world, modify, ret.
  destruct (username_taken u (db w)); [by exists (db w); rewrite set_db_same |].
  destruct (u_pk u); [case_bool_decide |]; simpl; eauto.
Qed.

Lemma same_but_pending_insert s1 s2 key v :
  same_but_pending s1 s2 ->
  key = "socialregistration_user" \/ key = "socialregistration_profile" ->
  same_but_pending (<[key := v]> s1) s2.
Proof.
  intros H Hk k H1 H2. rewrite lookup_insert_ne; [by apply H |].
  destruct Hk; congruence.
Qed.

Lemma setup_generate_inv settings request uuid4 su sp w response w' :
  setup_generate settings request uuid4 su sp w = Ok response w' ->
  exists w3, _authenticate_login_redirect settings request w3 = Ok response w'
             /\ same_but_pending (session w3) (session w).
Proof.
  unfold setup_generate. intros H.
  apply bind_Ok in H as (u & w1 & H1 & H).
  pose proof (read_only_Ok _ _ _ _ (read_only_as_user _) H1) as ->.
  apply bind_Ok in H as (u1 & w1 & H2 & H).
  apply (db_only_Ok _ _ _ _ (db_only_User_save _)) in H2 as [Hs1 _].
  rewrite bind_session_set in H.
  apply bind_Ok in H as (u2 & w2 & H3 & H).
  apply (db_only_Ok _ _ _ _ (db_only_User_save _)) in H3 as [Hs2 _]. simpl in Hs2.
  rewrite bind_session_set in H.
  apply bind_Ok in H as (p & w3 & H4 & H).
  pose proof (read_only_Ok _ _ _ _ (read_only_as_profile _) H4) as ->.
  apply bind_Ok in H as (p1 & w3 & H5 & H).
  apply (db_only_Ok _ _ _ _ (db_only_Profile_save _)) in H5 as [Hs3 _]. simpl in Hs3.
  rewrite bind_session_set in H.
  eexists. split; [exact H |]. simpl. rewrite Hs3, Hs2, Hs1.
  repeat (apply same_but_pending_insert; [| by auto]). by intros key _ _.
Qed.

Lemma setup_link_existing_inv settings request sp existing w response w' :
  setup_link_existing settings request sp existing w = Ok response w' ->
  exists w3, _authenticate_login_redirect settings request w3 = Ok response w'
             /\ same_but_pending (session w3) (session w).
Proof.
  unfold setup_link_existing. intros H.
  unfold bind at 1, get_world at 1 in H.
  apply bind_Ok in H as (p1 & w3 & H5 & H).
  apply (db_only_Ok _ _ _ _ (db_only_Profile_save _)) in H5 as [Hs3 _].
  rewrite bind_session_set in H.
  eexists. split; [exact H |]. simpl. rewrite Hs3.
  apply same_but_pending_insert; [| by auto]. by intros key _ _.
Qed.

(** X18: the round trip from the Facebook login to the end of the setup,
    for a visitor whose session belongs to no account and with generated
    usernames.  When the login did not know the identity and the setup view
    then answers on the session the login left, whatever the request of the
    setup is, the answer is the redirect to the next URL resolved at the
    login; the visitor is logged in, and the pending registration and the
    next URL have left the session. *)
Theorem registration_round_trip_keeps_next
    settings request_login request_setup uuid4 template_login template form_class
    extra_context claim_form_class account_inactive_template w uid response w2 :
  fb_uid (facebook request_login) = Some uid ->
  authenticate FacebookProfile uid w = Ok None w ->
  session w !! SESSION_KEY = None ->
  GENERATE_USERNAME settings = true ->
  setup settings request_setup uuid4 template form_class extra_context claim_form_class
        (world_of (facebook_login settings request_login template_login extra_context
                     account_inactive_template w))
  = Ok response w2 ->
  response = HttpResponseRedirect (resolved_next settings request_login w)
  /\ is_Some (user w2)
  /\ pending_registration_cleared w2
  /\ session w2 !! "next" = None.
Proof.
  intros Huid Ha Hk Hg H.
  rewrite (facebook_login_run _ _ _ _ _ _ _ _ Huid Ha) in H. simpl in H.
  set (sp := Profile_new settings FacebookProfile uid "" None "") in *.
  set (w1 := set_session (pending_session settings request_login sp w) w) in *.
  assert (Hnext : session w1 !! "next" = Some (resolved_next settings request_login w))
    by apply lookup_insert_eq.
  assert (Hkey : session w1 !! SESSION_KEY = None).
  { simpl. unfold pending_session. by rewrite !lookup_insert_ne. }
  rewrite (setup_pending _ _ _ _ _ _ _ w1 (VUser User_new) sp) in H.
  2: { simpl. unfold pending_session. rewrite !lookup_insert_ne by done.
       apply lookup_insert_eq. }
  2: { simpl. unfold pending_session. rewrite lookup_insert_ne by done.
       apply lookup_insert_eq. }
  assert (Hinv : exists w3, _authenticate_login_redirect settings request_setup w3
                            = Ok response w2
                            /\ same_but_pending (session w3) (session w1)).
  { destruct (objects_filter _ _ _) as [|existing rest].
    - rewrite Hg in H. simpl in H. by apply setup_generate_inv in H.
    - by apply setup_link_existing_inv in H. }
  destruct Hinv as (w3 & H3 & Hsame).
  apply _authenticate_login_redirect_inv in H3 as (p & u & _ & _ & -> & ->).
  assert (Hk3 : session w3 !! SESSION_KEY = None) by (by rewrite Hsame).
  assert (Hn3 : session w3 !! "next" = Some (resolved_next settings request_login w))
    by (by rewrite Hsame).
  split_and!.
  - f_equal. unfold next_after_login, session_after_login. rewrite Hk3.
    rewrite lookup_insert_ne by done. by rewrite Hn3.
  - simpl. eauto.
  - split; simpl.
    + rewrite !lookup_delete_ne by done. apply lookup_delete_eq.
    + rewrite lookup_delete_ne by done. apply lookup_delete_eq.
  - apply lookup_delete_eq.
Qed.

Lemma registration_round_trip_keeps_next_witness :
  let w1 := world_of (facebook_login generate_settings erin_facebook_request
                        "socialregistration/facebook.html" ∅
                        "socialregistration/account_inactive.html" anonymous_world) in
  let w2 := world_of (setup generate_settings post_request sample_uuid4
                        "socialregistration/setup.html" UserForm ∅ ClaimForm w1) in
  HttpResponseRedirect (VStr "/welcome/")
  = HttpResponseRedirect (resolved_next generate_settings erin_facebook_request
                            anonymous_world)
  /\ is_Some (user w2)
  /\ pending_registration_cleared w2
  /\ session w2 !! "next" = None.
Proof.
  apply (registration_round_trip_keeps_next generate_settings erin_facebook_request
           post_request sample_uuid4 "socialregistration/facebook.html"
           "socialregistration/setup.html" UserForm ∅ ClaimForm
           "socialregistration/account_inactive.html" anonymous_world "fb-5005").
  - reflexivity.
  - reflexivity.
  - reflexivity.
  - reflexivity.
  - vm_compute. reflexivity.
Defined.

(** ** The claim of an existing account *)

(** X19: in the manual flow, when the username form raises [ExistingUser]
    on a POST, [setup] builds the claim form from the pending user and profile
    of the session, bound to the POST data only when they carry [submitted].
    While that form is not valid, the view renders its template with the
    claim form and [claim_account] set, and does no more than the two forms
    did. *)
Theorem setup_existing_username_opens_claim
    settings request uuid4 template form_class extra_context claim_form_class
    w su sp w1 su1 sp1 w2 :
  session w !! "socialregistration_user" = Some su ->
  session w !! "socialregistration_profile" = Some (VProfile sp) ->
  objects_filter (p_class sp) (with_remote_id (remote_id sp)) (db w) = [] ->
  GENERATE_USERNAME settings = false ->
  method request = "POST" ->
  is_valid form_class (mkForm su (VProfile sp) (Some (POST request))) w
  = Raise ExistingUser w1 ->
  session w1 !! "socialregistration_user" = Some su1 ->
  session w1 !! "socialregistration_profile" = Some sp1 ->
  let claim := mkForm su1 sp1 (if bool_decide (is_Some (POST request !! "submitted"))
                               then Some (POST request) else None) in
  is_valid claim_form_class claim w1 = Ok false w2 ->
  setup settings request uuid4 template form_class extra_context claim_form_class w
  = Ok (render_to_response template
          (<["form" := form_value claim_form_class claim]>
             (<["claim_account" := VBool true]> extra_context))) w2.
Proof.
  intros Hsu Hsp Hnone Hg Hm Hv Hsu1 Hsp1 claim Hc.
  rewrite (setup_pending _ _ _ _ _ _ _ _ _ _ Hsu Hsp), Hnone, Hg. simpl.
  rewrite bool_decide_eq_true_2 by done. simpl.
  unfold bind at 1, try_except. unfold bind at 1, setup_try_form. unfold bind at 1.
  rewrite Hv. simpl.
  unfold setup_claim. unfold bind at 1, session_get at 1. rewrite Hsu1.
  unfold bind at 1, session_get at 1. rewrite Hsp1.
  unfold bind at 1. fold claim. by rewrite Hc.
Qed.

Lemma setup_existing_username_opens_claim_witness :
  setup sample_settings taken_request sample_uuid4 "socialregistration/setup.html"
        UserForm ∅ ClaimForm erin_pending_world
  = Ok (render_to_response "socialregistration/setup.html"
          (<["form" := VForm true false]> (<["claim_account" := VBool true]> ∅)))
       erin_pending_world.
Proof.
  apply (setup_existing_username_opens_claim sample_settings taken_request sample_uuid4
           "socialregistration/setup.html" UserForm ∅ ClaimForm erin_pending_world
           (VUser User_new)
           (Profile_new sample_settings FacebookProfile "fb-5005" "" None "")
           erin_pending_world (VUser User_new)
           (VProfile (Profile_new sample_settings FacebookProfile "fb-5005" "" None ""))
           erin_pending_world); reflexivity.
Defined.

(** ** [logout] *)

(** X20: [logout] always answers.  It redirects to its [redirect_url]
    argument when that is given and not empty, else to [LOGOUT_REDIRECT_URL],
    else to the root; the tables are untouched, the request is anonymous and
    the session is empty.  So a pending registration, a stored connect
    object and a stored next URL are all abandoned: a [setup] that follows
    renders its error page, and [_get_next] falls back on the request or the
    default. *)
Theorem logout_abandons_the_session logout_redirect_url redirect_url w :
  exists url w',
    logout logout_redirect_url redirect_url w = Ok (HttpResponseRedirect (VStr url)) w'
    /\ (forall u, redirect_url = Some u -> u <> "" -> url = u)
    /\ (redirect_url = None \/ redirect_url = Some "" ->
        url = default "/" logout_redirect_url)
    /\ db w' = db w /\ user w' = None /\ session w' = ∅
    /\ no_connect_object w'
    /\ (forall settings request,
          _get_next settings request w' = Ok (explicit_next settings request) w')
    /\ (forall settings request uuid4 template form_class extra_context claim_form_class,
          setup settings request uuid4 template form_class extra_context claim_form_class w'
          = Ok (render_to_response template {[ "error" := VBool true ]}) w').
Proof.
  eexists _, _. split; [reflexivity |]. split_and!; try done.
  - intros u -> Hu. by rewrite bool_decide_eq_false_2.
  - by intros [-> | ->].
  - by left.
  - intros settings request. rewrite _get_next_run.
    unfold resolved_next, without_next. simpl. by rewrite lookup_empty, delete_empty.
Qed.

(** ** [facebook_connect] with a connect object *)

Lemma facebook_connect_object settings request template extra_context w fb obj :
  authorized (facebook request) = Some fb ->
  get_object (GET request) w = Ok (Some obj) w ->
  facebook_connect settings request template extra_context w
  = facebook_connect_object_branch settings request fb obj w.
Proof.
  intros Ha Ho. unfold facebook_connect. rewrite (bind_step _ _ _ _ _ Ho). by rewrite Ha.
Qed.

Lemma ignores_user_facebook_connect_object_branch settings request fb obj :
  ignores_user (facebook_connect_object_branch settings request fb obj).
Proof.
  unfold facebook_connect_object_branch, facebook_link_object, facebook_update.
  apply ignores_user_bind; [ignores_user | intros [r|]]; ignores_user.
Qed.

Lemma facebook_link_object_spec settings request fb uid obj w :
  fb_uid (facebook request) = Some uid ->
  let o := facebook_link_object settings request fb obj w in
  session (world_of o) = session w
  /\ (forall p, p ∈ profiles (db (world_of o)) ->
        p ∈ profiles (db w) \/ bound_to FacebookProfile uid obj p)
  /\ (forall linked w', o = Ok linked w' ->
        linked = None
        /\ exists p, p ∈ profiles (db w') /\ bound_to FacebookProfile uid obj p
                     /\ consumer_key p = fb !! "access_token").
Proof.
  intros Huid. unfold facebook_link_object, try_except, objects_get, get_world, bind.
  rewrite Huid. simpl.
  remember (objects_filter FacebookProfile
              (mkQuery (Some (Some uid)) (Some (Some (i_class obj))) None
                       (Some (Some (i_pk obj))) None) (db w)) as rows eqn:Hrows.
  destruct rows as [|p [|q l]]; simpl.
  - split; [done |]. split.
    + intros p [Hp|Hp]%elem_of_app; [by left | right].
      apply list_elem_of_singleton in Hp as ->. by repeat split.
    + intros linked w' [= <- <-]. split; [done |]. eexists. split.
      * simpl. apply elem_of_app. right. apply list_elem_of_here.
      * by repeat split.
  - assert (Hin : p ∈ profiles (db w) /\ bound_to FacebookProfile uid obj p).
    { apply objects_filter_bound_to. rewrite <- Hrows. apply list_elem_of_here. }
    destruct Hin as [Hin (Hc & Hr & Hct & Hoid)].
    unfold facebook_update, Profile_save, bind, get_world, modify, ret. simpl.
    destruct (p_pk p) as [k|] eqn:Hk; [case_bool_decide as He |]; simpl.
    + split; [done |]. split.
      * intros r (r0 & -> & Hr0)%list_elem_of_fmap.
        destruct (same_row (p_class p) k r0); [right | by left]. by repeat split.
      * intros linked w' [= <- <-]. split; [done |]. eexists. split.
        -- simpl. apply list_elem_of_fmap. exists p. split; [| done].
           assert (same_row (p_class p) k p = true) as ->; [| reflexivity].
           by apply Is_true_true, same_row_iff.
        -- by repeat split.
    + split; [done |]. split.
      * intros r [Hp|Hp]%elem_of_app; [by left | right].
        apply list_elem_of_singleton in Hp as ->. by repeat split.
      * intros linked w' [= <- <-]. split; [done |]. eexists. split.
        -- simpl. apply elem_of_app. right. apply list_elem_of_here.
        -- by repeat split.
    + split; [done |]. split.
      * intros r [Hp|Hp]%elem_of_app; [by left | right].
        apply list_elem_of_singleton in Hp as ->. by repeat split.
      * intros linked w' [= <- <-]. split; [done |]. eexists. split.
        -- simpl. apply elem_of_app. right. apply list_elem_of_here.
        -- by repeat split.
  - split; [done |]. split; [intros ? ?; by left | intros ? ? ?; discriminate].
Qed.

(** X21: when the query string of [facebook_connect] names an object and
    the Facebook user is authorized, the profile is linked to that object and
    [request.user] is not consulted: the outcome is the same for any user but
    for that user.  Every row the table holds afterwards was there before or
    is a Facebook profile of the uid bound to the object; and when the view
    answers, it redirects to the next URL of the request itself or the
    default, and a profile of the uid bound to the object carries the access
    token of the request, whether it was found and refreshed or created. *)
Theorem facebook_connect_links_named_object
    settings request template extra_context w fb uid obj :
  authorized (facebook request) = Some fb ->
  fb_uid (facebook request) = Some uid ->
  get_object (GET request) w = Ok (Some obj) w ->
  let o := facebook_connect settings request template extra_context w in
  (forall u, facebook_connect settings request template extra_context (set_user u w)
             = with_user u o)
  /\ (forall p, p ∈ profiles (db (world_of o)) ->
        p ∈ profiles (db w) \/ bound_to FacebookProfile uid obj p)
  /\ (forall response w', o = Ok response w' ->
        response = HttpResponseRedirect (explicit_next settings request)
        /\ exists p, p ∈ profiles (db w') /\ bound_to FacebookProfile uid obj p
                     /\ consumer_key p = fb !! "access_token").
Proof.
  intros Ha Huid Ho o. subst o.
  rewrite (facebook_connect_object _ _ _ _ _ _ _ Ha Ho).
  destruct (facebook_link_object_spec settings request fb uid obj w Huid)
    as (Hs & Hrows & Hok).
  split_and!.
  - intros u. rewrite <- ignores_user_facebook_connect_object_branch.
    apply facebook_connect_object; [done |].
    rewrite (reads_db_only_get_object (GET request) (set_user u w) w eq_refl).
    by rewrite Ho.
  - intros p Hp. apply Hrows. revert Hp. unfold facebook_connect_object_branch.
    rewrite bind_db; [done |]. intros [r|]; [apply keeps_db_ret | apply keeps_db_redirect].
  - intros response w' H. unfold facebook_connect_object_branch in H.
    apply bind_Ok in H as (linked & w1 & H1 & H).
    destruct (Hok _ _ H1) as (-> & p & Hin & Hb & Hkey).
    rewrite get_next_logged_then_used in H. injection H as <- <-.
    split; [done |]. by exists p.
Qed.

Lemma facebook_connect_links_named_object_witness :
  let o := facebook_connect sample_settings facebook_article_request
                            "socialregistration/facebook.html" ∅ alice_world in
  (forall u, facebook_connect sample_settings facebook_article_request
                              "socialregistration/facebook.html" ∅ (set_user u alice_world)
             = with_user u o)
  /\ (forall p, p ∈ profiles (db (world_of o)) ->
        p ∈ profiles (db alice_world) \/ bound_to FacebookProfile "fb-7007" article_42 p)
  /\ (forall response w', o = Ok response w' ->
        response = HttpResponseRedirect (explicit_next sample_settings facebook_article_request)
        /\ exists p, p ∈ profiles (db w') /\ bound_to FacebookProfile "fb-7007" article_42 p
                     /\ consumer_key p
                        = ({[ "access_token" := "token-art" ]} : gmap string string)
                            !! "access_token").
Proof.
  apply (facebook_connect_links_named_object sample_settings facebook_article_request
           "socialregistration/facebook.html" ∅ alice_world
           {[ "access_token" := "token-art" ]} "fb-7007" article_42); reflexivity.
Defined.

Example facebook_connect_article :
  let o := facebook_connect sample_settings facebook_article_request
                            "socialregistration/facebook.html" ∅ alice_world in
  response_of o = Some (HttpResponseRedirect (VStr "/"))
  /\ profiles (db (world_of o))
     = [alice_facebook; alice_twitter; article_twitter;
        mkProfile (Some 2) FacebookProfile "fb-7007" "" (Some "token-art") ""
                  (Some Article) (Some 42) 1 None].
Proof. split; reflexivity. Qed.

(** ** The round trip through the OpenID provider *)

(** X22: the round trip through the OpenID provider.  When
    [openid_redirect] has found the object its query string names, and the
    callback runs with a valid client on the session the redirect left
    (whoever is logged in by then, and even when the redirect ended in a
    discovery failure), a callback that answers has an OpenID profile of the
    identity bound to that object, redirects to the next URL resolved at the
    redirect-out, and has used up the connect object and the next URL, while
    the provider stays in the session. *)
Theorem openid_round_trip_links_named_object
    settings request_out login_url client_redirect request_in identity template
    extra_context account_inactive_template obj w w1 response w2 :
  get_object (GET request_out) w = Ok (Some obj) w ->
  session w1
  = session (world_of (openid_redirect settings request_out login_url client_redirect w)) ->
  openid_callback settings request_in true identity template extra_context
                  account_inactive_template w1 = Ok response w2 ->
  response = HttpResponseRedirect (resolved_next settings request_out w)
  /\ (exists p, p ∈ profiles (db w2) /\ bound_to OpenIDProfile identity obj p)
  /\ session w2 !! "socialregistration_connect_object" = None
  /\ session w2 !! "next" = None
  /\ session w2 !! "openid_provider" = Some (GET_get request_out "openid_provider")
  /\ user w2 = user w1.
Proof.
  intros Hobj Hs H. rewrite openid_redirect_run, Hobj in Hs.
  assert (Hc : session w1 !! "socialregistration_connect_object" = Some (VInstance obj)).
  { rewrite Hs. destruct client_redirect; simpl;
      [| rewrite lookup_insert_ne by done]; apply lookup_insert_eq. }
  assert (Hn : session w1 !! "next" = Some (resolved_next settings request_out w)).
  { rewrite Hs. unfold openid_out_session.
    destruct client_redirect; simpl; rewrite !lookup_insert_ne by done;
      apply lookup_insert_eq. }
  assert (Hp : session w1 !! "openid_provider"
               = Some (GET_get request_out "openid_provider")).
  { rewrite Hs. unfold openid_out_session.
    destruct client_redirect; simpl; rewrite !lookup_insert_ne by done;
      apply lookup_insert_eq. }
  clear Hs.
  rewrite (openid_connect_object _ _ _ _ _ _ _ _ Hc) in H by done.
  unfold openid_connect_object_branch in H.
  apply bind_Ok in H as ([] & w3 & H3 & H).
  pose proof (openid_link_object_spec settings identity obj w1) as (Hs3 & _ & Hin).
  rewrite H3 in Hs3. simpl in Hs3. destruct (Hin _ H3) as (rid & p & [= <-] & Hp3 & Hb).
  assert (Hu3 : user w3 = user w1).
  { by pose proof (db_only_Ok _ _ _ _ (db_only_openid_link_object settings identity
                                         (VInstance obj)) H3) as [_ ?]. }
  apply bind_Ok in H as ([] & w4 & H4 & H).
  unfold session_del in H4. rewrite Hs3, Hc in H4. injection H4 as <-.
  rewrite (bind_step _ _ _ _ _ (_get_next_run _ _ _)) in H. injection H as <- <-.
  split_and!.
  - f_equal. unfold resolved_next at 1. simpl.
    rewrite lookup_delete_ne by done. by rewrite Hn.
  - by exists p.
  - simpl. rewrite lookup_delete_ne by done. apply lookup_delete_eq.
  - apply without_next_lookup.
  - simpl. by rewrite !lookup_delete_ne.
  - done.
Qed.

Lemma openid_round_trip_links_named_object_witness :
  let w1 := set_user (Some bob)
              (world_of (openid_redirect sample_settings connect_request
                           "/accounts/login/" None anonymous_world)) in
  let w2 := world_of (openid_callback sample_settings get_request true
                        "https://example.com/press" "socialregistration/openid.html" ∅
                        "socialregistration/account_inactive.html" w1) in
  HttpResponseRedirect (VStr "/blog/42/")
  = HttpResponseRedirect (resolved_next sample_settings connect_request anonymous_world)
  /\ (exists p, p ∈ profiles (db w2)
                /\ bound_to OpenIDProfile "https://example.com/press" article_42 p)
  /\ session w2 !! "socialregistration_connect_object" = None
  /\ session w2 !! "next" = None
  /\ session w2 !! "openid_provider" = Some (GET_get connect_request "openid_provider")
  /\ user w2 = user w1.
Proof.
  apply (openid_round_trip_links_named_object sample_settings connect_request
           "/accounts/login/" None get_request "https://example.com/press"
           "socialregistration/openid.html" ∅ "socialregistration/account_inactive.html"
           article_42 anonymous_world).
  - reflexivity.
  - reflexivity.
  - vm_compute. reflexivity.
Defined.

(** ** [twitter] without a user id *)

(** X23: when the user info of the Twitter client carries no [id] (and the
    token keys of the session hold dictionaries, so that reading the token
    raises nothing), [twitter] raises [KeyError] in each of its branches,
    connect object, logged-in user or anonymous visitor, before it has
    changed anything: the [DoesNotExist] handlers do not catch the failing
    lookup of the [id]. *)
Theorem twitter_without_id_raises
    settings request user_info account_inactive_template extra_context w :
  token_keys_are_dicts w ->
  user_info !! "id" = None ->
  twitter settings request user_info account_inactive_template extra_context w
  = Raise (KeyError "id") w.
Proof.
  intros Hd Hid.
  destruct (access_token_field_Ok "oauth_token" w Hd) as [tok Ht].
  destruct (access_token_field_Ok "oauth_token_secret" w Hd) as [sec Hs].
  unfold twitter. rewrite (bind_step _ _ _ _ _ Ht), (bind_step _ _ _ _ _ Hs).
  unfold bind at 1. unfold connect_object_in_session at 1, bind at 1, get_world at 1.
  unfold ret at 1.
  assert (Hanon :
    (returned <-
       (w0 <- get_world ;;
        match user w0 with
        | Some u =>
          twitter_get_or_create settings user_info u tok sec ;;;
          _get_next settings request ;;;
          next <- _get_next settings request ;;
          ret (Some (HttpResponseRedirect next))
        | None =>
          id <- lift_option (KeyError "id") (user_info !! "id") ;;
          u <- authenticate TwitterProfile id ;;
          match u with
          | None =>
            name <- lift_option (KeyError "screen_name") (user_info !! "screen_name") ;;
            session_set "socialregistration_profile"
              (VProfile (Profile_new settings TwitterProfile id name (Some tok) sec)) ;;;
            session_set "socialregistration_user" (VUser User_new) ;;;
            next <- _get_next settings request ;;
            session_set "next" next ;;;
            ret (Some (HttpResponseRedirect (VStr (socialregistration_setup_url settings))))
          | Some u =>
            if negb (is_active u) then
              ret (Some (render_to_response account_inactive_template extra_context))
            else login (Some u) ;;; ret None
          end
        end) ;;
     match returned with
     | Some response => ret response
     | None =>
       next_url <- _get_next settings request ;;
       ret (HttpResponseRedirect next_url)
     end) w = Raise (KeyError "id") w).
  { unfold bind at 1. unfold bind at 1, get_world at 1.
    destruct (user w) as [u|].
    - unfold bind at 1, twitter_get_or_create, try_except. unfold bind at 1.
      by rewrite Hid.
    - unfold bind at 1. by rewrite Hid. }
  assert (Hlink : forall v,
    (returned <-
       (twitter_link_object settings user_info v tok sec ;;;
        session_del "socialregistration_connect_object" ;;;
        ret None) ;;
     match returned with
     | Some response => ret response
     | None =>
       next_url <- _get_next settings request ;;
       ret (HttpResponseRedirect next_url)
     end) w = Raise (KeyError "id") w).
  { intros v. unfold bind at 1. unfold bind at 1, twitter_link_object, try_except.
    unfold bind at 1. by rewrite Hid. }
  destruct (session w !! "socialregistration_connect_object") as [v|];
    [destruct v |]; first [exact Hanon | apply Hlink].
Qed.

Lemma twitter_without_id_raises_witness :
  twitter sample_settings get_request {[ "screen_name" := "press_tw" ]}
          "socialregistration/account_inactive.html" ∅ connect_world
  = Raise (KeyError "id") connect_world.
Proof.
  apply (twitter_without_id_raises sample_settings get_request
           {[ "screen_name" := "press_tw" ]}
           "socialregistration/account_inactive.html" ∅ connect_world).
  - intros v Hv. discriminate.
  - reflexivity.
Defined.
